(** * htmlmut: HTML report of mutation-testing results

    Shallow embedding of [src/htmlmut.py] and the properties of its
    highlighter, status lattice, per-line aggregator and report naming.

    Python values are embedded as follows.
    - [str] is [string]; every character stands for one code point below
      256, which is the range the development covers.
    - [int] is [Z]; [len] is [Z.of_nat] of a length.
    - a [dict] is a [gmap]; a dict display inserts its items from left to
      right, so a repeated key keeps the last value.
    - a raised exception the source does not catch is a [Raise] result. *)

From Stdlib Require Import ZArith Ascii DecimalString Sorted.
From Stdlib Require String.
From stdpp Require Import base option list gmap strings.

Local Open Scope Z_scope.

(** ** Results of code that may raise *)

Inductive exn : Type :=
| IndexError
| KeyError (key : string)
| ValueError
| IndentationError (msg : string).

Inductive result (A : Type) : Type :=
| Ok (a : A)
| Raise (e : exn).
Arguments Ok {A} a.
Arguments Raise {A} e.

Global Instance result_ret : MRet result := λ A a, Ok a.

Global Instance result_bind : MBind result := λ A B k r,
  match r with
  | Ok a => k a
  | Raise e => Raise e
  end.

(** ** Python string primitives *)

Module Py.

(** The double quote character, and the characters [html.escape] and
    [str.splitlines] single out. *)
Definition dquote : ascii := "034"%char.
Definition dq : string := String dquote "".
Definition LF : ascii := "010"%char.
Definition CR : ascii := "013"%char.
Definition TAB : ascii := "009"%char.
Definition FF : ascii := "012"%char.

Definition chr (c : ascii) : string := String c "".

(** [len(s)] *)
Definition len (s : string) : Z := Z.of_nat (String.length s).

(** [bool(s)] for a string: the empty string is false. *)
Definition truthy (s : string) : bool :=
  match s with
  | "" => false
  | String _ _ => true
  end.

(** [n * " "]: a non-positive count gives the empty string. *)
Fixpoint spaces_nat (n : nat) : string :=
  match n with
  | O => ""
  | S n' => String " " (spaces_nat n')
  end.

Definition spaces (n : Z) : string := spaces_nat (Z.to_nat n).

(** [str(n)] for an [int]. *)
Definition str_of_int (n : Z) : string :=
  NilZero.string_of_int (Z.to_int n).

(** [f'{n:{w}}']: an [int] right-aligned in a field of width [w]. *)
Definition format_width (n w : Z) : string :=
  let s := str_of_int n in
  spaces (w - len s) +:+ s.

(** [html.escape(s)] with the default [quote=True]. The library runs
    five [replace] passes, [&] first; on every input that is the
    character-wise substitution below. *)
Definition escape_char (c : ascii) : string :=
  if Ascii.eqb c "&" then "&amp;"
  else if Ascii.eqb c "<" then "&lt;"
  else if Ascii.eqb c ">" then "&gt;"
  else if Ascii.eqb c dquote then "&quot;"
  else if Ascii.eqb c "'" then "&#x27;"
  else chr c.

Fixpoint escape (s : string) : string :=
  match s with
  | "" => ""
  | String c rest => escape_char c +:+ escape rest
  end.

(** [s.startswith(p)] *)
Definition startswith (s p : string) : bool := String.prefix p s.

(** [s[1:]] *)
Definition tail (s : string) : string :=
  match s with
  | "" => ""
  | String _ rest => rest
  end.

(** [sep.join(l)] *)
Definition join (sep : string) (l : list string) : string :=
  String.concat sep l.

(** [s[-n:]] for a positive [n]: the last [n] characters, or all of [s]. *)
Definition last_chars (n : nat) (s : string) : string :=
  let l := String.length s in
  String.substring (l - n) (Nat.min n l) s.

(** The line boundaries of [str.splitlines] below code point 256. *)
Definition is_line_boundary (c : ascii) : bool :=
  let n := nat_of_ascii c in
  (Nat.leb 10 n && Nat.leb n 13) || (Nat.leb 28 n && Nat.leb n 30)
  || Nat.eqb n 133.

(** [s.splitlines()]: pieces between line boundaries, a CR LF pair
    counting as one boundary, and no empty piece after a final
    boundary. [cur] is the piece read so far. *)
Fixpoint splitlines_from (cur s : string) : list string :=
  match s with
  | "" => if truthy cur then [cur] else []
  | String c rest =>
      if is_line_boundary c then
        cur :: splitlines_from ""
                 (if Ascii.eqb c CR then
                    match rest with
                    | String c' rest' => if Ascii.eqb c' LF then rest' else rest
                    | "" => rest
                    end
                  else rest)
      else splitlines_from (cur +:+ chr c) rest
  end.

Definition splitlines (s : string) : list string := splitlines_from "" s.

(** [s.replace(old, new)] for a non-empty [old]: occurrences are replaced
    from the left and do not overlap. [skip] counts the characters of a
    matched occurrence still to be dropped. *)
Fixpoint replace_from (old new : string) (skip : nat) (s : string) : string :=
  match s with
  | "" => ""
  | String c rest =>
      match skip with
      | S k => replace_from old new k rest
      | O =>
          if String.prefix old s
          then new +:+ replace_from old new (String.length old - 1) rest
          else String c (replace_from old new 0 rest)
      end
  end.

Definition replace (s old new : string) : string :=
  replace_from old new 0 s.

(** [dict.get(k, d)] *)
Definition get `{Countable K} {V} (m : gmap K V) (k : K) (d : V) : V :=
  default d (m !! k).

(** A dict display [{k1: v1, k2: v2, ...}]. *)
Definition dict `{Countable K} {V} (items : list (K * V)) : gmap K V :=
  foldl (λ m kv, <[kv.1 := kv.2]> m) ∅ items.

(** ** [str.format] with one keyword argument

    [template.format(key=value)] for a [str] value, as the formatter of
    CPython scans the template, one character at a time. Outside a field
    [{{] and [}}] stand for one brace, and a single [}] is an error. After
    a [{] the field name runs to the next [}], [:] or [!]; between [[]
    and []] these characters are part of the name, and a [{] in the name
    is an error. [!] is followed by one conversion character and then by
    [}] or [:]. The format specification after [:] runs to the [}] that
    closes the field, braces inside it nesting. A template that ends
    inside a field, or after a single brace, is an error. *)

Inductive fmt_state : Type :=
| InText
| AfterOpen
| AfterClose
| InName (name : string) (bracket : bool)
| AtConversion (name : string)
| AfterConversion (name : string) (conversion : ascii)
| InSpec (name : string) (conversion : option ascii) (spec : string)
    (count : nat).

Inductive transition : Type :=
| Next (st : fmt_state)
| Literal (c : ascii)
| Replace (name : string) (conversion : option ascii) (spec : string)
| Invalid.

Definition name_step (name : string) (bracket : bool) (c : ascii)
    : transition :=
  if bracket then Next (InName (name +:+ chr c) (negb (Ascii.eqb c "]")))
  else if Ascii.eqb c "{" then Invalid
  else if Ascii.eqb c "[" then Next (InName (name +:+ chr c) true)
  else if Ascii.eqb c "}" then Replace name None ""
  else if Ascii.eqb c ":" then Next (InSpec name None "" 1)
  else if Ascii.eqb c "!" then Next (AtConversion name)
  else Next (InName (name +:+ chr c) false).

Definition step (st : fmt_state) (c : ascii) : transition :=
  match st with
  | InText =>
      if Ascii.eqb c "{" then Next AfterOpen
      else if Ascii.eqb c "}" then Next AfterClose
      else Literal c
  | AfterOpen => if Ascii.eqb c "{" then Literal "{" else name_step "" false c
  | AfterClose => if Ascii.eqb c "}" then Literal "}" else Invalid
  | InName name bracket => name_step name bracket c
  | AtConversion name => Next (AfterConversion name c)
  | AfterConversion name conversion =>
      if Ascii.eqb c "}" then Replace name (Some conversion) ""
      else if Ascii.eqb c ":" then Next (InSpec name (Some conversion) "" 1)
      else Invalid
  | InSpec name conversion spec count =>
      if Ascii.eqb c "{" then
        Next (InSpec name conversion (spec +:+ chr c) (S count))
      else if Ascii.eqb c "}" then
        match count with
        | S (S n) => Next (InSpec name conversion (spec +:+ chr c) (S n))
        | _ => Replace name conversion spec
        end
      else Next (InSpec name conversion (spec +:+ chr c) count)
  end.

(** The field name up to its first [.] or [[], and the rest. *)
Fixpoint field_name_split (name : string) : string * string :=
  match name with
  | "" => ("", "")
  | String c rest =>
      if Ascii.eqb c "." || Ascii.eqb c "[" then ("", name)
      else let '(first, more) := field_name_split rest in (String c first, more)
  end.

(** A first part made of decimal digits is an index into the positional
    arguments; the formatter refuses one that does not fit [Py_ssize_t],
    here of 64 bits, while it reads the digits. *)
Definition PY_SSIZE_T_MAX : Z := 2 ^ 63 - 1.

Inductive index_scan : Type :=
| NotIndex
| Index (n : Z)
| TooManyDigits.

Fixpoint get_integer (accumulator : Z) (s : string) : index_scan :=
  match s with
  | "" => Index accumulator
  | String c rest =>
      let digitval := Z.of_nat (nat_of_ascii c) - 48 in
      if (0 <=? digitval) && (digitval <=? 9) then
        if accumulator >? (PY_SSIZE_T_MAX - digitval) / 10 then TooManyDigits
        else get_integer (accumulator * 10 + digitval) rest
      else NotIndex
  end.

(** The text a field stands for. There is no positional argument, so an
    empty or numeric first part raises [IndexError]; a first part other
    than [key] raises [KeyError]. The field [{key}], also written
    [{key:}], stands for [value] itself. A field of [key] with an
    attribute or an index, a conversion or a format specification is left
    to [field], which gets the rest of the name, the conversion, the
    specification and the value. *)
Definition render_field (key value : string)
    (field : string → option ascii → string → string → result string)
    (name : string) (conversion : option ascii) (spec : string)
    : result string :=
  let '(first, rest) := field_name_split name in
  if negb (truthy first) then Raise IndexError
  else
    match get_integer 0 first with
    | TooManyDigits => Raise ValueError
    | Index _ => Raise IndexError
    | NotIndex =>
        if String.eqb first key then
          match rest, conversion, spec with
          | "", None, "" => Ok value
          | _, _, _ => field rest conversion spec value
          end
        else Raise (KeyError first)
    end.

Fixpoint format_from (key value : string)
    (field : string → option ascii → string → string → result string)
    (st : fmt_state) (s : string) : result string :=
  match s with
  | "" =>
      match st with
      | InText => Ok ""
      | _ => Raise ValueError
      end
  | String c rest =>
      match step st c with
      | Next st' => format_from key value field st' rest
      | Literal c' =>
          tail ← format_from key value field InText rest;
          Ok (String c' tail)
      | Replace name conversion spec =>
          text ← render_field key value field name conversion spec;
          tail ← format_from key value field InText rest;
          Ok (text +:+ tail)
      | Invalid => Raise ValueError
      end
  end.

Definition format (template key value : string)
    (field : string → option ascii → string → string → result string)
    : result string :=
  format_from key value field InText template.

End Py.

(** ** Tokens of the [tokenize] module *)

Inductive tok_type : Type :=
| ENDMARKER | NAME | NUMBER | STRING | NEWLINE | INDENT | DEDENT | OP
| COMMENT | NL | ERRORTOKEN | FSTRING_START | FSTRING_MIDDLE | FSTRING_END.

Global Instance tok_type_eq_dec : EqDecision tok_type.
Proof. solve_decision. Defined.

(** The first four components of a token tuple; the loop of
    [highlight_code] discards the fifth. Positions are (row, column). *)
Record TokenInfo : Type := Token {
  toknum : tok_type;
  tokval : string;
  start : Z * Z;
  stop : Z * Z
}.

(** What iterating [tokenize.generate_tokens] does: it yields tokens and
    then either stops, or raises [tokenize.TokenError], whose [str] is
    [description], or raises an exception of another class. The tokenizer
    does the last on a line that returns to a column no enclosing block
    is indented to, with [IndentationError]; [highlight_code] has a
    handler for [TokenError] only. *)
Inductive tokenize_result : Type :=
| Finished (toks : list TokenInfo)
| TokenError (toks : list TokenInfo) (description : string)
| OtherError (toks : list TokenInfo) (e : exn).

(** ** Records of the mutation store *)

Module Line.
Record t : Type := Make { line : string; line_number : Z }.
End Line.

Module Mutant.
Record t : Type := Make { id : Z; line : Line.t; index : Z; status : string }.
End Mutant.

Record RelativeMutationID : Type := MkRelativeMutationID {
  rel_line : string;
  rel_index : Z;
  rel_line_number : Z
}.

(** A resolved [pathlib.Path], by its [parent] (as [str]) and its [name]. *)
Module Path.
Record t : Type := Make { parent : string; name : string }.

(** [out_path / fn] for a file name [fn] without separator. *)
Definition div (out_path : string) (fn : string) : t :=
  {| parent := out_path; name := fn |}.
End Path.

(** ** Names the module imports

    The status constants of [mutmut], [keyword.iskeyword],
    [tokenize.generate_tokens] over a [StringIO], the diff engine
    [mutmut.cache._get_unified_diff] and [pathlib.Path.resolve] are
    collaborators of the module; the embedding is parametric in them.
    So it is in [format_field], what [str.format] makes of a replacement
    field of its keyword argument that has an attribute or an index, a
    conversion or a format specification (see [Py.render_field]). *)
Class Imports : Type := {
  BAD_TIMEOUT : string;
  OK_SUSPICIOUS : string;
  BAD_SURVIVED : string;
  SKIPPED : string;
  UNTESTED : string;
  OK_KILLED : string;
  iskeyword : string → bool;
  generate_tokens : string → tokenize_result;
  synonyms : Type;
  _get_unified_diff :
    string → string → RelativeMutationID → synonyms → bool → string;
  resolve : string → Path.t;
  format_field : string → option ascii → string → string → result string
}.

(** ** Status lattice *)

Section StatusTables.
Context `{Imports}.

Definition MUTANT_STATUS2TEXT : gmap string string :=
  Py.dict [
    (BAD_SURVIVED, "Survivied");
    (BAD_TIMEOUT, "Timeout");
    (SKIPPED, "Skipped");
    (UNTESTED, "Untested");
    (OK_SUSPICIOUS, "Suspicious");
    (OK_KILLED, "Killed")
  ].

Definition MUTANT_STATUS2BG : gmap string string :=
  Py.dict [
    (BAD_SURVIVED, "bgred");
    (BAD_TIMEOUT, "bgorange");
    (SKIPPED, "bgray");
    (UNTESTED, "bgred");
    (OK_SUSPICIOUS, "bggreen");
    (OK_KILLED, "bggreen")
  ].
End StatusTables.

Definition COMBINE_BGS : gmap string (gmap string string) :=
  Py.dict [
    ("bgred", Py.dict [("bgred", "bgred"); ("bgorange", "bgred");
                       ("bggray", "bgred"); ("bggreen", "bgred")]);
    ("bgorange", Py.dict [("bgred", "bgred"); ("bgorange", "bgorange");
                          ("bggray", "bgorange"); ("bggreen", "bgorange")]);
    ("bgray", Py.dict [("bgred", "bgred"); ("bgorange", "bgorange");
                       ("bggray", "bggray"); ("bggreen", "bggreen")]);
    ("bggreen", Py.dict [("bgred", "bgred"); ("bgorange", "bgorange");
                         ("bggray", "bggreen"); ("bggreen", "bggreen")])
  ].

(** [COMBINE_BGS.get(txt_cls, {}).get(bg, 'bgred')], the fold step of
    [create_html_from_source]. *)
Definition combine (txt_cls bg : string) : string :=
  Py.get (Py.get COMBINE_BGS txt_cls ∅) bg "bgred".

(** ** Highlighter *)

Definition begin_indent (line : string) (start : Z * Z) (last_pos : Z) : string :=
  if negb (Py.truthy line) then
    if start.2 >? 0 then line +:+ Py.spaces start.2 else line
  else
    if start.2 >? last_pos then line +:+ Py.spaces (start.2 - last_pos) else line.

Definition span (text key : string) : string :=
  "<span class=" +:+ Py.dq +:+ key +:+ Py.dq +:+ ">"
  +:+ Py.escape text +:+ "</span>".

Definition span_key (val : string) : string := span val "k".
Definition span_str (val : string) : string := span val "s".
Definition span_num (val : string) : string := span val "n".
Definition span_cmt (val : string) : string := span val "c".

(** [l[0]] and [l[-1]] raise [IndexError] on the empty list. *)
Definition first_item {A} (l : list A) : result A :=
  match l with
  | [] => Raise IndexError
  | x :: _ => Ok x
  end.

Definition last_item {A} (l : list A) : result A :=
  match last l with
  | None => Raise IndexError
  | Some x => Ok x
  end.

(** [l[1:-1]] *)
Definition interior {A} (l : list A) : list A := removelast (List.tl l).

Section Highlighter.
Context `{Imports}.

(** [handle_token] extends the list [out] in place and returns the new
    accumulator; here it returns both. *)
Definition handle_token (out : list string) (line : string)
    (toknum : tok_type) (tokval : string) (start stop : Z * Z)
    : result (list string * string) :=
  if bool_decide (toknum = NAME) && iskeyword tokval then
    Ok (out, line +:+ span_key tokval)
  else if bool_decide (toknum = NUMBER) then
    Ok (out, line +:+ span_num tokval)
  else if bool_decide (toknum = STRING) then
    if stop.1 >? start.1 then
      let mline := Py.splitlines tokval in
      f0 ← first_item mline;
      let line := line +:+ span_str f0 in
      let out := out ++ [line] in
      let line := "" in
      let '(out, line) :=
        foldl (λ '(out, line) deltaline,
                 let line := line +:+ span_str deltaline in
                 (out ++ [line], ""))
              (out, line) (interior mline) in
      fl ← last_item mline;
      Ok (out, span_str fl)
    else
      Ok (out, line +:+ span_str tokval)
  else if bool_decide (toknum = COMMENT) then
    Ok (out, line +:+ span_cmt tokval)
  else if bool_decide (toknum ∈ [NL; NEWLINE; ENDMARKER]) then
    Ok (out ++ [line], "")
  else
    Ok (out, line +:+ Py.escape tokval).

(** The body of the [for] loop of [highlight_code], over the state
    [(out, line, last_pos)]. *)
Definition highlight_step (st : list string * string * Z) (tk : TokenInfo)
    : result (list string * string * Z) :=
  let '(out, line, last_pos) := st in
  let line := begin_indent line (start tk) last_pos in
  let last_pos := (stop tk).2 in
  '(out, line) ← handle_token out line (toknum tk) (tokval tk) (start tk) (stop tk);
  Ok (out, line, last_pos).

Fixpoint highlight_loop (toks : list TokenInfo) (st : list string * string * Z)
    : result (list string * string * Z) :=
  match toks with
  | [] => Ok st
  | tk :: toks' => st' ← highlight_step st tk; highlight_loop toks' st'
  end.

(** [highlight_code] on a given run of the tokenizer. A [TokenError]
    leaves the [try] block at the point it is raised, so the handler
    sees [out] as the loop left it and the statement after the loop is
    not executed. An exception of another class, raised after the tokens
    before it went through the loop, finds no handler and leaves
    [highlight_code]. *)
Definition highlight_tokens (r : tokenize_result) : result (list string) :=
  match r with
  | Finished toks =>
      '(out, line, _) ← highlight_loop toks ([], "", 0);
      Ok (if Py.truthy line then out ++ [line] else out)
  | TokenError toks exc =>
      '(out, _, _) ← highlight_loop toks ([], "", 0);
      Ok (out ++ [exc])
  | OtherError toks e =>
      _ ← highlight_loop toks ([], "", 0);
      Raise e
  end.

Definition highlight_code (source : string) : result (list string) :=
  highlight_tokens (generate_tokens source).

End Highlighter.

(** ** MD5 and UTF-8, as [hashlib.md5] and [str.encode] compute them *)

Module MD5.

Definition mask32 (x : Z) : Z := Z.land x 0xffffffff.
Definition not32 (x : Z) : Z := Z.lxor x 0xffffffff.
Definition rotl (x c : Z) : Z :=
  mask32 (Z.lor (Z.shiftl x c) (Z.shiftr x (32 - c))).

Definition shifts : list Z :=
  [7; 12; 17; 22; 7; 12; 17; 22; 7; 12; 17; 22; 7; 12; 17; 22;
   5; 9; 14; 20; 5; 9; 14; 20; 5; 9; 14; 20; 5; 9; 14; 20;
   4; 11; 16; 23; 4; 11; 16; 23; 4; 11; 16; 23; 4; 11; 16; 23;
   6; 10; 15; 21; 6; 10; 15; 21; 6; 10; 15; 21; 6; 10; 15; 21].

Definition sines : list Z :=
 [0xd76aa478; 0xe8c7b756; 0x242070db; 0xc1bdceee;
  0xf57c0faf; 0x4787c62a; 0xa8304613; 0xfd469501;
  0x698098d8; 0x8b44f7af; 0xffff5bb1; 0x895cd7be;
  0x6b901122; 0xfd987193; 0xa679438e; 0x49b40821;
  0xf61e2562; 0xc040b340; 0x265e5a51; 0xe9b6c7aa;
  0xd62f105d; 0x02441453; 0xd8a1e681; 0xe7d3fbc8;
  0x21e1cde6; 0xc33707d6; 0xf4d50d87; 0x455a14ed;
  0xa9e3e905; 0xfcefa3f8; 0x676f02d9; 0x8d2a4c8a;
  0xfffa3942; 0x8771f681; 0x6d9d6122; 0xfde5380c;
  0xa4beea44; 0x4bdecfa9; 0xf6bb4b60; 0xbebfbc70;
  0x289b7ec6; 0xeaa127fa; 0xd4ef3085; 0x04881d05;
  0xd9d4d039; 0xe6db99e5; 0x1fa27cf8; 0xc4ac5665;
  0xf4292244; 0x432aff97; 0xab9423a7; 0xfc93a039;
  0x655b59c3; 0x8f0ccc92; 0xffeff47d; 0x85845dd1;
  0x6fa87e4f; 0xfe2ce6e0; 0xa3014314; 0x4e0811a1;
  0xf7537e82; 0xbd3af235; 0x2ad7d2bb; 0xeb86d391].

(** The 64 operations, each with its number, shift and constant. *)
Definition schedule : list (Z * Z * Z) :=
  zip (zip (Z.of_nat <$> seq 0 64) shifts) sines.

Definition state : Type := Z * Z * Z * Z.

Definition initial : state :=
  (0x67452301, 0xefcdab89, 0x98badcfe, 0x10325476).

Definition operation (M : list Z) (st : state) (op : Z * Z * Z) : state :=
  let '(A, B, C, D) := st in
  let '(i, s, k) := op in
  let '(F, g) :=
    if i <? 16 then (Z.lor (Z.land B C) (Z.land (not32 B) D), i)
    else if i <? 32 then
      (Z.lor (Z.land D B) (Z.land (not32 D) C), (5 * i + 1) mod 16)
    else if i <? 48 then (Z.lxor (Z.lxor B C) D, (3 * i + 5) mod 16)
    else (Z.lxor C (Z.lor B (not32 D)), (7 * i) mod 16) in
  let F := mask32 (F + A + k + nth (Z.to_nat g) M 0) in
  (D, mask32 (B + rotl F s), B, C).

(** Little-endian 32-bit words of a block of bytes. *)
Fixpoint words (bytes : list Z) : list Z :=
  match bytes with
  | b0 :: b1 :: b2 :: b3 :: rest =>
      (b0 + 256 * (b1 + 256 * (b2 + 256 * b3))) :: words rest
  | _ => []
  end.

Definition compress (st : state) (block : list Z) : state :=
  let '(a0, b0, c0, d0) := st in
  let '(A, B, C, D) := foldl (operation (words block)) st schedule in
  (mask32 (a0 + A), mask32 (b0 + B), mask32 (c0 + C), mask32 (d0 + D)).

(** Bytes of [x], least significant first. *)
Fixpoint le_bytes (n : nat) (x : Z) : list Z :=
  match n with
  | O => []
  | S n' => (x mod 256) :: le_bytes n' (x / 256)
  end.

Definition pad (msg : list Z) : list Z :=
  let l := Z.of_nat (length msg) in
  msg ++ [0x80] ++ repeat 0 (Z.to_nat ((55 - l) mod 64))
      ++ le_bytes 8 ((8 * l) mod 2 ^ 64).

(** [blocks n bytes]: the first [n] blocks of 64 bytes. *)
Fixpoint blocks (n : nat) (bytes : list Z) : list (list Z) :=
  match n with
  | O => []
  | S n' => take 64 bytes :: blocks n' (drop 64 bytes)
  end.

Definition digest (msg : list Z) : list Z :=
  let padded := pad msg in
  let '(a, b, c, d) :=
    foldl compress initial (blocks (length padded / 64) padded) in
  le_bytes 4 a ++ le_bytes 4 b ++ le_bytes 4 c ++ le_bytes 4 d.

Definition hex_digit (n : Z) : ascii :=
  ascii_of_nat (Z.to_nat (if n <? 10 then 48 + n else 87 + n)).

Fixpoint hex (bytes : list Z) : string :=
  match bytes with
  | [] => ""
  | b :: rest => String (hex_digit (b / 16)) (String (hex_digit (b mod 16)) (hex rest))
  end.

(** [m = hashlib.md5(); m.update(data); m.hexdigest()] *)
Definition hexdigest (data : list Z) : string := hex (digest data).

End MD5.

Module Utf8.
(** [s.encode('utf-8')] on code points below 256. *)
Definition encode_char (c : ascii) : list Z :=
  let n := Z.of_nat (nat_of_ascii c) in
  if n <? 128 then [n] else [192 + n / 64; 128 + n mod 64].

Fixpoint encode (s : string) : list Z :=
  match s with
  | "" => []
  | String c rest => encode_char c ++ encode rest
  end.
End Utf8.

(** ** Report file names *)

Section Naming.
Context `{Imports}.

Definition create_hashed_html_filename
    (file_path : string) (out_path : string) (prefix : string) : Path.t :=
  let fn := resolve file_path in
  let p := Utf8.encode (Path.parent fn) in
  let name := Py.replace (Path.name fn) "." "_" in
  let out_fn :=
    prefix +:+ Py.last_chars 12 (MD5.hexdigest p) +:+ "_" +:+ name +:+ ".html" in
  Path.div out_path out_fn.

End Naming.

(** ** Line-mutation aggregator *)

(** [sorted(l, key=key)]: a stable sort, ascending in [key]. *)
Fixpoint insert_by {A} (key : A → Z) (x : A) (l : list A) : list A :=
  match l with
  | [] => [x]
  | y :: l' => if key x <=? key y then x :: l else y :: insert_by key x l'
  end.

Definition sorted {A} (l : list A) (key : A → Z) : list A :=
  foldr (insert_by key) [] l.

Definition get_added_lines (text : string) : string :=
  let result :=
    foldl (λ result line,
             if Py.startswith line "+" && negb (Py.startswith line "+++")
             then result ++ [Py.tail line]
             else result)
          [] (Py.splitlines text) in
  Py.join (Py.chr Py.LF) result.

Section Aggregator.
Context `{Imports}.

(** The loop state: the dict under construction and the lines printed. *)
Definition aggregate_step (source filename : string) (dict_synonyms : synonyms)
    (st : gmap Z (list (Mutant.t * string)) * list string) (mutant : Mutant.t)
    : gmap Z (list (Mutant.t * string)) * list string :=
  let '(line2mutations, printed) := st in
  let ln := Line.line_number (Mutant.line mutant) in
  let diff :=
    _get_unified_diff source filename
      (MkRelativeMutationID (Line.line (Mutant.line mutant))
         (Mutant.index mutant) ln)
      dict_synonyms false in
  let line2mutations :=
    if bool_decide (line2mutations !! ln = None)
    then <[ln := []]> line2mutations
    else line2mutations in
  if Mutant.index mutant =? Z.of_nat (length (line2mutations !!! ln)) then
    (<[ln := line2mutations !!! ln ++ [(mutant, get_added_lines diff)]]>
       line2mutations,
     printed)
  else
    (line2mutations,
     printed ++ ["Error, lost mutation: ln = " +:+ Py.str_of_int ln +:+ ":"
                 +:+ Py.str_of_int (Mutant.index mutant)
                 +:+ Line.line (Mutant.line mutant)]).

Definition get_mutations_for_each_line
    (mutants : list Mutant.t) (source filename : string)
    (dict_synonyms : synonyms)
    : gmap Z (list (Mutant.t * string)) * list string :=
  foldl (aggregate_step source filename dict_synonyms) (∅, [])
        (sorted mutants Mutant.id).

End Aggregator.

(** ** Report renderer *)

Fixpoint foldl_result {A B} (f : A → B → result A) (a : A) (l : list B)
    : result A :=
  match l with
  | [] => Ok a
  | b :: l' => a' ← f a b; foldl_result f a' l'
  end.

Definition html_content : string :=
  "<!DOCTYPE html>" +:+ Py.chr Py.LF +:+
  "<html>" +:+ Py.chr Py.LF +:+
  "    <head>" +:+ Py.chr Py.LF +:+
  "        <link rel=" +:+ Py.dq +:+ "stylesheet" +:+ Py.dq +:+ " href="
    +:+ Py.dq +:+ "htmlmut.css" +:+ Py.dq +:+ ">" +:+ Py.chr Py.LF +:+
  "        <script type=" +:+ Py.dq +:+ "text/javascript" +:+ Py.dq +:+ " src="
    +:+ Py.dq +:+ "htmlmut.js" +:+ Py.dq +:+ "></script>" +:+ Py.chr Py.LF +:+
  "    </head>" +:+ Py.chr Py.LF +:+
  "    <body>" +:+ Py.chr Py.LF +:+
  "        {highlighted_code}" +:+ Py.chr Py.LF +:+
  "    </body>" +:+ Py.chr Py.LF +:+
  "</html>" +:+ Py.chr Py.LF.

Section Renderer.
Context `{Imports}.

(** The body of the inner loop, over [(muts, txt_cls, mut_no, index)]. *)
Definition render_mutant (ln_w : Z) (st : string * string * Z * Z)
    (entry : Mutant.t * string) : result (string * string * Z * Z) :=
  let '(muts, txt_cls, mut_no, index) := st in
  let '(mutant, item) := entry in
  let st := Py.get MUTANT_STATUS2TEXT (Mutant.status mutant) "--ERROR--" in
  let bg := Py.get MUTANT_STATUS2BG (Mutant.status mutant) "bgred" in
  let txt_cls := combine txt_cls bg in
  let mut_no := mut_no + 1 in
  hl_item ← highlight_code item;
  hl_item_0 ← first_item hl_item;
  let muts :=
    muts +:+ "<p class=" +:+ Py.dq +:+ "mt " +:+ bg +:+ Py.dq
    +:+ "><span class=" +:+ Py.dq +:+ "ln" +:+ Py.dq +:+ ">"
    +:+ Py.spaces ln_w +:+ " </span>" +:+ hl_item_0
    +:+ "<span class=" +:+ Py.dq +:+ "r" +:+ Py.dq +:+ ">"
    +:+ st +:+ " mt #" +:+ Py.str_of_int mut_no
    +:+ " ndx " +:+ Py.str_of_int index +:+ "</span></p>" +:+ Py.chr Py.LF in
  Ok (muts, txt_cls, mut_no, index + 1).

(** The body of the outer loop, over [(line_no, result, mut_no)]. *)
Definition render_line (ln_w : Z)
    (line2mutations : gmap Z (list (Mutant.t * string)))
    (st : Z * string * Z) (line : string) : result (Z * string * Z) :=
  let '(line_no, result, mut_no) := st in
  let line_no := line_no + 1 in
  let muts := "" in
  let txt_cls := "bggreen" in
  '(muts, txt_cls, mut_no) ←
    match line2mutations !! line_no with
    | Some entries =>
        let muts :=
          muts +:+ "<div class=" +:+ Py.dq +:+ "mts" +:+ Py.dq +:+ " id="
          +:+ Py.dq +:+ "d" +:+ Py.str_of_int line_no +:+ Py.dq +:+ " style="
          +:+ Py.dq +:+ "display: none;" +:+ Py.dq +:+ ">" +:+ Py.chr Py.LF in
        '(muts, txt_cls, mut_no, _) ←
          foldl_result (render_mutant ln_w) (muts, txt_cls, mut_no, 0) entries;
        let muts := muts +:+ "</div>" +:+ Py.chr Py.LF in
        Ok (muts, Py.replace txt_cls "bg" "txt", mut_no)
    | None => Ok (muts, txt_cls, mut_no)
    end;
  let mut :=
    match line2mutations !! line_no with
    | Some entries =>
        "<span class=" +:+ Py.dq +:+ "r " +:+ txt_cls +:+ Py.dq
        +:+ " onclick=" +:+ Py.dq +:+ "toggle('d" +:+ Py.str_of_int line_no
        +:+ "');" +:+ Py.dq +:+ ">#mts "
        +:+ Py.str_of_int (Z.of_nat (length entries)) +:+ "</span>"
    | None => ""
    end in
  let result :=
    result +:+ "<p><span class=" +:+ Py.dq +:+ "ln" +:+ Py.dq +:+ ">"
    +:+ Py.format_width line_no ln_w +:+ " </span>" +:+ line +:+ mut
    +:+ "</p>" +:+ Py.chr Py.LF in
  Ok (line_no, result +:+ muts, mut_no).

(** The value of [output] in [create_html_from_source]: the text it
    writes to [report_path]. [template] is the value of the global
    [html_content] at the call. *)
Definition html_output (template : string)
    (hl_code : list string)
    (line2mutations : gmap Z (list (Mutant.t * string)))
    : result string :=
  let ln_w := Py.len (Py.str_of_int (Z.of_nat (length hl_code))) + 1 in
  '(_, result, _) ←
    foldl_result (render_line ln_w line2mutations) (-1, "", 0) hl_code;
  Py.format template "highlighted_code" result format_field.

(** The severity class of a line: the fold of [combine] over the classes
    of its mutants in processing order, from [bggreen]. *)
Definition line_class (statuses : list string) : string :=
  foldl (λ txt_cls status,
           combine txt_cls (Py.get MUTANT_STATUS2BG status "bgred"))
        "bggreen" statuses.

End Renderer.

(** ** The spec's merge table

    The second definition of the combination, written from the wording of
    the specification: four classes, red dominating everything, orange
    dominating gray and green, gray and green merging to green unless both
    are gray. [class_name] is the class string [MUTANT_STATUS2BG] uses. *)

Inductive ColorClass : Type := Red | Orange | Gray | Green.

Global Instance ColorClass_eq_dec : EqDecision ColorClass.
Proof. solve_decision. Defined.

Definition spec_combine (current new : ColorClass) : ColorClass :=
  match current, new with
  | Red, _ | _, Red => Red
  | Orange, _ | _, Orange => Orange
  | Gray, Gray => Gray
  | _, _ => Green
  end.

Definition class_name (c : ColorClass) : string :=
  match c with
  | Red => "bgred"
  | Orange => "bgorange"
  | Gray => "bgray"
  | Green => "bggreen"
  end.

(** ** A concrete environment

    The status constants are those of [mutmut]; the keyword list is
    [keyword.kwlist] of CPython 3; the tokenizer is a table of runs of
    CPython 3.11's [tokenize.generate_tokens] on the listed sources. *)

Module Sample.

Definition kwlist : list string :=
  ["False"; "None"; "True"; "and"; "as"; "assert"; "async"; "await";
   "break"; "class"; "continue"; "def"; "del"; "elif"; "else"; "except";
   "finally"; "for"; "from"; "global"; "if"; "import"; "in"; "is";
   "lambda"; "nonlocal"; "not"; "or"; "pass"; "raise"; "return"; "try";
   "while"; "with"; "yield"].

Definition py3_iskeyword (s : string) : bool := bool_decide (s ∈ kwlist).

Definition nl : string := Py.chr Py.LF.

(** [""] *)
Definition src_empty : string := "".
Definition run_empty : tokenize_result :=
  Finished [Token ENDMARKER "" (1, 0) (1, 0)].

(** ["x = 1  # comment\n"] *)
Definition src_comment : string := "x = 1  # comment" +:+ nl.
Definition run_comment : tokenize_result :=
  Finished [Token NAME "x" (1, 0) (1, 1);
            Token OP "=" (1, 2) (1, 3);
            Token NUMBER "1" (1, 4) (1, 5);
            Token COMMENT "# comment" (1, 7) (1, 16);
            Token NEWLINE nl (1, 16) (1, 17);
            Token ENDMARKER "" (2, 0) (2, 0)].

(** ["a\tb\n"] *)
Definition src_tab : string := "a" +:+ Py.chr Py.TAB +:+ "b" +:+ nl.
Definition run_tab : tokenize_result :=
  Finished [Token NAME "a" (1, 0) (1, 1);
            Token NAME "b" (1, 2) (1, 3);
            Token NEWLINE nl (1, 3) (1, 4);
            Token ENDMARKER "" (2, 0) (2, 0)].

(** ["  foo   bar\n"] *)
Definition src_indent : string := "  foo   bar" +:+ nl.
Definition run_indent : tokenize_result :=
  Finished [Token INDENT "  " (1, 0) (1, 2);
            Token NAME "foo" (1, 2) (1, 5);
            Token NAME "bar" (1, 8) (1, 11);
            Token NEWLINE nl (1, 11) (1, 12);
            Token DEDENT "" (2, 0) (2, 0);
            Token ENDMARKER "" (2, 0) (2, 0)].

(** ["x = (1,"]: the input ends inside the parenthesis. *)
Definition src_open_paren : string := "x = (1,".
Definition toks_open_paren : list TokenInfo :=
  [Token NAME "x" (1, 0) (1, 1);
   Token OP "=" (1, 2) (1, 3);
   Token OP "(" (1, 4) (1, 5);
   Token NUMBER "1" (1, 5) (1, 6);
   Token OP "," (1, 6) (1, 7)].
Definition run_open_paren : tokenize_result :=
  TokenError toks_open_paren "('EOF in multi-line statement', (2, 0))".

(** ["x = '''abc"]: the input ends inside the string. *)
Definition src_open_string : string := "x = '''abc".
Definition run_open_string : tokenize_result :=
  TokenError [Token NAME "x" (1, 0) (1, 1);
              Token OP "=" (1, 2) (1, 3)]
             "('EOF in multi-line string', (1, 4))".

(** ["x = '''a\nb\nc''' + y\n"] *)
Definition lit_three : string := "'''a" +:+ nl +:+ "b" +:+ nl +:+ "c'''".
Definition src_three : string := "x = " +:+ lit_three +:+ " + y" +:+ nl.
Definition run_three : tokenize_result :=
  Finished [Token NAME "x" (1, 0) (1, 1);
            Token OP "=" (1, 2) (1, 3);
            Token STRING lit_three (1, 4) (3, 4);
            Token OP "+" (3, 5) (3, 6);
            Token NAME "y" (3, 7) (3, 8);
            Token NEWLINE nl (3, 8) (3, 9);
            Token ENDMARKER "" (4, 0) (4, 0)].

(** ["s = '''a\x0cb\nc'''\n"]: a form feed inside the literal. *)
Definition lit_ff : string := "'''a" +:+ Py.chr Py.FF +:+ "b" +:+ nl +:+ "c'''".
Definition src_ff : string := "s = " +:+ lit_ff +:+ nl.
Definition run_ff : tokenize_result :=
  Finished [Token NAME "s" (1, 0) (1, 1);
            Token OP "=" (1, 2) (1, 3);
            Token STRING lit_ff (1, 4) (2, 4);
            Token NEWLINE nl (2, 4) (2, 5);
            Token ENDMARKER "" (3, 0) (3, 0)].

(** ["if a:\n\tb\n\tc d\n"]: a block indented with tabs. *)
Definition src_tab_block : string :=
  "if a:" +:+ nl +:+ Py.chr Py.TAB +:+ "b" +:+ nl
  +:+ Py.chr Py.TAB +:+ "c d" +:+ nl.
Definition run_tab_block : tokenize_result :=
  Finished [Token NAME "if" (1, 0) (1, 2);
            Token NAME "a" (1, 3) (1, 4);
            Token OP ":" (1, 4) (1, 5);
            Token NEWLINE nl (1, 5) (1, 6);
            Token INDENT (Py.chr Py.TAB) (2, 0) (2, 1);
            Token NAME "b" (2, 1) (2, 2);
            Token NEWLINE nl (2, 2) (2, 3);
            Token NAME "c" (3, 1) (3, 2);
            Token NAME "d" (3, 3) (3, 4);
            Token NEWLINE nl (3, 4) (3, 5);
            Token DEDENT "" (4, 0) (4, 0);
            Token ENDMARKER "" (4, 0) (4, 0)].

(** ["  a\n b\n"]: the second line returns to column 1, which no
    enclosing block is indented to. *)
Definition src_unindent : string := "  a" +:+ nl +:+ " b" +:+ nl.
Definition toks_unindent : list TokenInfo :=
  [Token INDENT "  " (1, 0) (1, 2);
   Token NAME "a" (1, 2) (1, 3);
   Token NEWLINE nl (1, 3) (1, 4)].
Definition run_unindent : tokenize_result :=
  OtherError toks_unindent
    (IndentationError
       "unindent does not match any outer indentation level (<tokenize>, line 2)").

(** The line [a], a space and a backslash, continued by the line [  b]:
    the first line ends with a backslash (code point 92). *)
Definition src_continued : string :=
  "a " +:+ Py.chr "092"%char +:+ nl +:+ "  b" +:+ nl.
Definition run_continued : tokenize_result :=
  Finished [Token NAME "a" (1, 0) (1, 1);
            Token NAME "b" (2, 2) (2, 3);
            Token NEWLINE nl (2, 3) (2, 4);
            Token ENDMARKER "" (3, 0) (3, 0)].

Definition recorded : list (string * tokenize_result) :=
  [(src_empty, run_empty); (src_comment, run_comment); (src_tab, run_tab);
   (src_indent, run_indent); (src_open_paren, run_open_paren);
   (src_open_string, run_open_string); (src_three, run_three);
   (src_ff, run_ff); (src_tab_block, run_tab_block);
   (src_unindent, run_unindent); (src_continued, run_continued)].

(** The recorded run of [source]; a source outside the table is treated
    like the empty one. *)
Definition recorded_tokens (source : string) : tokenize_result :=
  default run_empty
    (snd <$> List.find (λ p, String.eqb (fst p) source) recorded).

(** A diff engine for the examples: the mutated line is the original
    line text followed by a marker comment. *)
Definition unified_diff (source filename : string) (m : RelativeMutationID)
    (dict_synonyms : unit) (update_cache : bool) : string :=
  "--- " +:+ filename +:+ nl +:+ "+++ " +:+ filename +:+ nl
  +:+ "-" +:+ rel_line m +:+ nl
  +:+ "+" +:+ rel_line m +:+ "  # " +:+ Py.str_of_int (rel_index m) +:+ nl.

(** [resolve] on an absolute path without links or dots: the text
    before the last separator and the text after it. *)
Fixpoint has_sep (s : string) : bool :=
  match s with
  | "" => false
  | String c rest => Ascii.eqb c "/" || has_sep rest
  end.

Fixpoint basename (s : string) : string :=
  match s with
  | "" => ""
  | String c rest =>
      if has_sep rest then basename rest
      else if Ascii.eqb c "/" then rest else s
  end.

Definition plain_resolve (file_path : string) : Path.t :=
  let name := basename file_path in
  let keep := (String.length file_path - String.length name - 1)%nat in
  let parent := String.substring 0 keep file_path in
  {| Path.parent := if Py.truthy parent then parent else "/";
     Path.name := name |}.

(** The templates of the examples have no replacement field with an
    attribute, an index, a conversion or a specification; this stands in
    for the formatter of such fields. *)
Definition plain_field (rest : string) (conversion : option ascii)
    (spec value : string) : result string :=
  Ok value.

(** Mutants of line 5 for the aggregator: indices 0, 1, 2, and indices
    0 and 2, neither list in the order of the identifiers. *)
Definition line5 : Line.t := Line.Make "x = 1" 5.

Definition mutants_three : list Mutant.t :=
  [Mutant.Make 12 line5 1 "ok_killed";
   Mutant.Make 13 line5 2 "bad_survived";
   Mutant.Make 11 line5 0 "ok_killed"].

Definition mutants_gap : list Mutant.t :=
  [Mutant.Make 7 line5 2 "ok_killed";
   Mutant.Make 3 line5 0 "ok_killed"].

(** Two entries for line 5 with empty fragments. *)
Definition entries_line5 : list (Mutant.t * string) :=
  [(Mutant.Make 11 line5 0 "ok_killed", "");
   (Mutant.Make 12 line5 1 "bad_survived", "")].

Definition env : Imports := {|
  BAD_TIMEOUT := "bad_timeout";
  OK_SUSPICIOUS := "ok_suspicious";
  BAD_SURVIVED := "bad_survived";
  SKIPPED := "skipped";
  UNTESTED := "untested";
  OK_KILLED := "ok_killed";
  iskeyword := py3_iskeyword;
  generate_tokens := recorded_tokens;
  synonyms := unit;
  _get_unified_diff := unified_diff;
  resolve := plain_resolve;
  format_field := plain_field
|}.

End Sample.

(** ** Definitions used to state the properties *)

(** Removal of markup: everything from a [<] to the next [>] is dropped. *)
Fixpoint strip_from (in_tag : bool) (s : string) : string :=
  match s with
  | "" => ""
  | String c rest =>
      if in_tag then strip_from (negb (Ascii.eqb c ">")) rest
      else if Ascii.eqb c "<" then strip_from true rest
      else String c (strip_from false rest)
  end.

Definition strip_spans (s : string) : string := strip_from false s.

(** The runs of the tokenizer on which [highlight_code] returns: a run
    that stops without error, ending with the end marker, or a run that
    raises [TokenError]; every [STRING] token has a non-empty text. *)
Definition token_ok (tk : TokenInfo) : bool :=
  negb (bool_decide (toknum tk = STRING)) || Py.truthy (tokval tk).

Definition ends_with_endmarker (toks : list TokenInfo) : bool :=
  match last toks with
  | Some tk => bool_decide (toknum tk = ENDMARKER)
  | None => false
  end.

Definition run_ok (r : tokenize_result) : bool :=
  match r with
  | Finished toks => forallb token_ok toks && ends_with_endmarker toks
  | TokenError toks _ => forallb token_ok toks
  | OtherError _ _ => false
  end.

(** The number of line feeds of [s]. *)
Fixpoint count_LF (s : string) : nat :=
  match s with
  | "" => O
  | String c rest => ((if Ascii.eqb c Py.LF then 1 else 0) + count_LF rest)%nat
  end.

(** Every line boundary of [s] is a line feed. *)
Fixpoint only_LF_boundaries (s : string) : bool :=
  match s with
  | "" => true
  | String c rest =>
      (negb (Py.is_line_boundary c) || Ascii.eqb c Py.LF)
      && only_LF_boundaries rest
  end.

(** [s] is not empty and does not end with a line feed. *)
Fixpoint ends_inside_line (s : string) : bool :=
  match s with
  | "" => false
  | String c "" => negb (Ascii.eqb c Py.LF)
  | String _ rest => ends_inside_line rest
  end.

(** The display lines that carry a fragment of a token: those the token
    makes [handle_token] complete, and the accumulator it leaves. *)
Definition lines_of_token `{Imports} (out : list string) (line : string)
    (tk : TokenInfo) : result Z :=
  '(out', _) ← handle_token out line (toknum tk) (tokval tk) (start tk) (stop tk);
  Ok (Z.of_nat (length out') - Z.of_nat (length out) + 1).

(** A physical line laid out as tokens, each after a run of characters
    the tokenizer skips. Columns count characters. *)
Record chunk : Type := Chunk { blank : string; kind : tok_type; word : string }.

Fixpoint chunks_text (cs : list chunk) : string :=
  match cs with
  | [] => ""
  | c :: cs' => blank c +:+ word c +:+ chunks_text cs'
  end.

Fixpoint chunk_tokens (row col : Z) (cs : list chunk) : list TokenInfo :=
  match cs with
  | [] => []
  | c :: cs' =>
      let s := col + Py.len (blank c) in
      let e := s + Py.len (word c) in
      Token (kind c) (word c) (row, s) (row, e) :: chunk_tokens row e cs'
  end.

(** The tokens of the line [chunks_text cs +:+ trailing] followed by a
    line feed, on row [row]. *)
Definition line_tokens (row : Z) (cs : list chunk) (trailing : string)
    : list TokenInfo :=
  let e := Py.len (chunks_text cs) + Py.len trailing in
  chunk_tokens row 0 cs ++ [Token NEWLINE (Py.chr Py.LF) (row, e) (row, e + 1)].

Fixpoint all_spaces (s : string) : bool :=
  match s with
  | "" => true
  | String c rest => Ascii.eqb c " " && all_spaces rest
  end.


(** The mutants of one line that pass the index check, and those that
    fail it; [c] is the number of entries already stored for the line. *)
Fixpoint kept (c : Z) (ms : list Mutant.t) : list Mutant.t :=
  match ms with
  | [] => []
  | m :: ms' =>
      if Mutant.index m =? c then m :: kept (c + 1) ms' else kept c ms'
  end.

Fixpoint lost (c : Z) (ms : list Mutant.t) : list Mutant.t :=
  match ms with
  | [] => []
  | m :: ms' =>
      if Mutant.index m =? c then lost (c + 1) ms' else m :: lost c ms'
  end.

(** The mutants of line [n], in the order given. *)
Definition on_line (n : Z) (ms : list Mutant.t) : list Mutant.t :=
  filter (λ mu, Line.line_number (Mutant.line mu) = n) ms.

(** The mutants of [ms] that fail the index check when [seen] has been
    processed before them: those whose index is not the number of mutants
    of their line stored so far. *)
Fixpoint rejected_from (seen ms : list Mutant.t) : list Mutant.t :=
  match ms with
  | [] => []
  | mu :: ms' =>
      let stored := kept 0 (on_line (Line.line_number (Mutant.line mu)) seen) in
      (if Mutant.index mu =? Z.of_nat (length stored) then [] else [mu])
      ++ rejected_from (seen ++ [mu]) ms'
  end.

Section AggregatorSpec.
Context `{Imports}.

Definition mutation_entry (source filename : string) (dict_synonyms : synonyms)
    (m : Mutant.t) : Mutant.t * string :=
  (m, get_added_lines
        (_get_unified_diff source filename
           (MkRelativeMutationID (Line.line (Mutant.line m)) (Mutant.index m)
              (Line.line_number (Mutant.line m)))
           dict_synonyms false)).

Definition lost_message (m : Mutant.t) : string :=
  "Error, lost mutation: ln = "
  +:+ Py.str_of_int (Line.line_number (Mutant.line m)) +:+ ":"
  +:+ Py.str_of_int (Mutant.index m) +:+ Line.line (Mutant.line m).

(** What the dict holds for line [n] once the mutants [ms] are processed:
    nothing when no mutant is on the line, else the entries of the mutants
    of the line that passed the check. *)
Definition stored (source filename : string) (dict_synonyms : synonyms)
    (n : Z) (ms : list Mutant.t) : option (list (Mutant.t * string)) :=
  match on_line n ms with
  | [] => None
  | _ :: _ =>
      Some (mutation_entry source filename dict_synonyms <$> kept 0 (on_line n ms))
  end.
End AggregatorSpec.

Definition is_hex_digit (c : ascii) : bool :=
  let n := nat_of_ascii c in
  (Nat.leb 48 n && Nat.leb n 57) || (Nat.leb 97 n && Nat.leb n 102).

Fixpoint all_hex (s : string) : bool :=
  match s with
  | "" => true
  | String c rest => is_hex_digit c && all_hex rest
  end.

(** The digest part of a report name. *)
Definition digest12 `{Imports} (file_path : string) : string :=
  Py.last_chars 12 (MD5.hexdigest (Utf8.encode (Path.parent (resolve file_path)))).

(** ** Definitions used to state further properties *)

(** The number of display lines a token completes: a string token over
    several rows completes the line of its first fragment and one line for
    each interior fragment; a line-terminating token completes one line;
    any other token none. *)
Definition token_lines (tk : TokenInfo) : nat :=
  if bool_decide (toknum tk = STRING) && ((stop tk).1 >? (start tk).1) then
    S (length (interior (Py.splitlines (tokval tk))))
  else if bool_decide (toknum tk ∈ [NL; NEWLINE; ENDMARKER]) then 1%nat
  else 0%nat.

(** Whether the end of [s] is inside a tag, for [strip_from]. *)
Fixpoint tag_state (in_tag : bool) (s : string) : bool :=
  match s with
  | "" => in_tag
  | String c rest =>
      if in_tag then tag_state (negb (Ascii.eqb c ">")) rest
      else tag_state (Ascii.eqb c "<") rest
  end.

(** A token that does not end the line. *)
Definition inline (c : chunk) : bool :=
  negb (bool_decide (kind c ∈ [NL; NEWLINE; ENDMARKER])).

(** [s] holds no line boundary of [str.splitlines]. *)
Fixpoint no_boundary (s : string) : bool :=
  match s with
  | "" => true
  | String c rest => negb (Py.is_line_boundary c) && no_boundary rest
  end.

(** The test of [get_added_lines] on a line of the diff. *)
Definition added (line : string) : bool :=
  Py.startswith line "+" && negb (Py.startswith line "+++").

(** [c in s] for a character [c]. *)
Fixpoint contains (c : ascii) (s : string) : bool :=
  match s with
  | "" => false
  | String c' rest => Ascii.eqb c' c || contains c rest
  end.

(** The number of entries the dict holds for the first [n] display
    lines, numbered from 0. *)
Definition entries_upto (line2mutations : gmap Z (list (Mutant.t * string)))
    (first : Z) (n : nat) : nat :=
  sum_list ((λ i, length (default [] (line2mutations !! (first + Z.of_nat i))))
              <$> seq 0 n).

(** The class a line is displayed with, by the classes of its mutants: red
    when one of them is red or gray, else orange when one is orange, else
    green. *)
Definition shown_class `{Imports} (statuses : list string) : string :=
  let bgs := (λ status, Py.get MUTANT_STATUS2BG status "bgred") <$> statuses in
  if existsb (λ bg, String.eqb bg "bgred" || String.eqb bg "bgray") bgs
  then "bgred"
  else if existsb (λ bg, String.eqb bg "bgorange") bgs then "bgorange"
  else "bggreen".

(** A token on which [handle_token] completes the display line. *)
Definition line_end (tk : TokenInfo) : bool :=
  bool_decide (toknum tk ∈ [NL; NEWLINE; ENDMARKER]).

(** The tokens before a line leave it a display line of its own: there is
    none, or the last of them ends a line. After a token of any other
    kind, as before the second line of a statement continued with a
    backslash or before the text that follows a string over several
    rows, the display line goes on. *)
Definition at_line_start (before : list TokenInfo) : bool :=
  match last before with
  | None => true
  | Some tk => line_end tk
  end.



(** ** The report driver: grouping by source file

    [create_html_report] sorts the mutants of the store by the file name
    of their line's source file and groups them with [itertools.groupby].
    A mutant is paired here with that file name. *)

Module Row.
Record t : Type := Make { mutant : Mutant.t; filename : string }.
End Row.

(** [sorted(l, key=key)] for a key that is a [str]: stable, ascending in
    the order of the code points. *)
Fixpoint insert_by_str {A} (key : A → string) (x : A) (l : list A) : list A :=
  match l with
  | [] => [x]
  | y :: l' =>
      if String.leb (key x) (key y) then x :: l else y :: insert_by_str key x l'
  end.

Definition sorted_str {A} (l : list A) (key : A → string) : list A :=
  foldr (insert_by_str key) [] l.

(** [itertools.groupby(l, key=key)]: the maximal runs of consecutive
    elements with equal keys, each with its key. *)
Fixpoint groupby {A} (l : list A) (key : A → string) : list (string * list A) :=
  match l with
  | [] => []
  | x :: l' =>
      match groupby l' key with
      | (k, g) :: rest =>
          if String.eqb (key x) k then (k, x :: g) :: rest
          else (key x, [x]) :: (k, g) :: rest
      | [] => [(key x, [x])]
      end
  end.

(** ** The report driver: files, printed lines and the page template

    What the driver reads and changes: the files, a map from the (parent,
    name) of a path to the text [read_text] returns for the file, in
    which directories are taken to exist, so that
    [mkdir(parents=True, exist_ok=True)] changes nothing; the lines
    printed so far; and the global [html_content]. A
    statement runs from a state and leaves a state, whether it returns or
    raises: what was written or printed before an exception stays.
    [read_text] raises [FileNotFoundError] on a path without file; an
    exception of the highlighter or renderer passes through. *)

Module World.
Record t : Type := Make {
  files : gmap (string * string) string;
  printed : list string;
  template : string
}.
End World.

Inductive raised : Type :=
| FileNotFoundError
| Uncaught (e : exn).

Inductive outcome (A : Type) : Type :=
| Returns (a : A)
| Raises (e : raised).
Arguments Returns {A} a.
Arguments Raises {A} e.

Definition io (A : Type) : Type := World.t → outcome A * World.t.

Global Instance io_ret : MRet io := λ A a w, (Returns a, w).

Global Instance io_bind : MBind io := λ A B k m w,
  match m w with
  | (Returns a, w') => k a w'
  | (Raises e, w') => (Raises e, w')
  end.

Definition uncaught {A} (r : result A) : io A := λ w,
  match r with
  | Ok a => (Returns a, w)
  | Raise e => (Raises (Uncaught e), w)
  end.

(** A [for] loop that updates a local variable. *)
Fixpoint foldl_io {A B} (f : A → B → io A) (a : A) (l : list B) : io A :=
  match l with
  | [] => mret a
  | b :: l' => a' ← f a b; foldl_io f a' l'
  end.

Definition path_key (p : Path.t) : string * string :=
  (Path.parent p, Path.name p).

(** [p.read_text()], [p.write_text(data)] and [print(line)] *)
Definition read_text (p : Path.t) : io string := λ w,
  match World.files w !! path_key p with
  | Some data => (Returns data, w)
  | None => (Raises FileNotFoundError, w)
  end.

Definition write_text (p : Path.t) (data : string) : io unit := λ w,
  (Returns tt,
   World.Make (<[path_key p := data]> (World.files w)) (World.printed w)
     (World.template w)).

Definition print (line : string) : io unit := λ w,
  (Returns tt,
   World.Make (World.files w) (World.printed w ++ [line]) (World.template w)).

(** Reading and assigning the global [html_content]. *)
Definition get_html_content : io string := λ w, (Returns (World.template w), w).

Definition set_html_content (text : string) : io unit := λ w,
  (Returns tt, World.Make (World.files w) (World.printed w) text).

(** [copy_file_to_hashed_name]: it returns the path written. *)
Definition copy_file_to_hashed_name (file_path : Path.t) (out_path : string)
    (prefix : string) : io Path.t :=
  buf ← read_text file_path;
  let r_path :=
    Path.div out_path
      (prefix +:+ Py.last_chars 12 (MD5.hexdigest (Utf8.encode buf))
       +:+ "_" +:+ Path.name file_path) in
  _ ← write_text r_path buf;
  mret r_path.

Section Driver.
Context `{Imports}.

(** [create_html_from_source]: the page is made from the global
    [html_content] with [str.format] and written to [report_path]; the
    [mkdir] of the parent directory before the write changes nothing
    here. *)
Definition create_html_from_source (hl_code : list string)
    (line2mutations : gmap Z (list (Mutant.t * string)))
    (report_path : Path.t) : io unit :=
  template ← get_html_content;
  output ← uncaught (html_output template hl_code line2mutations);
  write_text report_path output.

(** The row of the index for one source file. *)
Definition index_row (report_path : Path.t) (filename : string) : string :=
  "<tr><td><a href=" +:+ Py.dq +:+ Path.name report_path +:+ Py.dq +:+ ">"
  +:+ filename +:+ "</a></td></tr>".

(** The body of the loop over the groups; it returns the new value of
    [index_data]. The source file is read at the path [resolve] gives
    for its name. The lines [get_mutations_for_each_line] prints are
    printed when it is called, before the source is highlighted. *)
Definition report_file (dict_synonyms : synonyms) (dir_path : string)
    (index_data : list string) (group : string * list Row.t)
    : io (list string) :=
  let '(filename, mutants) := group in
  _ ← print filename;
  let report_path := create_hashed_html_filename filename dir_path "zz_" in
  let index_data := index_data ++ [index_row report_path filename] in
  source ← read_text (resolve filename);
  let line2mutations :=
    get_mutations_for_each_line (Row.mutant <$> mutants) source filename
      dict_synonyms in
  _ ← foldl_io (λ _ line, print line) tt line2mutations.2;
  hl_code ← uncaught (highlight_code source);
  _ ← create_html_from_source hl_code line2mutations.1 report_path;
  mret index_data.

(** The body of the loop over the two assets. *)
Definition copy_asset (this_dir_path dir_path : string) (_ : unit)
    (name : string) : io unit :=
  new_name ← copy_file_to_hashed_name (Path.div this_dir_path name) dir_path
                "zx_";
  html_content ← get_html_content;
  set_html_content (Py.replace html_content name (Path.name new_name)).

(** [create_html_report] on the mutants [rows] that [Mutant.select()]
    gives. [dir_path] is the resolved output directory, whose [mkdir]
    changes nothing here, and [this_dir_path] the directory of the
    module. *)
Definition create_html_report (rows : list Row.t) (dict_synonyms : synonyms)
    (dir_path this_dir_path : string) : io unit :=
  let mutants := sorted_str rows Row.filename in
  _ ← foldl_io (copy_asset this_dir_path dir_path) tt
        ["htmlmut.js"; "htmlmut.css"];
  let index_data :=
    ["<h1>Mutation files</h1>"; "<table><thead><tr><th>File</th></thead>"] in
  index_data ←
    foldl_io (report_file dict_synonyms dir_path) index_data
      (groupby mutants Row.filename);
  let index_data := index_data ++ ["</table></body></html>"] in
  let index_path := Path.div dir_path "index.html" in
  write_text index_path (Py.join (Py.chr Py.LF) index_data +:+ Py.chr Py.LF).

End Driver.

(** A store with one mutant of one source file, the source file and the
    two assets of the module, before anything is printed. *)
Module Run.
Definition files : gmap (string * string) string :=
  {[ ("/pkg", "htmlmut.js") := "function toggle(id) {}";
     ("/pkg", "htmlmut.css") := "p { margin: 0 }";
     ("/src", "a.py") := Sample.src_comment ]}.

Definition rows : list Row.t :=
  [Row.Make (Mutant.Make 1 (Line.Make "x = 1  # comment" 0) 0 "ok_killed")
     "/src/a.py"].

Definition world : World.t := World.Make files [] html_content.
End Run.

(** * Properties *)

(** ** The models of the library functions on known values *)

Example splitlines_ex :
  Py.splitlines ("a" +:+ Py.chr Py.CR +:+ Py.chr Py.LF +:+ "b" +:+ Py.chr Py.LF)
  = ["a"; "b"].
Proof. vm_compute. reflexivity. Qed.

Example replace_ex : Py.replace "bggreen" "bg" "txt" = "txtgreen".
Proof. vm_compute. reflexivity. Qed.

Example format_ex : Py.format_width 7 3 = "  7".
Proof. vm_compute. reflexivity. Qed.

Example last_ex : Py.last_chars 3 "abcdef" = "def".
Proof. vm_compute. reflexivity. Qed.

Example md5_empty : MD5.hexdigest [] = "d41d8cd98f00b204e9800998ecf8427e".
Proof. vm_compute. reflexivity. Qed.

Example md5_abc :
  MD5.hexdigest (Utf8.encode "abc") = "900150983cd24fb0d6963f7d28e17f72".
Proof. vm_compute. reflexivity. Qed.

Example md5_two_blocks :
  MD5.hexdigest (Utf8.encode
    "12345678901234567890123456789012345678901234567890123456789012345678901234567890")
  = "57edf4a22be3c955ac49da2e2107b67a".
Proof. vm_compute. reflexivity. Qed.


(** The example of the specification: ["x = 1  # comment\n"] gives one
    display line (and the empty line of the end marker). *)
Example highlight_comment_line :
  highlight_code (H := Sample.env) Sample.src_comment
  = Ok ["x = " +:+ span_num "1" +:+ "  " +:+ span_cmt "# comment"; ""].
Proof. vm_compute. reflexivity. Qed.

Example resolve_ex :
  Sample.plain_resolve "/work/a/utils.py" = Path.Make "/work/a" "utils.py".
Proof. vm_compute. reflexivity. Qed.

Example filename_ex :
  create_hashed_html_filename (H := Sample.env) "/work/a/utils.py" "htmlmut" "zz_"
  = Path.Make "htmlmut" "zz_bfa4dcc18f69_utils_py.html".
Proof. vm_compute. reflexivity. Qed.

(** ** Strings: append, length, escaping *)

Lemma str_app_nil_l (s : string) : "" +:+ s = s.
Proof. reflexivity. Qed.

Lemma str_app_cons (c : ascii) (s t : string) :
  String c s +:+ t = String c (s +:+ t).
Proof. reflexivity. Qed.

Ltac str_norm := rewrite ?str_app_cons, ?str_app_nil_l.

Lemma str_app_nil_r (s : string) : s +:+ "" = s.
Proof. induction s as [|c s IH]; [done|]. str_norm. by rewrite IH. Qed.

Lemma str_app_assoc (s t u : string) : (s +:+ t) +:+ u = s +:+ t +:+ u.
Proof. induction s as [|c s IH]; [done|]. str_norm. by rewrite IH. Qed.

Lemma len_app (s t : string) : Py.len (s +:+ t) = Py.len s + Py.len t.
Proof.
  unfold Py.len. induction s as [|c s IH]; [done|].
  str_norm. cbn [String.length]. lia.
Qed.

Lemma len_nonneg (s : string) : 0 ≤ Py.len s.
Proof. unfold Py.len. lia. Qed.

Lemma len_zero (s : string) : Py.len s = 0 → s = "".
Proof. destruct s; [done|]. unfold Py.len. cbn [String.length]. lia. Qed.

Lemma truthy_false (s : string) : Py.truthy s = false → s = "".
Proof. by destruct s. Qed.

Lemma escape_app (s t : string) : Py.escape (s +:+ t) = Py.escape s +:+ Py.escape t.
Proof.
  induction s as [|c s IH]; [done|].
  str_norm. cbn [Py.escape]. by rewrite IH, str_app_assoc.
Qed.

Lemma escape_char_truthy (c : ascii) (s : string) :
  Py.truthy (Py.escape_char c +:+ s) = true.
Proof.
  unfold Py.escape_char.
  repeat (match goal with |- context [if ?b then _ else _] => destruct b end);
    reflexivity.
Qed.

Lemma escape_truthy (s : string) : Py.truthy (Py.escape s) = Py.truthy s.
Proof. destruct s as [|c s]; [done|]. cbn [Py.escape]. apply escape_char_truthy. Qed.

Lemma spaces_all_spaces (s : string) :
  all_spaces s = true → s = Py.spaces (Py.len s).
Proof.
  unfold Py.spaces, Py.len. rewrite Nat2Z.id.
  induction s as [|c s IH]; [done|]. cbn [all_spaces String.length Py.spaces_nat].
  intros [Hc Hs]%andb_true_iff. apply Ascii.eqb_eq in Hc as ->.
  by rewrite <- IH.
Qed.

Lemma escape_all_spaces (s : string) : all_spaces s = true → Py.escape s = s.
Proof.
  induction s as [|c s IH]; [done|]. cbn [all_spaces Py.escape].
  intros [Hc Hs]%andb_true_iff. apply Ascii.eqb_eq in Hc as ->.
  rewrite IH by done. reflexivity.
Qed.

(** Escaped text holds no [<], so stripping markup leaves it as it is. *)
Lemma strip_escape (s t : string) :
  strip_from false (Py.escape s +:+ t) = Py.escape s +:+ strip_from false t.
Proof.
  induction s as [|c s IH]; [done|].
  cbn [Py.escape]. rewrite str_app_assoc. unfold Py.escape_char.
  destruct (Ascii.eqb c "&") eqn:E1; [str_norm; cbn; by rewrite IH|].
  destruct (Ascii.eqb c "<") eqn:E2; [str_norm; cbn; by rewrite IH|].
  destruct (Ascii.eqb c ">") eqn:E3; [str_norm; cbn; by rewrite IH|].
  destruct (Ascii.eqb c Py.dquote) eqn:E4; [str_norm; cbn; by rewrite IH|].
  destruct (Ascii.eqb c "'") eqn:E5; [str_norm; cbn; by rewrite IH|].
  unfold Py.chr. str_norm. cbn [strip_from]. rewrite E2. by rewrite IH.
Qed.

Lemma strip_spans_escape (s : string) : strip_spans (Py.escape s) = Py.escape s.
Proof.
  unfold strip_spans. rewrite <- (str_app_nil_r (Py.escape s)) at 1.
  rewrite strip_escape. apply str_app_nil_r.
Qed.

(** Stripping the markup of a span gives the escaped text, once. *)
Lemma strip_spans_span (text key : string) :
  key ∈ ["k"; "n"; "s"; "c"] → strip_spans (span text key) = Py.escape text.
Proof.
  intros Hkey. unfold strip_spans, span.
  assert (Hopen : ∀ t, strip_from false
            ("<span class=" +:+ Py.dq +:+ key +:+ Py.dq +:+ ">" +:+ t)
          = strip_from false t).
  { intros t.
    repeat (apply elem_of_cons in Hkey as [->|Hkey]; [reflexivity|]).
    by apply elem_of_nil in Hkey. }
  rewrite Hopen, strip_escape. apply str_app_nil_r.
Qed.

(** Escaping is not idempotent: text escaped twice differs from text
    escaped once as soon as it holds a special character. *)
Example escape_twice : Py.escape (Py.escape "a<b") ≠ Py.escape "a<b".
Proof. vm_compute. discriminate. Qed.

(** ** Status lattice *)



(** C1. The table as the source has it, on the class strings that
    [MUTANT_STATUS2BG] produces: it agrees with the merge table of the
    specification except in the gray column, where the inner dicts are
    keyed [bggray] and the lookup of [bgray] falls back to [bgred]. A
    line with a timed-out and a skipped mutant, and a line with one
    skipped mutant, are therefore displayed red. *)
Theorem combine_gray_column_falls_to_red :
  (∀ a b : ColorClass,
     combine (class_name a) (class_name b)
     = class_name (if decide (b = Gray) then Red else spec_combine a b))
  ∧ spec_combine Orange Gray = Orange
  ∧ spec_combine Gray Gray = Gray
  ∧ spec_combine Green Gray = Green
  ∧ line_class (H := Sample.env) ["bad_timeout"; "skipped"] = "bgred"
  ∧ line_class (H := Sample.env) ["skipped"] = "bgred".
Proof.
  split; [|repeat split; vm_compute; reflexivity].
  intros [] []; vm_compute; reflexivity.
Qed.




(** ** Highlighter: runs of the loop *)

Lemma append_truthy (s : string) (c : ascii) : Py.truthy (s +:+ Py.chr c) = true.
Proof. by destruct s. Qed.

Lemma splitlines_from_nonempty (s cur : string) :
  Py.truthy cur || Py.truthy s = true → Py.splitlines_from cur s ≠ [].
Proof.
  revert cur. induction s as [|c rest IH]; intros cur Hne; simpl.
  - rewrite orb_false_r in Hne. by rewrite Hne.
  - destruct (Py.is_line_boundary c); [done|].
    apply IH. by rewrite append_truthy.
Qed.

Lemma last_item_ok {A} (l : list A) : l ≠ [] → ∃ x, last_item l = Ok x.
Proof.
  intros Hne. unfold last_item.
  destruct (last l) as [x|] eqn:Hl; [by exists x|].
  apply last_None in Hl. done.
Qed.

Section HighlighterFacts.
Context `{Imports}.

Lemma handle_token_ok (out : list string) (line : string) (tk : TokenInfo) :
  token_ok tk = true →
  ∃ out' line',
    handle_token out line (toknum tk) (tokval tk) (start tk) (stop tk)
    = Ok (out', line').
Proof.
  intros Hok. unfold handle_token.
  destruct (bool_decide (toknum tk = NAME) && iskeyword (tokval tk)); [by eauto|].
  destruct (bool_decide (toknum tk = NUMBER)); [by eauto|].
  destruct (bool_decide (toknum tk = STRING)) eqn:Hstr.
  - destruct ((stop tk).1 >? (start tk).1); [|by eauto].
    unfold token_ok in Hok. rewrite Hstr in Hok. simpl in Hok.
    assert (Hne : Py.splitlines (tokval tk) ≠ []).
    { apply splitlines_from_nonempty. by rewrite Hok, orb_true_r. }
    destruct (Py.splitlines (tokval tk)) as [|f0 rest] eqn:Hsplit; [done|].
    simpl. destruct (foldl _ _ _) as [out1 line1].
    destruct (last_item_ok (f0 :: rest)) as [fl ->]; [done|].
    simpl. by eauto.
  - destruct (bool_decide (toknum tk = COMMENT)); [by eauto|].
    destruct (bool_decide (toknum tk ∈ [NL; NEWLINE; ENDMARKER])); by eauto.
Qed.

Lemma highlight_step_ok (st : list string * string * Z) (tk : TokenInfo) :
  token_ok tk = true → ∃ st', highlight_step st tk = Ok st'.
Proof.
  intros Hok. destruct st as [[out line] last_pos]. unfold highlight_step.
  destruct (handle_token_ok out (begin_indent line (start tk) last_pos) tk Hok)
    as (out' & line' & ->).
  simpl. by eauto.
Qed.

Lemma highlight_loop_ok (toks : list TokenInfo) (st : list string * string * Z) :
  forallb token_ok toks = true → ∃ st', highlight_loop toks st = Ok st'.
Proof.
  revert st. induction toks as [|tk toks IH]; intros st Hok; simpl.
  - by eauto.
  - apply andb_true_iff in Hok as [Htk Hrest].
    destruct (highlight_step_ok st tk Htk) as [st1 ->]. simpl. by apply IH.
Qed.

Lemma highlight_loop_app (l1 l2 : list TokenInfo) (st : list string * string * Z) :
  highlight_loop (l1 ++ l2) st = (st' ← highlight_loop l1 st; highlight_loop l2 st').
Proof.
  revert st. induction l1 as [|tk l1 IH]; intros st; simpl; [done|].
  destruct (highlight_step st tk) as [st1|e]; simpl; [apply IH|done].
Qed.

Lemma highlight_loop_snoc (pre : list TokenInfo) (tk : TokenInfo)
    (st st' : list string * string * Z) :
  highlight_loop pre st = Ok st' →
  highlight_loop (pre ++ [tk]) st = highlight_step st' tk.
Proof.
  intros Hpre. rewrite highlight_loop_app, Hpre. simpl.
  by destruct (highlight_step st' tk).
Qed.

(** The end marker completes the line being accumulated. *)
Lemma highlight_step_endmarker (out : list string) (line : string)
    (last_pos : Z) (tk : TokenInfo) :
  toknum tk = ENDMARKER →
  highlight_step (out, line, last_pos) tk
  = Ok (out ++ [begin_indent line (start tk) last_pos], "", (stop tk).2).
Proof. intros Hty. unfold highlight_step, handle_token. by rewrite Hty. Qed.

Lemma ends_with_endmarker_inv (toks : list TokenInfo) :
  ends_with_endmarker toks = true →
  ∃ pre tk, toks = pre ++ [tk] ∧ toknum tk = ENDMARKER.
Proof.
  unfold ends_with_endmarker. intros Hend.
  destruct (last toks) as [tk|] eqn:Hlast; [|done].
  apply last_Some in Hlast as [pre ->].
  exists pre, tk. split; [done|]. by apply bool_decide_eq_true in Hend.
Qed.

(** After a run that ends with the end marker the accumulator is empty,
    so the statement that follows the loop in [highlight_code] adds
    nothing; the list is what the loop completed, and it is not empty. *)
Lemma highlight_loop_finished (toks : list TokenInfo) :
  forallb token_ok toks = true → ends_with_endmarker toks = true →
  ∃ pre l last_pos, highlight_loop toks ([], "", 0) = Ok (pre ++ [l], "", last_pos).
Proof.
  intros Hok Hend.
  apply ends_with_endmarker_inv in Hend as (pre & tk & -> & Hty).
  rewrite forallb_app in Hok. apply andb_true_iff in Hok as [Hpre _].
  destruct (highlight_loop_ok pre ([], "", 0) Hpre) as [[[out line] lp] Hloop].
  rewrite (highlight_loop_snoc _ _ _ _ Hloop).
  rewrite highlight_step_endmarker; [|done]. by eauto.
Qed.

(** On a [TokenError] the result is the list the loop had completed,
    followed by the description as it is; the accumulator is not part
    of it. *)
Lemma highlight_tokens_TokenError (toks : list TokenInfo) (exc : string) :
  highlight_tokens (TokenError toks exc)
  = (st ← highlight_loop toks ([], "", 0); Ok (st.1.1 ++ [exc])).
Proof.
  unfold highlight_tokens.
  destruct (highlight_loop toks ([], "", 0)) as [[[out line] lp]|e]; done.
Qed.

End HighlighterFacts.

(** A run of the tokenizer that meets [run_ok] is highlighted to at least
    one line. *)
Lemma highlight_tokens_first `{Imports} (r : tokenize_result) :
  run_ok r = true → ∃ l ls, highlight_tokens r = Ok (l :: ls).
Proof.
  intros Hrun. destruct r as [toks|toks exc|toks e]; simpl in Hrun;
    [| |discriminate].
  - apply andb_true_iff in Hrun as [Hok Hend].
    destruct (highlight_loop_finished toks Hok Hend) as (pre & l & lp & Hloop).
    unfold highlight_tokens. rewrite Hloop. simpl.
    destruct pre as [|l0 pre]; simpl; by eauto.
  - rewrite highlight_tokens_TokenError.
    destruct (highlight_loop_ok toks ([], "", 0) Hrun) as [[[out line] lp] ->].
    simpl. destruct out as [|l0 out]; simpl; by eauto.
Qed.

(** X18. On every source whose tokenizer run meets [run_ok], that is,
    ends with the end marker or raises [TokenError], [highlight_code]
    returns a list with a first element, so the [hl_item[0]] of the
    renderer does not raise. *)
Theorem highlight_code_nonempty `{Imports} (source : string) :
  run_ok (generate_tokens source) = true →
  ∃ l ls, highlight_code source = Ok (l :: ls)
          ∧ (hl_item ← highlight_code source; first_item hl_item) = Ok l.
Proof.
  intros Hrun. unfold highlight_code.
  destruct (highlight_tokens_first _ Hrun) as (l & ls & ->).
  by exists l, ls.
Qed.

Lemma highlight_code_nonempty_witness :
  run_ok (generate_tokens (Imports := Sample.env) "") = true
  ∧ ∃ l ls, highlight_code (H := Sample.env) "" = Ok (l :: ls)
            ∧ (hl_item ← highlight_code (H := Sample.env) ""; first_item hl_item)
              = Ok l.
Proof.
  split; [reflexivity|].
  apply (highlight_code_nonempty (H := Sample.env) ""). reflexivity.
Defined.

(** The fragment of a mutant may be empty; it is highlighted to one empty
    line. *)
Example highlight_empty_fragment :
  highlight_code (H := Sample.env) "" = Ok [""].
Proof. vm_compute. reflexivity. Qed.

(** ** Highlighter: the error path *)

(** C10. On the source of the two lines [  a] and [ b] the tokenizer
    yields the three tokens of the first line and raises
    [IndentationError], the second line returning to a column that no
    block is indented to. [highlight_code] catches [TokenError] only: it
    returns no list, the exception leaves it, and it leaves the renderer
    that highlights such a fragment. The last part states it for every
    run that ends with an exception other than [TokenError]. *)
Theorem highlight_code_indentation_error :
  generate_tokens (Imports := Sample.env) Sample.src_unindent
  = OtherError Sample.toks_unindent
      (IndentationError
         "unindent does not match any outer indentation level (<tokenize>, line 2)")
  ∧ highlight_code (H := Sample.env) Sample.src_unindent
    = Raise
        (IndentationError
           "unindent does not match any outer indentation level (<tokenize>, line 2)")
  ∧ render_mutant (H := Sample.env) 2 ("", "bggreen", 0, 0)
      (Mutant.Make 1 (Line.Make "  a" 0) 0 "ok_killed", Sample.src_unindent)
    = Raise
        (IndentationError
           "unindent does not match any outer indentation level (<tokenize>, line 2)")
  ∧ ∀ (env : Imports) (toks : list TokenInfo) (e : exn),
      ∃ e', highlight_tokens (OtherError toks e) = Raise e'.
Proof.
  split; [reflexivity|]. split; [vm_compute; reflexivity|].
  split; [vm_compute; reflexivity|].
  intros env toks e. unfold highlight_tokens.
  destruct (highlight_loop toks ([], "", 0)) as [st|e0]; by eexists.
Qed.

(** C4. On the source [x = (1,] the tokenizer yields five tokens and
    raises. The loop has completed no line and holds the text of the
    five tokens in its accumulator; [highlight_code] returns the
    description alone, so the accumulated line is not in the result. The
    last part states the error path for every run. *)
Theorem highlight_code_error_drops_accumulator :
  highlight_loop (H := Sample.env) Sample.toks_open_paren ([], "", 0)
  = Ok ([], "x = (" +:+ span_num "1" +:+ ",", 7)
  ∧ highlight_code (H := Sample.env) Sample.src_open_paren
    = Ok ["('EOF in multi-line statement', (2, 0))"]
  ∧ ∀ (env : Imports) (toks : list TokenInfo) (exc : string),
      highlight_tokens (TokenError toks exc)
      = (st ← highlight_loop toks ([], "", 0); Ok (st.1.1 ++ [exc])).
Proof.
  split; [vm_compute; reflexivity|].
  split; [vm_compute; reflexivity|].
  intros env toks exc. apply highlight_tokens_TokenError.
Qed.

(** C6. The description of a [TokenError] enters the result as it is,
    whatever characters it holds: for the source [x = '''abc] the last
    line holds the apostrophes of the description, which [html.escape]
    would have replaced. *)
Theorem highlight_code_error_text_not_escaped :
  highlight_code (H := Sample.env) Sample.src_open_string
  = Ok ["('EOF in multi-line string', (1, 4))"]
  ∧ Py.escape "('EOF in multi-line string', (1, 4))"
    = "(&#x27;EOF in multi-line string&#x27;, (1, 4))"
  ∧ ∀ (env : Imports) (exc : string),
      highlight_tokens (TokenError [] exc) = Ok [exc].
Proof.
  split; [vm_compute; reflexivity|].
  split; [vm_compute; reflexivity|].
  intros env exc. reflexivity.
Qed.

(** Outside the error path every token text is escaped once: a token
    that neither ends a line nor is a string over several rows adds one
    piece to the accumulator, and the piece without its markup is the
    escaped text of the token. *)
Lemma handle_token_escapes_once `{Imports} (out : list string)
    (line : string) (ty : tok_type) (val : string) (s e : Z * Z) :
  ty ∉ [NL; NEWLINE; ENDMARKER] →
  (ty = STRING → e.1 ≤ s.1) →
  ∃ piece,
    handle_token out line ty val s e = Ok (out, line +:+ piece)
    ∧ strip_spans piece = Py.escape val.
Proof.
  intros Hterm Hrows. unfold handle_token.
  assert (Hk : ∀ k, k ∈ ["k"; "n"; "s"; "c"] →
                    strip_spans (span val k) = Py.escape val)
    by (intros k Hin; by apply strip_spans_span).
  destruct ty; cbn [bool_decide decide_rel andb];
    try (eexists; split; [reflexivity|]; apply strip_spans_escape).
  - exfalso. apply Hterm. set_solver.
  - destruct (iskeyword val);
      (eexists; split; [reflexivity|]).
    + apply Hk. set_solver.
    + apply strip_spans_escape.
  - eexists; split; [reflexivity|]. apply Hk. set_solver.
  - replace (e.1 >? s.1) with false
      by (symmetry; rewrite Z.gtb_ltb; apply Z.ltb_ge; auto).
    eexists; split; [reflexivity|]. apply Hk. set_solver.
  - exfalso. apply Hterm. set_solver.
  - eexists; split; [reflexivity|]. apply Hk. set_solver.
  - exfalso. apply Hterm. set_solver.
Qed.

(** ** Highlighter: lines of plain tokens *)

Section PlainLines.
Context `{Imports}.




End PlainLines.

(** ** Highlighter: lines of their own *)

Section LineStart.
Context `{Imports}.

Lemma highlight_step_line_end (out : list string) (line : string)
    (last_pos : Z) (tk : TokenInfo) :
  line_end tk = true →
  highlight_step (out, line, last_pos) tk
  = Ok (out ++ [begin_indent line (start tk) last_pos], "", (stop tk).2).
Proof.
  unfold line_end, highlight_step, handle_token. intros Hend.
  destruct (toknum tk); vm_compute in Hend; try discriminate Hend;
    reflexivity.
Qed.

(** At the start of a line the accumulator is empty. *)
Lemma at_line_start_empty (before : list TokenInfo) (out : list string)
    (line : string) (last_pos : Z) :
  at_line_start before = true →
  highlight_loop before ([], "", 0) = Ok (out, line, last_pos) →
  line = "".
Proof.
  unfold at_line_start. destruct (last before) as [tk|] eqn:Hlast.
  - apply last_Some in Hlast as [pre ->]. intros Hend.
    rewrite highlight_loop_app.
    destruct (highlight_loop pre ([], "", 0)) as [[[out1 line1] lp1]|e];
      [|discriminate].
    cbn [mbind result_bind highlight_loop].
    rewrite highlight_step_line_end by done. cbn [mbind result_bind].
    by intros [= _ <- _].
  - apply last_None in Hlast as ->. by intros _ [= _ <- _].
Qed.

End LineStart.



(** This layout is the recorded run of ["  foo   bar\n"]. *)
Example run_indent_layout :
  Sample.run_indent
  = Finished
      (line_tokens 1
         [Chunk "" INDENT "  "; Chunk "" NAME "foo"; Chunk "   " NAME "bar"] ""
       ++ [Token DEDENT "" (2, 0) (2, 0); Token ENDMARKER "" (2, 0) (2, 0)]).
Proof. reflexivity. Qed.


(** A block indented with tabs: the tab of the first line of the block is
    the text of its indentation token and is kept; the next line of the
    block has no such token and its tab is displayed as one space. *)
Example tab_indented_block :
  highlight_code (H := Sample.env) Sample.src_tab_block
  = Ok [span_key "if" +:+ " a:"; Py.chr Py.TAB +:+ "b"; " c d"; ""].
Proof. vm_compute. reflexivity. Qed.

(** ** Highlighter: string literals over several lines *)

Lemma splitlines_from_length (s cur : string) :
  only_LF_boundaries s = true →
  length (Py.splitlines_from cur s)
  = (count_LF s
     + (if ends_inside_line s || (negb (Py.truthy s) && Py.truthy cur)
        then 1 else 0))%nat.
Proof.
  revert cur. induction s as [|c rest IH]; intros cur Honly.
  - cbn. by destruct (Py.truthy cur).
  - cbn [only_LF_boundaries] in Honly.
    apply andb_true_iff in Honly as [Hc Hrest].
    cbn [Py.splitlines_from count_LF].
    destruct (Py.is_line_boundary c) eqn:Hb.
    + cbn in Hc. apply Ascii.eqb_eq in Hc as ->.
      change (Ascii.eqb Py.LF Py.CR) with false. cbn iota.
      change (Ascii.eqb Py.LF Py.LF) with true.
      cbn [length]. rewrite (IH "" Hrest).
      destruct rest as [|c' rest']; [reflexivity|].
      cbn [ends_inside_line Py.truthy negb andb]. rewrite !orb_false_r.
      cbn [Ascii.eqb]. lia.
    + assert (Hne : Ascii.eqb c Py.LF = false).
      { destruct (Ascii.eqb_spec c Py.LF) as [->|]; [|done]. by vm_compute in Hb. }
      rewrite Hne. rewrite (IH _ Hrest). rewrite append_truthy.
      destruct rest as [|c' rest']; cbn [ends_inside_line Py.truthy negb andb].
      * rewrite Hne. reflexivity.
      * by rewrite !orb_false_r.
Qed.

Lemma list_ends {A} (l : list A) :
  (2 ≤ length l)%nat → ∃ x mids y, l = x :: mids ++ [y].
Proof.
  destruct l as [|x rest]; cbn [length]; [lia|]. intros Hlen.
  destruct (exists_last (l := rest)) as (mids & y & ->).
  { destruct rest; cbn [length] in Hlen; [lia|done]. }
  by exists x, mids, y.
Qed.

Lemma interior_ends {A} (x y : A) (mids : list A) :
  interior (x :: mids ++ [y]) = mids.
Proof. unfold interior. cbn [List.tl]. apply removelast_last. Qed.

Lemma last_item_ends {A} (x y : A) (mids : list A) :
  last_item (x :: mids ++ [y]) = Ok y.
Proof.
  unfold last_item. rewrite app_comm_cons, last_snoc. reflexivity.
Qed.

Lemma interior_loop (mids : list string) (out : list string) :
  foldl (λ '(out, line) deltaline,
           let line := line +:+ span_str deltaline in (out ++ [line], ""))
        (out, "") mids
  = (out ++ (span_str <$> mids), "").
Proof.
  revert out. induction mids as [|d mids IH]; intros out; cbn [foldl fmap list_fmap].
  - by rewrite app_nil_r.
  - rewrite str_app_nil_l, IH, <- app_assoc. reflexivity.
Qed.

(** The ordinary case of a string token over rows [a < b]: when the
    [b - a] line feeds of its text are its only line boundaries (and the
    text ends inside a line, as a literal does with its closing quote),
    it is split in [b - a + 1] fragments. The first is appended to the
    accumulator and completes the line, each interior one is a line of its
    own, and the last becomes the new accumulator: [b - a + 1] display
    lines carry the token. *)
Theorem multiline_string_lines `{Imports} (out : list string) (line val : string)
    (s e : Z * Z) :
  s.1 < e.1 →
  only_LF_boundaries val = true →
  Z.of_nat (count_LF val) = e.1 - s.1 →
  ends_inside_line val = true →
  ∃ f0 mids fl,
    Py.splitlines val = f0 :: mids ++ [fl]
    ∧ handle_token out line STRING val s e
      = Ok ((out ++ [line +:+ span_str f0]) ++ (span_str <$> mids), span_str fl)
    ∧ lines_of_token out line (Token STRING val s e) = Ok (e.1 - s.1 + 1).
Proof.
  intros Hrows Honly Hcount Hend.
  pose proof (splitlines_from_length val "" Honly) as Hlen.
  rewrite Hend in Hlen. cbn [orb] in Hlen. fold (Py.splitlines val) in Hlen.
  destruct (list_ends (Py.splitlines val)) as (f0 & mids & fl & Hsplit); [lia|].
  assert (Hhandle : handle_token out line STRING val s e
    = Ok ((out ++ [line +:+ span_str f0]) ++ (span_str <$> mids), span_str fl)).
  { unfold handle_token. cbn [bool_decide decide_rel andb].
    replace (e.1 >? s.1) with true by (symmetry; apply Z.gtb_lt; lia).
    rewrite Hsplit. cbn [first_item mbind result_bind].
    rewrite interior_ends, interior_loop, last_item_ends. reflexivity. }
  exists f0, mids, fl. split; [done|]. split; [done|].
  unfold lines_of_token. cbn [toknum tokval start stop]. rewrite Hhandle.
  cbn [mbind result_bind]. f_equal.
  rewrite Hsplit in Hlen. cbn [length] in Hlen.
  rewrite !length_app, length_fmap in *. cbn [length] in *. lia.
Qed.

(** A literal on rows 1 to 3 after the text [x = ]. *)
Example multiline_string_lines_three_rows :
  (1 < 3)
  ∧ ∃ f0 mids fl,
      Py.splitlines Sample.lit_three = f0 :: mids ++ [fl]
      ∧ handle_token (H := Sample.env) [] "x = " STRING Sample.lit_three (1, 4) (3, 4)
        = Ok (([] ++ ["x = " +:+ span_str f0]) ++ (span_str <$> mids), span_str fl)
      ∧ lines_of_token (H := Sample.env) [] "x = "
          (Token STRING Sample.lit_three (1, 4) (3, 4))
        = Ok (3 - 1 + 1).
Proof.
  split; [lia|].
  apply (multiline_string_lines (H := Sample.env) [] "x = " Sample.lit_three
           (1, 4) (3, 4)); [simpl; lia|reflexivity|reflexivity|reflexivity].
Qed.

(** The whole source of that literal: three lines for it, the last
    one shared with the tokens that follow it. *)
Example highlight_three_line_literal :
  highlight_code (H := Sample.env) Sample.src_three
  = Ok ["x = " +:+ span_str "'''a"; span_str "b"; span_str "c'''" +:+ " + y"; ""].
Proof. vm_compute. reflexivity. Qed.

(** C5. The literal ['''a<FF>b<LF>c'''] of the source
    [s = '''a<FF>b<LF>c'''<LF>] is on rows 1 and 2, with one line feed in its
    text; [str.splitlines] also splits at the form feed, so three display
    lines carry the token instead of two, and the source of two physical
    lines is displayed on three (before the line of the end marker). *)
Theorem multiline_string_form_feed_extra_line :
  toknum (Token STRING Sample.lit_ff (1, 4) (2, 4)) = STRING
  ∧ Z.of_nat (count_LF Sample.lit_ff) = 2 - 1
  ∧ lines_of_token (H := Sample.env) [] "s = "
      (Token STRING Sample.lit_ff (1, 4) (2, 4))
    = Ok 3
  ∧ lines_of_token (H := Sample.env) [] "s = "
      (Token STRING Sample.lit_ff (1, 4) (2, 4))
    ≠ Ok (2 - 1 + 1)
  ∧ highlight_code (H := Sample.env) Sample.src_ff
    = Ok ["s = " +:+ span_str "'''a"; span_str "b"; span_str "c'''"; ""].
Proof.
  split; [reflexivity|]. split; [reflexivity|].
  split; [vm_compute; reflexivity|].
  split; [vm_compute; discriminate|]. vm_compute. reflexivity.
Qed.

(** ** Aggregator *)

Lemma insert_by_Forall {A} (P : A → Prop) (key : A → Z) (x : A) (l : list A) :
  P x → Forall P l → Forall P (insert_by key x l).
Proof.
  intros Hx. induction 1 as [|y l Hy Hl IH]; cbn [insert_by].
  - by constructor.
  - destruct (key x <=? key y); repeat constructor; done.
Qed.

Lemma sorted_Forall {A} (P : A → Prop) (key : A → Z) (l : list A) :
  Forall P l → Forall P (sorted l key).
Proof.
  unfold sorted. induction 1 as [|x l Hx Hl IH]; cbn [foldr]; [constructor|].
  by apply insert_by_Forall.
Qed.

Lemma insert_by_length {A} (key : A → Z) (x : A) (l : list A) :
  length (insert_by key x l) = S (length l).
Proof.
  induction l as [|y l IH]; cbn [insert_by]; [done|].
  destruct (key x <=? key y); cbn [length]; by rewrite ?IH.
Qed.

Lemma sorted_length {A} (key : A → Z) (l : list A) :
  length (sorted l key) = length l.
Proof.
  unfold sorted. induction l as [|x l IH]; cbn [foldr]; [done|].
  by rewrite insert_by_length, IH.
Qed.

(** With consecutive indices from [c] on, every mutant is kept. *)
Lemma kept_consecutive (ms : list Mutant.t) (c : nat) :
  Mutant.index <$> ms = Z.of_nat <$> seq c (length ms) →
  kept (Z.of_nat c) ms = ms ∧ lost (Z.of_nat c) ms = [].
Proof.
  revert c. induction ms as [|m ms IH]; intros c Hidx; [done|].
  cbn [fmap list_fmap length seq] in Hidx. injection Hidx as Hm Hrest.
  cbn [kept lost]. rewrite Hm, Z.eqb_refl.
  replace (Z.of_nat c + 1) with (Z.of_nat (S c)) by lia.
  destruct (IH (S c) Hrest) as [-> ->]. done.
Qed.

Section AggregatorFacts.
Context `{Imports}.
Context (source filename : string) (dict_synonyms : synonyms).

Local Abbreviation step := (aggregate_step source filename dict_synonyms).
Local Abbreviation entry := (mutation_entry source filename dict_synonyms).

(** One step of the loop: the entry is appended to the list of its line
    when the index is the length of that list; otherwise the list is left
    as it is (created empty when the line was new) and a line is printed. *)
Lemma aggregate_step_spec (line2mutations : gmap Z (list (Mutant.t * string)))
    (printed : list string) (mutant : Mutant.t) :
  let ln := Line.line_number (Mutant.line mutant) in
  let cur := default [] (line2mutations !! ln) in
  step (line2mutations, printed) mutant
  = if Mutant.index mutant =? Z.of_nat (length cur)
    then (<[ln := cur ++ [entry mutant]]> line2mutations, printed)
    else (<[ln := cur]> line2mutations, printed ++ [lost_message mutant]).
Proof.
  intros ln cur. unfold aggregate_step, mutation_entry, lost_message. fold ln.
  destruct (line2mutations !! ln) as [es|] eqn:Hlook.
  - case_bool_decide; [done|].
    rewrite (lookup_total_correct _ _ _ Hlook). subst cur.
    change (default [] (Some es)) with es.
    destruct (Mutant.index mutant =? Z.of_nat (length es)); [done|].
    by rewrite insert_id.
  - case_bool_decide; [|done].
    rewrite lookup_total_insert_eq. subst cur.
    change (default [] None) with (@nil (Mutant.t * string)).
    destruct (Mutant.index mutant =? Z.of_nat (length [])); [|done].
    by rewrite insert_insert_eq.
Qed.

(** The loop over mutants of one line [n], once the line has a list. *)
Lemma aggregate_line (n : Z) (ms : list Mutant.t) :
  ∀ (m : gmap Z (list (Mutant.t * string))) (printed : list string)
    (cur : list (Mutant.t * string)),
    Forall (λ mu, Line.line_number (Mutant.line mu) = n) ms →
    m !! n = Some cur →
    foldl step (m, printed) ms
    = (<[n := cur ++ (entry <$> kept (Z.of_nat (length cur)) ms)]> m,
       printed ++ (lost_message <$> lost (Z.of_nat (length cur)) ms)).
Proof.
  induction ms as [|mu ms IH]; intros m printed cur Hline Hcur.
  - cbn. rewrite !app_nil_r. by rewrite insert_id.
  - apply Forall_cons in Hline as [Hmu Hms].
    cbn [foldl kept lost]. rewrite aggregate_step_spec. rewrite Hmu, Hcur.
    change (default [] (Some cur)) with cur.
    destruct (Mutant.index mu =? Z.of_nat (length cur)).
    + rewrite (IH _ _ (cur ++ [entry mu])); [|done|by rewrite lookup_insert_eq].
      rewrite insert_insert_eq, length_app, <- app_assoc. cbn [length].
      replace (Z.of_nat (length cur + 1)) with (Z.of_nat (length cur) + 1) by lia.
      done.
    + rewrite (IH _ _ cur); [|done|by rewrite lookup_insert_eq].
      rewrite insert_insert_eq, <- app_assoc. done.
Qed.

Lemma kept_snoc (l : list Mutant.t) (mu : Mutant.t) :
  ∀ c, kept c (l ++ [mu])
       = kept c l
         ++ (if Mutant.index mu =? c + Z.of_nat (length (kept c l))
             then [mu] else []).
Proof.
  induction l as [|x l IH]; intros c; cbn [app kept length].
  - by rewrite Z.add_0_r.
  - destruct (Mutant.index x =? c).
    + rewrite IH. cbn [app length].
      replace (c + 1 + Z.of_nat (length (kept (c + 1) l)))
        with (c + Z.of_nat (S (length (kept (c + 1) l)))) by lia.
      done.
    + apply IH.
Qed.

Lemma on_line_snoc (n : Z) (seen : list Mutant.t) (mu : Mutant.t) :
  on_line n (seen ++ [mu])
  = on_line n seen
    ++ (if decide (Line.line_number (Mutant.line mu) = n) then [mu] else []).
Proof.
  unfold on_line. rewrite filter_app. reflexivity.
Qed.

Lemma stored_default (n : Z) (ms : list Mutant.t) :
  default [] (stored source filename dict_synonyms n ms)
  = entry <$> kept 0 (on_line n ms).
Proof. unfold stored. by destruct (on_line n ms) eqn:Hon. Qed.

(** The loop on any list of mutants, from a dict that holds what the
    mutants [seen] have stored. *)
Lemma aggregate_all (ms : list Mutant.t) :
  ∀ (seen : list Mutant.t) (m : gmap Z (list (Mutant.t * string)))
    (printed : list string),
    (∀ n, m !! n = stored source filename dict_synonyms n seen) →
    ∃ m',
      foldl step (m, printed) ms
      = (m', printed ++ (lost_message <$> rejected_from seen ms))
      ∧ ∀ n, m' !! n = stored source filename dict_synonyms n (seen ++ ms).
Proof.
  induction ms as [|mu ms IH]; intros seen m printed Hinv.
  - exists m. cbn. by rewrite !app_nil_r.
  - cbn [foldl rejected_from]. rewrite aggregate_step_spec.
    set (ln := Line.line_number (Mutant.line mu)).
    rewrite (Hinv ln), stored_default, length_fmap.
    set (cur := kept 0 (on_line ln seen)).
    assert (Hsnoc : on_line ln (seen ++ [mu]) = on_line ln seen ++ [mu]).
    { rewrite on_line_snoc. by rewrite decide_True. }
    assert (Hother : ∀ n, n ≠ ln →
              stored source filename dict_synonyms n (seen ++ [mu])
              = stored source filename dict_synonyms n seen).
    { intros n Hn. unfold stored. rewrite on_line_snoc.
      rewrite decide_False by done. by rewrite app_nil_r. }
    assert (Hstored : stored source filename dict_synonyms ln (seen ++ [mu])
              = Some (entry <$> (cur ++ (if Mutant.index mu =? Z.of_nat (length cur)
                                         then [mu] else [])))).
    { unfold stored. rewrite Hsnoc, kept_snoc. fold cur.
      rewrite Z.add_0_l. by destruct (on_line ln seen). }
    destruct (Mutant.index mu =? Z.of_nat (length cur)) eqn:Hidx.
    + destruct (IH (seen ++ [mu])
                  (<[ln := (entry <$> cur) ++ [entry mu]]> m) printed)
        as (m' & Hloop & Hinv').
      { intros n. destruct (decide (n = ln)) as [->|Hn].
        - rewrite lookup_insert_eq, Hstored, fmap_app. done.
        - rewrite lookup_insert_ne by done. rewrite Hother by done. apply Hinv. }
      exists m'. rewrite Hloop. split; [done|].
      intros n. rewrite (Hinv' n), <- app_assoc. done.
    + destruct (IH (seen ++ [mu]) (<[ln := entry <$> cur]> m)
                  (printed ++ [lost_message mu]))
        as (m' & Hloop & Hinv').
      { intros n. destruct (decide (n = ln)) as [->|Hn].
        - rewrite lookup_insert_eq, Hstored, app_nil_r. done.
        - rewrite lookup_insert_ne by done. rewrite Hother by done. apply Hinv. }
      exists m'. rewrite Hloop. split.
      * rewrite <- app_assoc. done.
      * intros n. rewrite (Hinv' n), <- app_assoc. done.
Qed.

End AggregatorFacts.

(** X1. Every list of mutants, every line: the dict holds for line [n] the
    entries of the mutants of that line that passed the index check, in
    the order of the identifiers, and no key for a line without mutant;
    one line is printed for each mutant that failed the check. *)
Lemma get_mutations_all_lines `{Imports} (mutants : list Mutant.t)
    (source filename : string) (dict_synonyms : synonyms) :
  let ms := sorted mutants Mutant.id in
  let r := get_mutations_for_each_line mutants source filename dict_synonyms in
  (∀ n, r.1 !! n = stored source filename dict_synonyms n ms)
  ∧ r.2 = lost_message <$> rejected_from [] ms.
Proof.
  intros ms r. subst r. unfold get_mutations_for_each_line. fold ms.
  destruct (aggregate_all source filename dict_synonyms ms [] ∅ [])
    as (m' & -> & Hinv).
  { intros n. by rewrite lookup_empty. }
  split; [exact Hinv|done].
Qed.

(** C3. For the mutants of one line [n], taken in the order of their
    identifiers: the dict has the one key [n], with the entries of the
    mutants that pass the index check, in order, and one line is printed
    for each mutant that fails it, naming the line number, the index and
    the line text. With indices 0, 1, ..., k-1 every mutant is stored and
    nothing is printed; with indices 0 and 2 the first is stored and the
    second is reported. The last part is the rule of a single step, for
    any state of the loop. *)
Theorem get_mutations_index_check `{Imports} (mutants : list Mutant.t)
    (source filename : string) (dict_synonyms : synonyms) (n : Z) :
  mutants ≠ [] →
  Forall (λ mu, Line.line_number (Mutant.line mu) = n) mutants →
  let ms := sorted mutants Mutant.id in
  let entry := mutation_entry source filename dict_synonyms in
  let r := get_mutations_for_each_line mutants source filename dict_synonyms in
  r = ({[ n := entry <$> kept 0 ms ]}, lost_message <$> lost 0 ms)
  ∧ (Mutant.index <$> ms = Z.of_nat <$> seq 0 (length ms) →
     r = ({[ n := entry <$> ms ]}, []))
  ∧ (Mutant.index <$> ms = [0; 2] →
     ∃ m0 m2, ms = [m0; m2] ∧ r = ({[ n := [entry m0] ]}, [lost_message m2]))
  ∧ (∀ line2mutations printed mutant,
       let ln := Line.line_number (Mutant.line mutant) in
       let cur := default [] (line2mutations !! ln) in
       aggregate_step source filename dict_synonyms (line2mutations, printed) mutant
       = if Mutant.index mutant =? Z.of_nat (length cur)
         then (<[ln := cur ++ [entry mutant]]> line2mutations, printed)
         else (<[ln := cur]> line2mutations, printed ++ [lost_message mutant])).
Proof.
  intros Hne Hline ms entry r.
  assert (Hr : r = ({[ n := entry <$> kept 0 ms ]}, lost_message <$> lost 0 ms)).
  { subst r. unfold get_mutations_for_each_line. fold ms.
    assert (Hms : Forall (λ mu, Line.line_number (Mutant.line mu) = n) ms)
      by by apply sorted_Forall.
    assert (Hlen : length ms = length mutants) by apply sorted_length.
    destruct ms as [|mu ms'].
    { destruct mutants; [done|]. cbn [length] in Hlen. lia. }
    apply Forall_cons in Hms as [Hmu Hms'].
    cbn [foldl kept lost]. rewrite aggregate_step_spec, Hmu, lookup_empty.
    change (default [] None) with (@nil (Mutant.t * string)).
    cbn [length]. change (Z.of_nat 0) with 0.
    destruct (Mutant.index mu =? 0).
    - rewrite (aggregate_line _ _ _ n ms' _ _ ([] ++ [mutation_entry source filename dict_synonyms mu]));
        [|done|by rewrite lookup_insert_eq].
      rewrite insert_insert_eq, insert_empty. cbn [length app fmap list_fmap].
      done.
    - rewrite (aggregate_line _ _ _ n ms' _ _ []);
        [|done|by rewrite lookup_insert_eq].
      rewrite insert_insert_eq, insert_empty. cbn [length app fmap list_fmap].
      done. }
  split; [exact Hr|]. split; [|split].
  - intros Hidx. destruct (kept_consecutive ms 0 Hidx) as [Hk Hl].
    change (Z.of_nat 0) with 0 in Hk, Hl. by rewrite Hr, Hk, Hl.
  - intros Hidx. destruct ms as [|m0 [|m2 [|m3 ms']]]; try done.
    injection Hidx as H0 H2. exists m0, m2. split; [done|].
    rewrite Hr. cbn [kept lost]. rewrite H0, H2. done.
  - intros line2mutations printed mutant. apply aggregate_step_spec.
Qed.

Lemma get_mutations_index_check_witness :
  Sample.mutants_gap ≠ []
  ∧ Forall (λ mu, Line.line_number (Mutant.line mu) = 5) Sample.mutants_gap
  ∧ get_mutations_for_each_line (H := Sample.env) Sample.mutants_gap
      "x = 1" "f.py" tt
    = ({[ 5 := [mutation_entry (H := Sample.env) "x = 1" "f.py" tt
                  (Mutant.Make 3 Sample.line5 0 "ok_killed")] ]},
       [lost_message (Mutant.Make 7 Sample.line5 2 "ok_killed")]).
Proof.
  assert (Hne : Sample.mutants_gap ≠ []) by discriminate.
  assert (Hline : Forall (λ mu, Line.line_number (Mutant.line mu) = 5)
                    Sample.mutants_gap) by (repeat constructor).
  split; [exact Hne|]. split; [exact Hline|].
  destruct (get_mutations_index_check (H := Sample.env) Sample.mutants_gap
              "x = 1" "f.py" tt 5 Hne Hline) as (_ & _ & Hgap & _).
  destruct Hgap as (m0 & m2 & Hms & Hr); [reflexivity|].
  injection Hms as <- <-. exact Hr.
Defined.

(** Indices 0, 1 and 2 on line 5, given out of order: three entries in the
    order of the identifiers, nothing printed. *)
Example get_mutations_three :
  (get_mutations_for_each_line (H := Sample.env) Sample.mutants_three
     "x = 1" "f.py" tt).1 !! 5
  = Some [(Mutant.Make 11 Sample.line5 0 "ok_killed", "x = 1  # 0");
          (Mutant.Make 12 Sample.line5 1 "ok_killed", "x = 1  # 1");
          (Mutant.Make 13 Sample.line5 2 "bad_survived", "x = 1  # 2")]
  ∧ (get_mutations_for_each_line (H := Sample.env) Sample.mutants_three
       "x = 1" "f.py" tt).2 = [].
Proof. split; vm_compute; reflexivity. Qed.

(** Indices 0 and 2: one entry, and one printed line with the line
    number 5, the index 2 and the line text. *)
Example get_mutations_gap :
  (get_mutations_for_each_line (H := Sample.env) Sample.mutants_gap
     "x = 1" "f.py" tt).1 !! 5
  = Some [(Mutant.Make 3 Sample.line5 0 "ok_killed", "x = 1  # 0")]
  ∧ (get_mutations_for_each_line (H := Sample.env) Sample.mutants_gap
       "x = 1" "f.py" tt).2 = ["Error, lost mutation: ln = 5:2x = 1"].
Proof. split; vm_compute; reflexivity. Qed.

(** ** Renderer *)

Lemma render_mutant_step `{Imports} (ln_w : Z) (muts txt_cls : string)
    (mut_no index : Z) (mutant : Mutant.t) (item : string)
    (st' : string * string * Z * Z) :
  render_mutant ln_w (muts, txt_cls, mut_no, index) (mutant, item) = Ok st' →
  ∃ muts',
    st' = (muts',
           combine txt_cls (Py.get MUTANT_STATUS2BG (Mutant.status mutant) "bgred"),
           mut_no + 1, index + 1).
Proof.
  unfold render_mutant.
  destruct (highlight_code item) as [hl_item|?]; [|discriminate].
  cbn [mbind result_bind].
  destruct (first_item hl_item) as [hl_item_0|?]; [|discriminate].
  cbn [mbind result_bind]. intros [= <-]. by eexists.
Qed.

(** The class of a line after its block is rendered is the fold of
    [combine] over the classes of its mutants. *)
Lemma render_mutant_class `{Imports} (ln_w : Z) (entries : list (Mutant.t * string)) :
  ∀ muts txt_cls mut_no index muts' txt_cls' mut_no' index',
    foldl_result (render_mutant ln_w) (muts, txt_cls, mut_no, index) entries
    = Ok (muts', txt_cls', mut_no', index') →
    txt_cls'
    = foldl (λ txt_cls status,
               combine txt_cls (Py.get MUTANT_STATUS2BG status "bgred"))
            txt_cls ((λ e, Mutant.status e.1) <$> entries)
    ∧ mut_no' = mut_no + Z.of_nat (length entries)
    ∧ index' = index + Z.of_nat (length entries).
Proof.
  induction entries as [|[mutant item] entries IH];
    intros muts txt_cls mut_no index muts' txt_cls' mut_no' index' Hfold.
  - cbn in Hfold. injection Hfold as <- <- <- <-. cbn. repeat split; lia.
  - cbn [foldl_result] in Hfold.
    destruct (render_mutant ln_w (muts, txt_cls, mut_no, index) (mutant, item))
      as [st1|?] eqn:Hstep; [|discriminate Hfold].
    apply render_mutant_step in Hstep as [muts1 ->].
    cbn [mbind result_bind] in Hfold.
    apply IH in Hfold as (-> & -> & ->).
    cbn [fmap list_fmap foldl length fst]. repeat split; lia.
Qed.





(** The scenario of the specification: a killed and a survived mutant on
    one line give the red class. *)
Example killed_then_survived :
  line_class (H := Sample.env) ["ok_killed"; "bad_survived"] = "bgred".
Proof. vm_compute. reflexivity. Qed.

(** The same scenario through the renderer: the sixth display line, with
    a killed and a survived mutant, gets the badge [#mts 2] in the red
    text class and a hidden block of two rows. *)
Example render_line_two_mutants :
  render_line (H := Sample.env) 2 {[ 5 := Sample.entries_line5 ]} (4, "", 0) "x = 1"
  = Ok (5,
        "<p><span class=" +:+ Py.dq +:+ "ln" +:+ Py.dq +:+ "> 5 </span>x = 1"
        +:+ "<span class=" +:+ Py.dq +:+ "r txtred" +:+ Py.dq +:+ " onclick="
        +:+ Py.dq +:+ "toggle('d5');" +:+ Py.dq +:+ ">#mts 2</span></p>"
        +:+ Sample.nl
        +:+ "<div class=" +:+ Py.dq +:+ "mts" +:+ Py.dq +:+ " id=" +:+ Py.dq
        +:+ "d5" +:+ Py.dq +:+ " style=" +:+ Py.dq +:+ "display: none;"
        +:+ Py.dq +:+ ">" +:+ Sample.nl
        +:+ "<p class=" +:+ Py.dq +:+ "mt bggreen" +:+ Py.dq +:+ "><span class="
        +:+ Py.dq +:+ "ln" +:+ Py.dq +:+ ">   </span><span class=" +:+ Py.dq
        +:+ "r" +:+ Py.dq +:+ ">Killed mt #1 ndx 0</span></p>" +:+ Sample.nl
        +:+ "<p class=" +:+ Py.dq +:+ "mt bgred" +:+ Py.dq +:+ "><span class="
        +:+ Py.dq +:+ "ln" +:+ Py.dq +:+ ">   </span><span class=" +:+ Py.dq
        +:+ "r" +:+ Py.dq +:+ ">Survivied mt #2 ndx 1</span></p>" +:+ Sample.nl
        +:+ "</div>" +:+ Sample.nl,
        2).
Proof. vm_compute. reflexivity. Qed.

(** The page: the paragraphs replace the placeholder of the template, and
    the line number is right-aligned in a field one wider than the number
    of lines. *)
Example html_output_one_line :
  html_output (H := Sample.env) "<body>{highlighted_code}</body>"
    ["x"] ∅
  = Ok ("<body><p><span class=" +:+ Py.dq +:+ "ln" +:+ Py.dq
        +:+ "> 0 </span>x</p>" +:+ Sample.nl +:+ "</body>").
Proof. vm_compute. reflexivity. Qed.

(** ** Report file names *)

Lemma le_bytes_length (n : nat) (x : Z) : length (MD5.le_bytes n x) = n.
Proof. revert x. induction n as [|n IH]; intros x; cbn; by rewrite ?IH. Qed.

Lemma le_bytes_range (n : nat) (x : Z) :
  Forall (λ b, 0 ≤ b < 256) (MD5.le_bytes n x).
Proof.
  revert x. induction n as [|n IH]; intros x; cbn; constructor; [|apply IH].
  apply Z.mod_pos_bound. lia.
Qed.

Lemma digest_bytes (msg : list Z) :
  length (MD5.digest msg) = 16%nat ∧ Forall (λ b, 0 ≤ b < 256) (MD5.digest msg).
Proof.
  unfold MD5.digest. destruct (foldl _ _ _) as [[[a b] c] d].
  split.
  - by rewrite !length_app, !le_bytes_length.
  - repeat (apply Forall_app; split); apply le_bytes_range.
Qed.

Lemma hex_digit_is_hex (n : Z) : 0 ≤ n < 16 → is_hex_digit (MD5.hex_digit n) = true.
Proof.
  intros Hn.
  assert (Hcases : n ∈ Z.of_nat <$> seq 0 16).
  { apply list_elem_of_fmap. exists (Z.to_nat n). split; [lia|].
    apply elem_of_seq. lia. }
  cbn in Hcases.
  repeat (apply elem_of_cons in Hcases as [->|Hcases]; [reflexivity|]).
  by apply elem_of_nil in Hcases.
Qed.

Lemma hex_length (bytes : list Z) :
  String.length (MD5.hex bytes) = (2 * length bytes)%nat.
Proof. induction bytes as [|b bytes IH]; cbn; [done|]. rewrite IH. lia. Qed.

Lemma hex_all_hex (bytes : list Z) :
  Forall (λ b, 0 ≤ b < 256) bytes → all_hex (MD5.hex bytes) = true.
Proof.
  induction 1 as [|b bytes Hb Hbytes IH]; [done|].
  cbn [MD5.hex all_hex]. rewrite IH, !hex_digit_is_hex; [done| |].
  - apply Z.mod_pos_bound. lia.
  - split; [apply Z.div_pos; lia|apply Z.div_lt_upper_bound; lia].
Qed.

Lemma substring_length (s : string) (n m : nat) :
  (n + m ≤ String.length s)%nat → String.length (String.substring n m s) = m.
Proof.
  revert n m. induction s as [|c s IH]; intros n m Hlen; cbn [String.length] in Hlen.
  - assert (n = 0%nat ∧ m = 0%nat) as [-> ->] by lia. done.
  - destruct n as [|n]; cbn [String.substring].
    + destruct m as [|m]; [done|]. cbn [String.length]. rewrite IH; lia.
    + apply IH. lia.
Qed.

Lemma substring_all_hex (s : string) (n m : nat) :
  all_hex s = true → all_hex (String.substring n m s) = true.
Proof.
  revert n m. induction s as [|c s IH]; intros n m Hs.
  - by destruct n, m.
  - cbn [all_hex] in Hs. apply andb_true_iff in Hs as [Hc Hs].
    destruct n as [|n]; cbn [String.substring].
    + destruct m as [|m]; [done|]. cbn [all_hex]. by rewrite Hc, IH.
    + by apply IH.
Qed.

Lemma str_app_inj_length (s1 s2 t1 t2 : string) :
  String.length s1 = String.length s2 →
  s1 +:+ t1 = s2 +:+ t2 → s1 = s2 ∧ t1 = t2.
Proof.
  revert s2. induction s1 as [|c s1 IH]; intros [|c2 s2] Hlen Heq;
    cbn [String.length] in Hlen; try lia.
  - done.
  - rewrite !str_app_cons in Heq. injection Heq as -> Heq.
    destruct (IH s2) as [-> ->]; [lia|done|done].
Qed.

Section NamingFacts.
Context `{Imports}.

Lemma digest12_shape (file_path : string) :
  String.length (digest12 file_path) = 12%nat ∧ all_hex (digest12 file_path) = true.
Proof.
  unfold digest12, Py.last_chars, MD5.hexdigest.
  destruct (digest_bytes (Utf8.encode (Path.parent (resolve file_path))))
    as [Hlen Hrange].
  rewrite hex_length, Hlen. split.
  - apply substring_length. rewrite hex_length, Hlen. cbn. lia.
  - apply substring_all_hex. by apply hex_all_hex.
Qed.

End NamingFacts.

(** C8, as amended. The name of a report is the prefix, twelve
    hexadecimal digits, an underscore, the file name with its dots
    replaced, and [.html]; the digits are the last twelve of the MD5 digest
    of the UTF-8 bytes of the resolved parent directory. Two files with
    the same base name get the same report name exactly when their parent
    directories agree on these twelve digits. *)
Theorem report_name_form_and_distinctness `{Imports}
    (file_path1 file_path2 out_path prefix : string) :
  Path.name (resolve file_path1) = Path.name (resolve file_path2) →
  Path.name (create_hashed_html_filename file_path1 out_path prefix)
  = prefix +:+ digest12 file_path1 +:+ "_"
    +:+ Py.replace (Path.name (resolve file_path1)) "." "_" +:+ ".html"
  ∧ digest12 file_path1
    = Py.last_chars 12
        (MD5.hexdigest (Utf8.encode (Path.parent (resolve file_path1))))
  ∧ String.length (digest12 file_path1) = 12%nat
  ∧ all_hex (digest12 file_path1) = true
  ∧ (create_hashed_html_filename file_path1 out_path prefix
     = create_hashed_html_filename file_path2 out_path prefix
     ↔ digest12 file_path1 = digest12 file_path2).
Proof.
  intros Hname.
  destruct (digest12_shape file_path1) as [Hlen1 Hhex1].
  destruct (digest12_shape file_path2) as [Hlen2 _].
  split; [reflexivity|]. split; [reflexivity|].
  split; [exact Hlen1|]. split; [exact Hhex1|].
  unfold create_hashed_html_filename, Path.div. fold (digest12 file_path1).
  fold (digest12 file_path2). rewrite <- Hname. split.
  - intros [= Heq]. apply (inj (String.append prefix)) in Heq.
    apply str_app_inj_length in Heq as [Hd _]; [done|lia].
  - by intros ->.
Qed.

Lemma report_name_form_and_distinctness_witness :
  Path.name (resolve (Imports := Sample.env) "/work/a/utils.py")
  = Path.name (resolve (Imports := Sample.env) "/work/b/utils.py")
  ∧ create_hashed_html_filename (H := Sample.env) "/work/a/utils.py" "htmlmut" "zz_"
    ≠ create_hashed_html_filename (H := Sample.env) "/work/b/utils.py" "htmlmut" "zz_".
Proof.
  assert (Hname : Path.name (resolve (Imports := Sample.env) "/work/a/utils.py")
                  = Path.name (resolve (Imports := Sample.env) "/work/b/utils.py"))
    by reflexivity.
  split; [exact Hname|].
  destruct (report_name_form_and_distinctness (H := Sample.env)
              "/work/a/utils.py" "/work/b/utils.py" "htmlmut" "zz_" Hname)
    as (_ & _ & _ & _ & Hiff).
  intros Heq. apply Hiff in Heq. vm_compute in Heq. discriminate Heq.
Defined.

(** C8, counterexample. Two files named [utils.py] in different
    directories whose MD5 digests end in the same twelve digits
    ([9a203ebbc36c]) get the same report name. *)
Lemma report_name_collision :
  Path.name (resolve (Imports := Sample.env) "/work/29197898/pkg/utils.py")
  = Path.name (resolve (Imports := Sample.env) "/work/35499399/pkg/utils.py")
  ∧ Path.parent (resolve (Imports := Sample.env) "/work/29197898/pkg/utils.py")
    ≠ Path.parent (resolve (Imports := Sample.env) "/work/35499399/pkg/utils.py")
  ∧ MD5.hexdigest (Utf8.encode "/work/29197898/pkg")
    = "28a390b3299ac0a51d699a203ebbc36c"
  ∧ MD5.hexdigest (Utf8.encode "/work/35499399/pkg")
    = "bbe15320b28ae976b2249a203ebbc36c"
  ∧ create_hashed_html_filename (H := Sample.env)
      "/work/29197898/pkg/utils.py" "htmlmut" "zz_"
    = create_hashed_html_filename (H := Sample.env)
        "/work/35499399/pkg/utils.py" "htmlmut" "zz_".
Proof.
  split; [reflexivity|]. split; [vm_compute; discriminate|].
  split; [vm_compute; reflexivity|]. split; vm_compute; reflexivity.
Qed.

(** * Further properties *)

(** ** Processing order of the aggregator *)

Lemma insert_by_perm {A} (key : A → Z) (x : A) (l : list A) :
  insert_by key x l ≡ₚ x :: l.
Proof.
  induction l as [|y l IH]; cbn [insert_by]; [done|].
  destruct (key x <=? key y); [done|].
  rewrite IH. apply Permutation_swap.
Qed.

Lemma sorted_perm {A} (key : A → Z) (l : list A) : sorted l key ≡ₚ l.
Proof.
  unfold sorted. induction l as [|x l IH]; cbn [foldr]; [done|].
  by rewrite insert_by_perm, IH.
Qed.

Lemma insert_by_ascending {A} (key : A → Z) (x : A) (l : list A) :
  Sorted (λ a b, key a ≤ key b) l →
  Sorted (λ a b, key a ≤ key b) (insert_by key x l).
Proof.
  induction 1 as [|y l Hl IH Hhd]; cbn [insert_by].
  - repeat constructor.
  - destruct (Z.leb_spec (key x) (key y)) as [Hle|Hgt].
    + repeat constructor; done.
    + constructor; [exact IH|].
      destruct Hhd as [|z l' Hyz]; cbn [insert_by].
      * constructor. lia.
      * destruct (key x <=? key z); constructor; lia.
Qed.

Lemma insert_by_stable {A} (key : A → Z) (k : Z) (x : A) (l : list A) :
  filter (λ a, key a = k) (insert_by key x l)
  = filter (λ a, key a = k) (x :: l).
Proof.
  induction l as [|y l IH]; cbn [insert_by]; [done|].
  destruct (Z.leb_spec (key x) (key y)) as [Hle|Hgt]; [done|].
  rewrite filter_cons, IH, !filter_cons.
  destruct (decide (key y = k)) as [Hy|Hy], (decide (key x = k)) as [Hx|Hx];
    try done.
  lia.
Qed.

(** X5. The order in which the aggregator processes the mutants:
    [sorted(mutants, key=...)] rearranges its input, the keys are in
    ascending order, and the elements with one key keep the order they
    had in the input. *)
Theorem sorted_ascending_stable {A} (key : A → Z) (l : list A) :
  sorted l key ≡ₚ l
  ∧ Sorted (λ a b, key a ≤ key b) (sorted l key)
  ∧ ∀ k, filter (λ a, key a = k) (sorted l key) = filter (λ a, key a = k) l.
Proof.
  split; [apply sorted_perm|]. split.
  - unfold sorted. induction l as [|x l IH]; cbn [foldr]; [constructor|].
    by apply insert_by_ascending.
  - intros k. unfold sorted. induction l as [|x l IH]; cbn [foldr]; [done|].
    rewrite insert_by_stable, !filter_cons, IH. done.
Qed.

(** ** What the aggregator stores and what it reports *)

Lemma kept_indices (ms : list Mutant.t) :
  ∀ c, Mutant.index <$> kept c ms
       = (λ i, c + Z.of_nat i) <$> seq 0 (length (kept c ms)).
Proof.
  induction ms as [|m ms IH]; intros c; cbn [kept]; [done|].
  destruct (Z.eqb_spec (Mutant.index m) c) as [Hm|Hm]; [|apply IH].
  cbn [fmap list_fmap length seq]. rewrite IH, <- fmap_S_seq, <- list_fmap_compose.
  rewrite Hm. replace (c + Z.of_nat 0) with c by lia.
  apply (f_equal (cons c)). apply list_fmap_ext. intros i.
  unfold compose. lia.
Qed.

Lemma kept_app (l1 l2 : list Mutant.t) :
  ∀ c, kept c (l1 ++ l2)
       = kept c l1 ++ kept (c + Z.of_nat (length (kept c l1))) l2.
Proof.
  induction l1 as [|x l1 IH]; intros c; cbn [app kept length].
  - by rewrite Z.add_0_r.
  - destruct (Mutant.index x =? c); [|apply IH].
    rewrite IH. cbn [app length]. rewrite Nat2Z.inj_succ.
    replace (c + 1 + Z.of_nat (length (kept (c + 1) l1)))
      with (c + Z.succ (Z.of_nat (length (kept (c + 1) l1)))) by lia.
    done.
Qed.

Lemma kept_or_rejected (ms : list Mutant.t) :
  ∀ (seen : list Mutant.t) (mu : Mutant.t),
    mu ∈ ms →
    mu ∈ kept 0 (on_line (Line.line_number (Mutant.line mu)) (seen ++ ms))
    ∨ mu ∈ rejected_from seen ms.
Proof.
  induction ms as [|x ms IH]; intros seen mu Hin; [by apply elem_of_nil in Hin|].
  cbn [rejected_from]. apply elem_of_cons in Hin as [->|Hin].
  - destruct (Mutant.index x
              =? Z.of_nat (length (kept 0 (on_line (Line.line_number (Mutant.line x)) seen))))
      eqn:Hidx.
    + left. unfold on_line. rewrite filter_app, filter_cons, decide_True by done.
      rewrite kept_app, Z.add_0_l. cbn [kept]. unfold on_line in Hidx.
      rewrite Hidx. apply elem_of_app. right. left.
    + right. left.
  - destruct (IH (seen ++ [x]) mu Hin) as [Hk|Hr].
    + left. by rewrite <- app_assoc in Hk.
    + right. apply elem_of_app. by right.
Qed.

Lemma on_line_nil (n : Z) (ms : list Mutant.t) :
  on_line n ms = [] ↔ n ∉ (λ mu, Line.line_number (Mutant.line mu)) <$> ms.
Proof.
  unfold on_line. induction ms as [|x ms IH]; cbn [fmap list_fmap].
  - split; [intros _; apply not_elem_of_nil|done].
  - rewrite filter_cons, not_elem_of_cons.
    destruct (decide (Line.line_number (Mutant.line x) = n)) as [Hx|Hx].
    + split; [done|]. intros [Hn _]. by destruct Hn.
    + rewrite IH. split; [by split|by intros [_ ?]].
Qed.

(** X2. In the dict the aggregator returns, the entries of every line
    carry the indices 0, 1, 2, ... in this order, without gap or
    repetition. *)
Theorem get_mutations_indices_consecutive `{Imports} (mutants : list Mutant.t)
    (source filename : string) (dict_synonyms : synonyms) (n : Z)
    (entries : list (Mutant.t * string)) :
  (get_mutations_for_each_line mutants source filename dict_synonyms).1 !! n
  = Some entries →
  (λ e, Mutant.index e.1) <$> entries = Z.of_nat <$> seq 0 (length entries).
Proof.
  unfold get_mutations_for_each_line.
  destruct (aggregate_all source filename dict_synonyms
              (sorted mutants Mutant.id) [] ∅ []) as (m' & -> & Hinv).
  { intros k. by rewrite lookup_empty. }
  cbn [fst]. rewrite Hinv. cbn [app]. unfold stored.
  destruct (on_line n (sorted mutants Mutant.id)) as [|x l]; [done|].
  intros [= <-]. rewrite <- list_fmap_compose, length_fmap.
  etrans; [|apply (kept_indices (x :: l) 0)].
  by apply list_fmap_ext.
Qed.

Lemma get_mutations_indices_consecutive_witness :
  (get_mutations_for_each_line (H := Sample.env) Sample.mutants_three
     "x = 1" "f.py" tt).1 !! 5
  = Some [(Mutant.Make 11 Sample.line5 0 "ok_killed", "x = 1  # 0");
          (Mutant.Make 12 Sample.line5 1 "ok_killed", "x = 1  # 1");
          (Mutant.Make 13 Sample.line5 2 "bad_survived", "x = 1  # 2")]
  ∧ (λ e : Mutant.t * string, Mutant.index e.1)
      <$> [(Mutant.Make 11 Sample.line5 0 "ok_killed", "x = 1  # 0");
           (Mutant.Make 12 Sample.line5 1 "ok_killed", "x = 1  # 1");
           (Mutant.Make 13 Sample.line5 2 "bad_survived", "x = 1  # 2")]
    = Z.of_nat <$> seq 0 3.
Proof.
  assert (Hlook : (get_mutations_for_each_line (H := Sample.env)
                     Sample.mutants_three "x = 1" "f.py" tt).1 !! 5
    = Some [(Mutant.Make 11 Sample.line5 0 "ok_killed", "x = 1  # 0");
            (Mutant.Make 12 Sample.line5 1 "ok_killed", "x = 1  # 1");
            (Mutant.Make 13 Sample.line5 2 "bad_survived", "x = 1  # 2")])
    by (vm_compute; reflexivity).
  split; [exact Hlook|].
  exact (get_mutations_indices_consecutive (H := Sample.env) Sample.mutants_three
           "x = 1" "f.py" tt 5 _ Hlook).
Defined.

(** X3. No mutant vanishes without trace: each mutant given to the
    aggregator either has its entry in the list of its line or has its
    report among the printed lines. *)
Theorem get_mutations_stored_or_reported `{Imports} (mutants : list Mutant.t)
    (source filename : string) (dict_synonyms : synonyms) (mu : Mutant.t) :
  mu ∈ mutants →
  (∃ entries,
     (get_mutations_for_each_line mutants source filename dict_synonyms).1
       !! Line.line_number (Mutant.line mu) = Some entries
     ∧ mutation_entry source filename dict_synonyms mu ∈ entries)
  ∨ lost_message mu
    ∈ (get_mutations_for_each_line mutants source filename dict_synonyms).2.
Proof.
  intros Hin. unfold get_mutations_for_each_line.
  destruct (aggregate_all source filename dict_synonyms
              (sorted mutants Mutant.id) [] ∅ []) as (m' & -> & Hinv).
  { intros k. by rewrite lookup_empty. }
  cbn [fst snd app].
  assert (Hms : mu ∈ sorted mutants Mutant.id) by by rewrite sorted_perm.
  destruct (kept_or_rejected _ [] mu Hms) as [Hk|Hr]; cbn [app] in *.
  - left. rewrite Hinv. cbn [app]. unfold stored.
    destruct (on_line _ (sorted mutants Mutant.id)) as [|x l] eqn:Hon.
    { cbn in Hk. by apply elem_of_nil in Hk. }
    eexists. split; [reflexivity|]. by apply list_elem_of_fmap_2.
  - right. by apply list_elem_of_fmap_2.
Qed.

Lemma get_mutations_stored_or_reported_witness :
  Mutant.Make 7 Sample.line5 2 "ok_killed" ∈ Sample.mutants_gap
  ∧ ((∃ entries,
        (get_mutations_for_each_line (H := Sample.env) Sample.mutants_gap
           "x = 1" "f.py" tt).1 !! 5 = Some entries
        ∧ mutation_entry (H := Sample.env) "x = 1" "f.py" tt
            (Mutant.Make 7 Sample.line5 2 "ok_killed") ∈ entries)
     ∨ lost_message (Mutant.Make 7 Sample.line5 2 "ok_killed")
       ∈ (get_mutations_for_each_line (H := Sample.env) Sample.mutants_gap
            "x = 1" "f.py" tt).2).
Proof.
  assert (Hin : Mutant.Make 7 Sample.line5 2 "ok_killed" ∈ Sample.mutants_gap)
    by (unfold Sample.mutants_gap; left).
  split; [exact Hin|].
  exact (get_mutations_stored_or_reported (H := Sample.env) Sample.mutants_gap
           "x = 1" "f.py" tt _ Hin).
Defined.

(** X4. The keys of the dict are the line numbers of the mutants given:
    a line gets a key as soon as one mutant is on it, also when every
    mutant of the line fails the index check (its list is then empty), and
    no other line gets one. *)
Theorem get_mutations_keys `{Imports} (mutants : list Mutant.t)
    (source filename : string) (dict_synonyms : synonyms) (n : Z) :
  is_Some ((get_mutations_for_each_line mutants source filename dict_synonyms).1 !! n)
  ↔ n ∈ (λ mu, Line.line_number (Mutant.line mu)) <$> mutants.
Proof.
  unfold get_mutations_for_each_line.
  destruct (aggregate_all source filename dict_synonyms
              (sorted mutants Mutant.id) [] ∅ []) as (m' & -> & Hinv).
  { intros k. by rewrite lookup_empty. }
  cbn [fst]. rewrite Hinv. cbn [app]. unfold stored.
  rewrite <- (sorted_perm Mutant.id mutants) at 2.
  destruct (on_line n (sorted mutants Mutant.id)) as [|x l] eqn:Hon.
  - apply on_line_nil in Hon. split; [by intros [? ?]|done].
  - split; [intros _|by eauto].
    destruct (decide (n ∈ (λ mu, Line.line_number (Mutant.line mu))
                          <$> sorted mutants Mutant.id)) as [|Hn]; [done|].
    apply on_line_nil in Hn. congruence.
Qed.

(** ** Highlighter: completed lines *)

Lemma handle_token_out `{Imports} (out : list string) (line : string)
    (tk : TokenInfo) (out' : list string) (line' : string) :
  handle_token out line (toknum tk) (tokval tk) (start tk) (stop tk)
  = Ok (out', line') →
  ∃ more, out' = out ++ more ∧ length more = token_lines tk.
Proof.
  unfold handle_token, token_lines.
  destruct (bool_decide (toknum tk = NAME) && iskeyword (tokval tk)) eqn:Hkw.
  { intros [= <- <-]. exists []. rewrite app_nil_r. split; [done|].
    apply andb_true_iff in Hkw as [Hname _].
    apply bool_decide_eq_true in Hname. rewrite Hname. done. }
  destruct (bool_decide (toknum tk = NUMBER)) eqn:Hnum.
  { intros [= <- <-]. exists []. rewrite app_nil_r. split; [done|].
    apply bool_decide_eq_true in Hnum. rewrite Hnum. done. }
  destruct (bool_decide (toknum tk = STRING)) eqn:Hstr; cbn [andb].
  - destruct ((stop tk).1 >? (start tk).1).
    + destruct (Py.splitlines (tokval tk)) as [|f0 rest]; [done|].
      cbn [first_item mbind result_bind]. rewrite interior_loop.
      destruct (last_item (f0 :: rest)) as [fl|e]; [|done].
      cbn [mbind result_bind]. intros [= <- <-].
      eexists. rewrite <- app_assoc. split; [reflexivity|].
      cbn [app length]. by rewrite length_fmap.
    + intros [= <- <-]. exists []. rewrite app_nil_r. split; [done|].
      apply bool_decide_eq_true in Hstr. rewrite Hstr. done.
  - destruct (bool_decide (toknum tk = COMMENT)) eqn:Hcmt.
    { intros [= <- <-]. exists []. rewrite app_nil_r. split; [done|].
      apply bool_decide_eq_true in Hcmt. rewrite Hcmt. done. }
    destruct (bool_decide (toknum tk ∈ [NL; NEWLINE; ENDMARKER])).
    + intros [= <- <-]. by exists [line].
    + intros [= <- <-]. exists []. by rewrite app_nil_r.
Qed.

Lemma highlight_loop_out `{Imports} (toks : list TokenInfo) :
  ∀ out line last_pos out' line' last_pos',
    highlight_loop toks (out, line, last_pos) = Ok (out', line', last_pos') →
    ∃ more, out' = out ++ more
            ∧ length more = sum_list (token_lines <$> toks).
Proof.
  induction toks as [|tk toks IH]; intros out line lp out' line' lp' Hloop.
  - cbn in Hloop. injection Hloop as <- <- <-. exists []. by rewrite app_nil_r.
  - cbn [highlight_loop] in Hloop. unfold highlight_step at 1 in Hloop.
    destruct (handle_token out (begin_indent line (start tk) lp) (toknum tk)
                (tokval tk) (start tk) (stop tk)) as [[out1 line1]|e] eqn:Hh;
      [|discriminate Hloop].
    cbn [mbind result_bind] in Hloop.
    apply handle_token_out in Hh as (more1 & -> & Hlen1).
    apply IH in Hloop as (more2 & -> & Hlen2).
    exists (more1 ++ more2). rewrite <- app_assoc. split; [done|].
    rewrite length_app, Hlen1, Hlen2. done.
Qed.

(** X6. Lines once completed are final: the lines the loop has completed
    after a part of the token stream are a prefix of the lines it has
    completed after any continuation of that part. *)
Theorem highlight_loop_lines_final `{Imports} (toks1 toks2 : list TokenInfo)
    (st : list string * string * Z)
    (out1 out2 : list string) (line1 line2 : string) (pos1 pos2 : Z) :
  highlight_loop toks1 st = Ok (out1, line1, pos1) →
  highlight_loop (toks1 ++ toks2) st = Ok (out2, line2, pos2) →
  out1 `prefix_of` out2.
Proof.
  intros H1 H2. rewrite highlight_loop_app, H1 in H2.
  cbn [mbind result_bind] in H2.
  apply highlight_loop_out in H2 as (more & -> & _). by exists more.
Qed.

Lemma highlight_loop_lines_final_witness :
  highlight_loop (H := Sample.env)
    [Token NAME "a" (1, 0) (1, 1); Token NEWLINE Sample.nl (1, 1) (1, 2)]
    ([], "", 0)
  = Ok (["a"], "", 2)
  ∧ highlight_loop (H := Sample.env)
      ([Token NAME "a" (1, 0) (1, 1); Token NEWLINE Sample.nl (1, 1) (1, 2)]
       ++ [Token NAME "b" (2, 0) (2, 1); Token NEWLINE Sample.nl (2, 1) (2, 2)])
      ([], "", 0)
    = Ok (["a"; "b"], "", 2)
  ∧ ["a"] `prefix_of` ["a"; "b"].
Proof.
  assert (H1 : highlight_loop (H := Sample.env)
                 [Token NAME "a" (1, 0) (1, 1); Token NEWLINE Sample.nl (1, 1) (1, 2)]
                 ([], "", 0) = Ok (["a"], "", 2)) by reflexivity.
  assert (H2 : highlight_loop (H := Sample.env)
                 ([Token NAME "a" (1, 0) (1, 1); Token NEWLINE Sample.nl (1, 1) (1, 2)]
                  ++ [Token NAME "b" (2, 0) (2, 1); Token NEWLINE Sample.nl (2, 1) (2, 2)])
                 ([], "", 0) = Ok (["a"; "b"], "", 2)) by reflexivity.
  split; [exact H1|]. split; [exact H2|].
  exact (highlight_loop_lines_final (H := Sample.env) _ _ _ _ _ _ _ _ _ H1 H2).
Defined.

(** X7. The number of display lines. On a run of the tokenizer that meets
    [run_ok], [highlight_code] returns as many lines as the tokens
    complete: one for each line-terminating token (newline, logical
    newline, end marker) and, for each string token over several rows, one
    for its first fragment and one for each interior fragment; a
    [TokenError] adds the line of its description. *)
Theorem highlight_tokens_line_count `{Imports} (r : tokenize_result) :
  run_ok r = true →
  ∃ out,
    highlight_tokens r = Ok out
    ∧ length out
      = match r with
        | Finished toks => sum_list (token_lines <$> toks)
        | TokenError toks _ => S (sum_list (token_lines <$> toks))
        | OtherError _ _ => O
        end.
Proof.
  intros Hrun. destruct r as [toks|toks exc|toks e]; cbn [run_ok] in Hrun;
    [| |discriminate].
  - apply andb_true_iff in Hrun as [Hok Hend].
    destruct (highlight_loop_finished toks Hok Hend) as (pre & l & lp & Hloop).
    unfold highlight_tokens. rewrite Hloop. cbn [mbind result_bind Py.truthy].
    eexists. split; [reflexivity|].
    apply highlight_loop_out in Hloop as (more & Hout & <-).
    cbn [app] in Hout. by rewrite Hout.
  - rewrite highlight_tokens_TokenError.
    destruct (highlight_loop_ok toks ([], "", 0) Hrun) as [[[out line] lp] Hloop].
    rewrite Hloop. cbn [mbind result_bind fst]. eexists. split; [reflexivity|].
    apply highlight_loop_out in Hloop as (more & -> & <-).
    cbn [app]. rewrite length_app. cbn [length]. lia.
Qed.

Lemma highlight_tokens_line_count_witness :
  run_ok Sample.run_three = true
  ∧ ∃ out,
      highlight_tokens (H := Sample.env) Sample.run_three = Ok out
      ∧ length out
        = match Sample.run_three with
          | Finished toks => sum_list (token_lines <$> toks)
          | TokenError toks _ => S (sum_list (token_lines <$> toks))
          | OtherError _ _ => O
          end.
Proof.
  split; [reflexivity|].
  apply (highlight_tokens_line_count (H := Sample.env) Sample.run_three).
  reflexivity.
Defined.

(** ** Highlighter: lines of any tokens on one row *)

Lemma strip_from_app (s t : string) :
  ∀ b, strip_from b (s +:+ t) = strip_from b s +:+ strip_from (tag_state b s) t.
Proof.
  induction s as [|c s IH]; intros b; [done|].
  rewrite str_app_cons. cbn [strip_from tag_state].
  destruct b; [apply IH|].
  destruct (Ascii.eqb c "<"); [apply IH|].
  rewrite str_app_cons. by rewrite IH.
Qed.

Lemma tag_state_app (s t : string) :
  ∀ b, tag_state b (s +:+ t) = tag_state (tag_state b s) t.
Proof.
  induction s as [|c s IH]; intros b; [done|].
  rewrite str_app_cons. cbn [tag_state]. destruct b; apply IH.
Qed.

Lemma tag_state_escape (s : string) : tag_state false (Py.escape s) = false.
Proof.
  induction s as [|c s IH]; [done|].
  cbn [Py.escape]. rewrite tag_state_app.
  assert (Hc : tag_state false (Py.escape_char c) = false); [|by rewrite Hc].
  unfold Py.escape_char.
  destruct (Ascii.eqb c "&"); [done|].
  destruct (Ascii.eqb c "<") eqn:E; [done|].
  destruct (Ascii.eqb c ">"); [done|].
  destruct (Ascii.eqb c Py.dquote); [done|].
  destruct (Ascii.eqb c "'"); [done|].
  cbn. by rewrite E.
Qed.

Lemma tag_state_span (text key : string) :
  key ∈ ["k"; "n"; "s"; "c"] → tag_state false (span text key) = false.
Proof.
  intros Hkey. unfold span.
  assert (Hopen : ∀ t, tag_state false
            ("<span class=" +:+ Py.dq +:+ key +:+ Py.dq +:+ ">" +:+ t)
          = tag_state false t).
  { intros t.
    repeat (apply elem_of_cons in Hkey as [->|Hkey]; [reflexivity|]).
    by apply elem_of_nil in Hkey. }
  rewrite Hopen, tag_state_app, tag_state_escape. reflexivity.
Qed.

Lemma begin_indent_pad (line gap : string) (row col last_pos : Z) :
  (Py.truthy line = true → last_pos = col) →
  (Py.truthy line = false → col = 0) →
  all_spaces gap = true →
  begin_indent line (row, col + Py.len gap) last_pos = line +:+ gap.
Proof.
  intros Hpos Hzero Hgap. unfold begin_indent. cbn [snd].
  pose proof (len_nonneg gap) as Hge.
  destruct (Py.truthy line) eqn:Hline; cbn [negb].
  - rewrite Hpos by done.
    destruct (Z.gtb_spec (col + Py.len gap) col) as [Hgt|Hle].
    + replace (col + Py.len gap - col) with (Py.len gap) by lia.
      by rewrite <- spaces_all_spaces.
    + rewrite (len_zero gap) by lia. by rewrite str_app_nil_r.
  - rewrite Hzero by done. rewrite Z.add_0_l.
    destruct (Z.gtb_spec (Py.len gap) 0) as [Hgt|Hle].
    + by rewrite <- spaces_all_spaces.
    + rewrite (len_zero gap) by lia. by rewrite str_app_nil_r.
Qed.

Section InlineLines.
Context `{Imports}.

(** A token on one row that does not end the line adds one piece to the
    accumulator: its escaped text, in a span or not. *)
Lemma handle_token_inline (out : list string) (line : string) (c : chunk)
    (row s e : Z) :
  inline c = true →
  ∃ piece,
    handle_token out line (kind c) (word c) (row, s) (row, e)
    = Ok (out, line +:+ piece)
    ∧ strip_spans piece = Py.escape (word c)
    ∧ tag_state false piece = false.
Proof.
  intros Hin. unfold inline in Hin. apply negb_true_iff in Hin.
  apply bool_decide_eq_false in Hin.
  destruct (handle_token_escapes_once out line (kind c) (word c) (row, s) (row, e))
    as (piece & Hh & Hstrip); [done|cbn; lia|].
  exists piece. split; [done|]. split; [done|].
  revert Hh. unfold handle_token.
  assert (Hk : ∀ k, k ∈ ["k"; "n"; "s"; "c"] →
                    tag_state false (span (word c) k) = false)
    by (intros k Hk; by apply tag_state_span).
  replace ((row, e).1 >? (row, s).1) with false
    by (cbn; symmetry; rewrite Z.gtb_ltb; apply Z.ltb_irrefl).
  destruct (kind c); cbn [bool_decide decide_rel andb];
    try (intros [= Heq]; apply (inj (String.append line)) in Heq as <-;
         first [apply tag_state_escape | apply Hk; set_solver]).
  - exfalso. apply Hin. set_solver.
  - destruct (iskeyword (word c)); intros [= Heq];
      apply (inj (String.append line)) in Heq as <-;
      [apply Hk; set_solver|apply tag_state_escape].
  - exfalso. apply Hin. set_solver.
  - exfalso. apply Hin. set_solver.
Qed.

Lemma inline_loop (row : Z) (cs : list chunk) :
  ∀ (prefix line : string) (last_pos : Z) (out : list string),
    strip_spans line = Py.escape prefix →
    tag_state false line = false →
    (Py.truthy line = true → last_pos = Py.len prefix) →
    forallb inline cs = true →
    forallb (λ c, all_spaces (blank c)) cs = true →
    ∃ line' last_pos',
      highlight_loop (chunk_tokens row (Py.len prefix) cs) (out, line, last_pos)
      = Ok (out, line', last_pos')
      ∧ strip_spans line' = Py.escape (prefix +:+ chunks_text cs)
      ∧ tag_state false line' = false
      ∧ (Py.truthy line' = true →
         last_pos' = Py.len (prefix +:+ chunks_text cs)).
Proof.
  induction cs as [|c cs IH];
    intros prefix line last_pos out Hstrip Htag Hpos Hinl Hblank.
  - exists line, last_pos. cbn [chunk_tokens chunks_text highlight_loop].
    by rewrite str_app_nil_r.
  - cbn [forallb] in Hinl, Hblank.
    apply andb_true_iff in Hinl as [Hc Hcs].
    apply andb_true_iff in Hblank as [Hb Hbs].
    cbn [chunk_tokens chunks_text highlight_loop].
    unfold highlight_step at 1. cbn [start stop toknum tokval snd].
    rewrite begin_indent_pad; [|done| |done].
    2:{ intros Hempty. apply truthy_false in Hempty. subst line.
        cbn in Hstrip. symmetry in Hstrip.
        assert (Hp : Py.truthy prefix = false)
          by (rewrite <- escape_truthy, Hstrip; done).
        apply truthy_false in Hp. by subst prefix. }
    destruct (handle_token_inline out (line +:+ blank c) c row
                (Py.len prefix + Py.len (blank c))
                (Py.len prefix + Py.len (blank c) + Py.len (word c)) Hc)
      as (piece & -> & Hpiece & Hpt).
    cbn [mbind result_bind].
    set (prefix' := prefix +:+ blank c +:+ word c).
    assert (Hlen : Py.len prefix + Py.len (blank c) + Py.len (word c)
                   = Py.len prefix').
    { unfold prefix'. by rewrite !len_app, Z.add_assoc. }
    assert (Hgap_strip : strip_from false (blank c) = blank c).
    { rewrite <- (escape_all_spaces (blank c)) by done.
      apply strip_spans_escape. }
    assert (Hgap_tag : tag_state false (blank c) = false).
    { rewrite <- (escape_all_spaces (blank c)) by done.
      apply tag_state_escape. }
    rewrite Hlen.
    destruct (IH prefix' ((line +:+ blank c) +:+ piece) (Py.len prefix') out)
      as (line' & lp & Hloop & Hs' & Ht' & Hlp); [| |done|done|done|].
    + unfold strip_spans in *. rewrite !strip_from_app, !tag_state_app.
      rewrite Htag, Hgap_tag, Hstrip, Hgap_strip, Hpiece.
      unfold prefix'. rewrite !escape_app, (escape_all_spaces (blank c)) by done.
      by rewrite str_app_assoc.
    + by rewrite !tag_state_app, Htag, Hgap_tag.
    + exists line', lp. unfold prefix' in *.
      rewrite !str_app_assoc in Hs', Hlp. by rewrite Hloop.
Qed.

End InlineLines.

(** X8. Highlighting only adds markup. A physical line that starts a
    display line, the tokens before it being none or ending with a line
    end, whose own tokens are of any kind that does not end the line
    (names, keywords, numbers, one-row strings, comments, operators, ...),
    whose characters outside the tokens are spaces, and which is closed
    by its line-end token: the display line made for it is its
    HTML-escaped text once the markup is stripped, every token at its
    column. *)
Theorem inline_line_roundtrip `{Imports} (before : list TokenInfo) (row : Z)
    (cs : list chunk) (trailing : string) (closer : TokenInfo)
    (out : list string) (line : string) (last_pos : Z) :
  at_line_start before = true →
  highlight_loop before ([], "", 0) = Ok (out, line, last_pos) →
  forallb inline cs = true →
  forallb (λ c, all_spaces (blank c)) cs = true →
  all_spaces trailing = true →
  line_end closer = true →
  start closer = (row, Py.len (chunks_text cs) + Py.len trailing) →
  ∃ l,
    highlight_loop (before ++ chunk_tokens row 0 cs ++ [closer]) ([], "", 0)
    = Ok (out ++ [l], "", (stop closer).2)
    ∧ strip_spans l = Py.escape (chunks_text cs +:+ trailing).
Proof.
  intros Hstart Hbefore Hinl Hblank Htrail Hend Hpos.
  rewrite (at_line_start_empty _ _ _ _ Hstart Hbefore) in Hbefore.
  rewrite highlight_loop_app, Hbefore. cbn [mbind result_bind].
  destruct (inline_loop row cs "" "" last_pos out)
    as (line' & lp & Hloop & Hstrip & Htag & Hlp); [done..|].
  change (Py.len "") with 0 in Hloop. rewrite !str_app_nil_l in Hstrip, Hlp.
  rewrite (highlight_loop_snoc _ _ _ _ Hloop).
  rewrite highlight_step_line_end, Hpos by done.
  rewrite begin_indent_pad; [|done| |done].
  2:{ intros Hempty. apply truthy_false in Hempty. subst line'.
      cbn in Hstrip. symmetry in Hstrip.
      assert (Hp : Py.truthy (chunks_text cs) = false)
        by (rewrite <- escape_truthy, Hstrip; done).
      apply truthy_false in Hp. by rewrite Hp. }
  eexists. split; [reflexivity|].
  unfold strip_spans in *. rewrite strip_from_app, Htag, Hstrip.
  rewrite <- (escape_all_spaces trailing) at 1 by done.
  rewrite strip_spans_escape, <- escape_app. done.
Qed.

Lemma inline_line_roundtrip_witness :
  highlight_loop (H := Sample.env)
    [Token NAME "a" (1, 0) (1, 1); Token NEWLINE Sample.nl (1, 1) (1, 2)]
    ([], "", 0)
  = Ok (["a"], "", 2)
  ∧ forallb inline
      [Chunk "" NAME "x"; Chunk " " OP "="; Chunk " " NUMBER "1";
       Chunk "  " COMMENT "# comment"] = true
  ∧ ∃ l,
      highlight_loop (H := Sample.env)
        ([Token NAME "a" (1, 0) (1, 1); Token NEWLINE Sample.nl (1, 1) (1, 2)]
         ++ chunk_tokens 2 0
              [Chunk "" NAME "x"; Chunk " " OP "="; Chunk " " NUMBER "1";
               Chunk "  " COMMENT "# comment"]
         ++ [Token NEWLINE Sample.nl (2, 16) (2, 17)])
        ([], "", 0)
      = Ok (["a"] ++ [l], "", 17)
      ∧ strip_spans l
        = Py.escape
            (chunks_text
               [Chunk "" NAME "x"; Chunk " " OP "="; Chunk " " NUMBER "1";
                Chunk "  " COMMENT "# comment"]
             +:+ "").
Proof.
  split; [reflexivity|]. split; [reflexivity|].
  apply (inline_line_roundtrip (H := Sample.env)
           [Token NAME "a" (1, 0) (1, 1);
            Token NEWLINE Sample.nl (1, 1) (1, 2)]
           2 [Chunk "" NAME "x"; Chunk " " OP "="; Chunk " " NUMBER "1";
              Chunk "  " COMMENT "# comment"]
           "" (Token NEWLINE Sample.nl (2, 16) (2, 17)) ["a"] "" 2);
    reflexivity.
Defined.

(** This layout is the recorded run of ["x = 1  # comment\n"]. *)
Example run_comment_layout :
  Sample.run_comment
  = Finished
      (line_tokens 1
         [Chunk "" NAME "x"; Chunk " " OP "="; Chunk " " NUMBER "1";
          Chunk "  " COMMENT "# comment"] ""
       ++ [Token ENDMARKER "" (2, 0) (2, 0)]).
Proof. reflexivity. Qed.

(** ** Added lines of a diff *)

Lemma splitlines_from_no_boundary (s t : string) :
  ∀ cur, no_boundary s = true →
         Py.splitlines_from cur (s +:+ t) = Py.splitlines_from (cur +:+ s) t.
Proof.
  induction s as [|c s IH]; intros cur Hs.
  - by rewrite str_app_nil_l, str_app_nil_r.
  - cbn [no_boundary] in Hs. apply andb_true_iff in Hs as [Hc Hs].
    apply negb_true_iff in Hc.
    rewrite str_app_cons. cbn [Py.splitlines_from]. rewrite Hc.
    rewrite IH by done. f_equal. unfold Py.chr.
    by rewrite str_app_assoc, str_app_cons, str_app_nil_l.
Qed.

Lemma splitlines_from_LF (cur t : string) :
  Py.splitlines_from cur (Py.chr Py.LF +:+ t) = cur :: Py.splitlines_from "" t.
Proof. reflexivity. Qed.

Lemma splitlines_join_newline (ls : list string) :
  Forall (λ l, no_boundary l = true) ls → ls ≠ [] →
  Py.splitlines (Py.join (Py.chr Py.LF) ls +:+ Py.chr Py.LF) = ls.
Proof.
  unfold Py.splitlines, Py.join.
  induction 1 as [|x ls Hx Hls IH]; intros Hne; [done|].
  destruct ls as [|y ls].
  - cbn [String.concat]. rewrite splitlines_from_no_boundary by done.
    rewrite str_app_nil_l. by rewrite <- (str_app_nil_r (Py.chr Py.LF)), splitlines_from_LF.
  - change (String.concat (Py.chr Py.LF) (x :: y :: ls))
      with (x +:+ Py.chr Py.LF +:+ String.concat (Py.chr Py.LF) (y :: ls)).
    rewrite !str_app_assoc, splitlines_from_no_boundary by done.
    rewrite str_app_nil_l, splitlines_from_LF. f_equal. by apply IH.
Qed.

Lemma splitlines_join (ls : list string) :
  Forall (λ l, no_boundary l = true) ls → last ls ≠ Some "" →
  Py.splitlines (Py.join (Py.chr Py.LF) ls) = ls.
Proof.
  unfold Py.splitlines, Py.join.
  induction 1 as [|x ls Hx Hls IH]; intros Hlast; [done|].
  destruct ls as [|y ls].
  - cbn [String.concat]. rewrite <- (str_app_nil_r x) at 1.
    rewrite splitlines_from_no_boundary by done. rewrite str_app_nil_l.
    cbn [Py.splitlines_from]. destruct x; [by destruct Hlast|done].
  - change (String.concat (Py.chr Py.LF) (x :: y :: ls))
      with (x +:+ Py.chr Py.LF +:+ String.concat (Py.chr Py.LF) (y :: ls)).
    rewrite splitlines_from_no_boundary by done.
    rewrite str_app_nil_l, splitlines_from_LF. f_equal. by apply IH.
Qed.

Lemma added_lines_loop (ls : list string) :
  ∀ result,
    foldl (λ result line,
             if Py.startswith line "+" && negb (Py.startswith line "+++")
             then result ++ [Py.tail line]
             else result)
          result ls
    = result ++ (Py.tail <$> filter (λ l, added l = true) ls).
Proof.
  induction ls as [|l ls IH]; intros result; cbn [foldl].
  - by rewrite app_nil_r.
  - rewrite filter_cons. destruct (decide (added l = true)) as [Ha|Ha].
    + unfold added in Ha. rewrite Ha, IH. cbn [fmap list_fmap].
      by rewrite <- app_assoc.
    + apply not_true_is_false in Ha. unfold added in Ha. rewrite Ha. apply IH.
Qed.

(** X10. The fragment of a mutant. For a diff made of the lines [ls]
    (none holding a line boundary), with or without a final line feed,
    [get_added_lines] returns the lines that start with [+] but not with
    [+++], each without its first character, joined by line feeds: the
    header lines, the removed lines and the context lines never reach the
    fragment, and neither does an added line whose own text starts with
    [++]. *)
Theorem get_added_lines_of_lines (ls : list string) :
  Forall (λ l, no_boundary l = true) ls →
  (ls ≠ [] →
   get_added_lines (Py.join (Py.chr Py.LF) ls +:+ Py.chr Py.LF)
   = Py.join (Py.chr Py.LF) (Py.tail <$> filter (λ l, added l = true) ls))
  ∧ (last ls ≠ Some "" →
     get_added_lines (Py.join (Py.chr Py.LF) ls)
     = Py.join (Py.chr Py.LF) (Py.tail <$> filter (λ l, added l = true) ls)).
Proof.
  intros Hls. unfold get_added_lines. split; intros Hcond.
  - rewrite splitlines_join_newline by done. by rewrite added_lines_loop.
  - rewrite splitlines_join by done. by rewrite added_lines_loop.
Qed.

Lemma get_added_lines_of_lines_witness :
  Forall (λ l, no_boundary l = true)
    ["--- f.py"; "+++ f.py"; "@@ -1 +1 @@"; "-x = 1"; "+x = 2"; "+++y"]
  ∧ get_added_lines
      (Py.join (Py.chr Py.LF)
         ["--- f.py"; "+++ f.py"; "@@ -1 +1 @@"; "-x = 1"; "+x = 2"; "+++y"]
       +:+ Py.chr Py.LF)
    = "x = 2".
Proof.
  assert (Hls : Forall (λ l, no_boundary l = true)
            ["--- f.py"; "+++ f.py"; "@@ -1 +1 @@"; "-x = 1"; "+x = 2"; "+++y"])
    by (repeat constructor).
  split; [exact Hls|].
  destruct (get_added_lines_of_lines _ Hls) as [Hnl _].
  rewrite Hnl by discriminate. reflexivity.
Defined.

(** ** Report names: equality and the file-name part *)

Lemma str_length_app (s t : string) :
  String.length (s +:+ t) = (String.length s + String.length t)%nat.
Proof. pose proof (len_app s t) as Hlen. unfold Py.len in Hlen. lia. Qed.

Lemma str_app_inj_r (s1 s2 t : string) : s1 +:+ t = s2 +:+ t → s1 = s2.
Proof.
  intros Heq.
  assert (Hlen : String.length s1 = String.length s2).
  { apply (f_equal String.length) in Heq. rewrite !str_length_app in Heq. lia. }
  by destruct (str_app_inj_length s1 s2 t t Hlen Heq).
Qed.

Lemma replace_dot_cons (c : ascii) (rest : string) :
  Py.replace (String c rest) "." "_"
  = String (if Ascii.eqb c "." then "_"%char else c) (Py.replace rest "." "_").
Proof.
  unfold Py.replace. cbn [Py.replace_from String.prefix String.length Nat.sub].
  destruct (ascii_dec "." c) as [<-|Hne].
  - by destruct rest.
  - destruct (Ascii.eqb_spec c ".") as [->|_]; [done|reflexivity].
Qed.

(** X11. When two report names coincide. For any two source files, the
    reports get the same path exactly when the parent directories agree on
    the twelve digest digits and the file names agree once their dots are
    replaced by underscores. *)
Theorem report_name_equal_iff `{Imports}
    (file_path1 file_path2 out_path prefix : string) :
  create_hashed_html_filename file_path1 out_path prefix
  = create_hashed_html_filename file_path2 out_path prefix
  ↔ digest12 file_path1 = digest12 file_path2
    ∧ Py.replace (Path.name (resolve file_path1)) "." "_"
      = Py.replace (Path.name (resolve file_path2)) "." "_".
Proof.
  destruct (digest12_shape file_path1) as [Hlen1 _].
  destruct (digest12_shape file_path2) as [Hlen2 _].
  unfold create_hashed_html_filename, Path.div.
  fold (digest12 file_path1). fold (digest12 file_path2). split.
  - intros [= Heq]. apply (inj (String.append prefix)) in Heq.
    apply str_app_inj_length in Heq as [Hd Hrest]; [|lia].
    split; [done|].
    apply (inj (String.append "_")) in Hrest. by apply str_app_inj_r in Hrest.
  - by intros [-> ->].
Qed.

(** X12. The file-name part of a report name: replacing the dots keeps the
    length of the name, leaves no dot, changes nothing in a name without
    dot, and gives the same result when applied again. So the only dot of
    the report name after the prefix is the one of [.html], and a name
    with a dot gets the same file-name part as the name with these dots
    written as underscores. *)
Theorem sanitized_name `{Imports} (file_path out_path prefix : string) :
  let name := Path.name (resolve file_path) in
  let sanitized := Py.replace name "." "_" in
  Path.name (create_hashed_html_filename file_path out_path prefix)
  = prefix +:+ digest12 file_path +:+ "_" +:+ sanitized +:+ ".html"
  ∧ String.length sanitized = String.length name
  ∧ contains "." sanitized = false
  ∧ (contains "." name = false → sanitized = name)
  ∧ Py.replace sanitized "." "_" = sanitized.
Proof.
  intros name sanitized. subst sanitized. split; [reflexivity|].
  generalize name. clear name. intros name.
  assert (Hno : ∀ s, contains "." s = false → Py.replace s "." "_" = s).
  { induction s as [|c s IH]; [done|]. cbn [contains].
    intros [Hc Hs]%orb_false_iff. rewrite replace_dot_cons, Hc, IH; done. }
  assert (Hdots : ∀ s, contains "." (Py.replace s "." "_") = false).
  { induction s as [|c s IH]; [done|]. rewrite replace_dot_cons.
    cbn [contains]. rewrite IH.
    destruct (Ascii.eqb c ".") eqn:Hc; [done|]. by rewrite Hc. }
  split; [|split; [apply Hdots|split; [apply Hno|apply Hno, Hdots]]].
  induction name as [|c s IH]; [done|]. rewrite replace_dot_cons.
  cbn [String.length]. by rewrite IH.
Qed.

Lemma sanitized_name_witness :
  contains "." "a_b" = false
  ∧ Py.replace (Path.name (resolve (Imports := Sample.env) "/work/a_b")) "." "_"
    = Path.name (resolve (Imports := Sample.env) "/work/a_b").
Proof.
  split; [reflexivity|].
  destruct (sanitized_name (H := Sample.env) "/work/a_b" "htmlmut" "zz_")
    as (_ & _ & _ & Hno & _).
  apply Hno. reflexivity.
Defined.

(** ** Renderer: counters *)

Lemma entries_upto_S (line2mutations : gmap Z (list (Mutant.t * string)))
    (first : Z) (n : nat) :
  entries_upto line2mutations first (S n)
  = (length (default [] (line2mutations !! first))
     + entries_upto line2mutations (first + 1) n)%nat.
Proof.
  unfold entries_upto. cbn [seq fmap list_fmap sum_list sum_list_with].
  change (Z.of_nat 0) with 0. rewrite Z.add_0_r. unfold id.
  apply (f_equal (Nat.add _)).
  rewrite <- fmap_S_seq, <- list_fmap_compose.
  apply (f_equal sum_list). apply list_fmap_ext. intros i x _. unfold compose.
  by replace (first + 1 + Z.of_nat x) with (first + Z.of_nat (S x)) by lia.
Qed.

Lemma render_line_counts `{Imports} (ln_w : Z)
    (line2mutations : gmap Z (list (Mutant.t * string)))
    (line_no mut_no line_no' mut_no' : Z) (result result' line : string) :
  render_line ln_w line2mutations (line_no, result, mut_no) line
  = Ok (line_no', result', mut_no') →
  line_no' = line_no + 1
  ∧ mut_no'
    = mut_no + Z.of_nat (length (default [] (line2mutations !! (line_no + 1)))).
Proof.
  unfold render_line.
  destruct (line2mutations !! (line_no + 1)) as [entries|].
  - destruct (foldl_result _ _ entries) as [[[[muts cls] mn] idx]|e] eqn:Hblock;
      [|discriminate].
    apply render_mutant_class in Hblock as (_ & -> & _).
    cbn [mbind result_bind]. intros [= <- _ <-]. done.
  - cbn [mbind result_bind]. intros [= <- _ <-]. cbn. lia.
Qed.

(** X14. The counters of the page. After the loop over the display lines
    the line counter is the number of lines minus one, and the running
    mutant number is the number of entries the dict holds for the line
    numbers 0 to that one: mutants are numbered consecutively over the
    page, and an entry whose line number is outside the listing is never
    shown nor counted. *)
Theorem render_counters `{Imports} (ln_w : Z)
    (line2mutations : gmap Z (list (Mutant.t * string)))
    (hl_code : list string) (line_no mut_no : Z) (result : string) :
  foldl_result (render_line ln_w line2mutations) (-1, "", 0) hl_code
  = Ok (line_no, result, mut_no) →
  line_no = Z.of_nat (length hl_code) - 1
  ∧ mut_no = Z.of_nat (entries_upto line2mutations 0 (length hl_code)).
Proof.
  assert (Hgen : ∀ hl ln0 res0 mn0,
    foldl_result (render_line ln_w line2mutations) (ln0, res0, mn0) hl
    = Ok (line_no, result, mut_no) →
    line_no = ln0 + Z.of_nat (length hl)
    ∧ mut_no = mn0 + Z.of_nat (entries_upto line2mutations (ln0 + 1) (length hl))).
  { induction hl as [|line hl IH]; intros ln0 res0 mn0 Hfold.
    - cbn in Hfold. injection Hfold as <- _ <-. cbn. lia.
    - cbn [foldl_result] in Hfold.
      destruct (render_line ln_w line2mutations (ln0, res0, mn0) line)
        as [[[ln1 res1] mn1]|e] eqn:Hline; [|discriminate Hfold].
      cbn [mbind result_bind] in Hfold.
      apply render_line_counts in Hline as [-> ->].
      apply IH in Hfold as [-> ->].
      cbn [length]. rewrite entries_upto_S. lia. }
  intros Hfold. apply Hgen in Hfold as [-> ->]. split; [lia|].
  by rewrite Z.add_0_l.
Qed.

Lemma render_counters_witness :
  ∃ result,
    foldl_result
      (render_line (H := Sample.env) 2 {[ 5 := Sample.entries_line5;
                                          9 := Sample.entries_line5 ]})
      (-1, "", 0) ["a"; "b"; "c"; "d"; "e"; "f"]
    = Ok (5, result, 2)
    ∧ 5 = Z.of_nat (length ["a"; "b"; "c"; "d"; "e"; "f"]) - 1
    ∧ 2 = Z.of_nat
            (entries_upto {[ 5 := Sample.entries_line5; 9 := Sample.entries_line5 ]}
               0 (length ["a"; "b"; "c"; "d"; "e"; "f"])).
Proof.
  eexists.
  assert (Hrun : foldl_result
      (render_line (H := Sample.env) 2 {[ 5 := Sample.entries_line5;
                                          9 := Sample.entries_line5 ]})
      (-1, "", 0) ["a"; "b"; "c"; "d"; "e"; "f"]
    = Ok (5, _, 2)) by (vm_compute; reflexivity).
  split; [exact Hrun|].
  exact (render_counters (H := Sample.env) 2 _ _ _ _ _ Hrun).
Defined.

(** ** Renderer: the class of a line *)

Lemma dict_lookup_Some `{Countable K} {V} (items : list (K * V)) (k : K) (v : V) :
  Py.dict items !! k = Some v → (k, v) ∈ items.
Proof.
  unfold Py.dict.
  assert (Hgen : ∀ m : gmap K V,
            foldl (λ m kv, <[kv.1 := kv.2]> m) m items !! k = Some v →
            (k, v) ∈ items ∨ m !! k = Some v).
  { induction items as [|[k' v'] items IH]; intros m Hlook; cbn [foldl] in Hlook.
    - by right.
    - destruct (IH _ Hlook) as [Hin|Hm]; [left; by right|].
      cbn [fst snd] in Hm.
      destruct (decide (k' = k)) as [->|Hne].
      + rewrite lookup_insert_eq in Hm. injection Hm as ->. left. left.
      + rewrite lookup_insert_ne in Hm by done. by right. }
  intros Hlook. destruct (Hgen ∅ Hlook) as [Hin|Hm]; [done|].
  by rewrite lookup_empty in Hm.
Qed.

Lemma status_bg_values `{Imports} (status : string) :
  Py.get MUTANT_STATUS2BG status "bgred"
  ∈ ["bgred"; "bgorange"; "bgray"; "bggreen"].
Proof.
  unfold Py.get.
  destruct (MUTANT_STATUS2BG !! status) as [bg|] eqn:Hlook; cbn; [|left].
  apply dict_lookup_Some in Hlook.
  repeat (apply elem_of_cons in Hlook as [[= _ ->]|Hlook]; [set_solver|]).
  by apply elem_of_nil in Hlook.
Qed.

Section LineClass.
Context `{Imports}.

Local Abbreviation bg_of := (λ status, Py.get MUTANT_STATUS2BG status "bgred").
Local Abbreviation fold_class :=
  (foldl (λ txt_cls status, combine txt_cls (bg_of status))).

Lemma fold_class_red (statuses : list string) :
  fold_class "bgred" statuses = "bgred".
Proof.
  induction statuses as [|s l IH]; [done|]. cbn [foldl].
  pose proof (status_bg_values s) as Hs.
  repeat (apply elem_of_cons in Hs as [->|Hs]; [exact IH|]).
  by apply elem_of_nil in Hs.
Qed.

Lemma fold_class_orange (statuses : list string) :
  fold_class "bgorange" statuses
  = if existsb (λ bg, String.eqb bg "bgred" || String.eqb bg "bgray")
         (bg_of <$> statuses)
    then "bgred" else "bgorange".
Proof.
  induction statuses as [|s l IH]; [done|]. cbn [foldl fmap list_fmap existsb].
  pose proof (status_bg_values s) as Hs.
  repeat (apply elem_of_cons in Hs as [->|Hs];
          [first [exact IH | apply fold_class_red]|]).
  by apply elem_of_nil in Hs.
Qed.

Lemma fold_class_green (statuses : list string) :
  fold_class "bggreen" statuses = shown_class statuses.
Proof.
  unfold shown_class.
  induction statuses as [|s l IH]; [done|]. cbn [foldl fmap list_fmap existsb].
  pose proof (status_bg_values s) as Hs.
  repeat (apply elem_of_cons in Hs as [->|Hs];
          [first [exact IH | apply fold_class_red | apply fold_class_orange]|]).
  by apply elem_of_nil in Hs.
Qed.

End LineClass.

(** X15. The class a line is displayed with depends only on which classes
    occur among its mutants: red as soon as one mutant is red (survived,
    untested or of unknown status) or gray (skipped), else orange as soon
    as one is orange (timeout), else green. In particular a line is never
    displayed gray, and the order of the mutants plays no role. *)
Theorem line_class_shown `{Imports} (statuses : list string) :
  line_class statuses = shown_class statuses.
Proof. unfold line_class. apply fold_class_green. Qed.

(** ** The report driver: one group for each source file *)

Lemma elem_of_concat {A} (x : A) (g : list A) (ls : list (list A)) :
  x ∈ g → g ∈ ls → x ∈ concat ls.
Proof.
  intros Hx. induction ls as [|g' ls IH]; [by intros ?%elem_of_nil|].
  cbn [concat]. intros [->|Hg]%elem_of_cons; apply elem_of_app; auto.
Qed.

Section Grouping.
Context {A : Type} (key : A → string).

Local Abbreviation key_le := (λ a b : A, String.le (key a) (key b)).

Lemma insert_by_str_perm (x : A) (l : list A) : insert_by_str key x l ≡ₚ x :: l.
Proof.
  induction l as [|y l IH]; cbn [insert_by_str]; [done|].
  destruct (String.leb (key x) (key y)); [done|].
  rewrite IH. apply Permutation_swap.
Qed.

Lemma sorted_str_perm (l : list A) : sorted_str l key ≡ₚ l.
Proof.
  unfold sorted_str. induction l as [|x l IH]; cbn [foldr]; [done|].
  by rewrite insert_by_str_perm, IH.
Qed.

Lemma not_leb_le (s t : string) : String.leb s t = false → String.le t s.
Proof.
  intros Hst. unfold String.le.
  destruct (String.leb_total s t) as [Hle|Hle]; [congruence|by rewrite Hle].
Qed.

Lemma insert_by_str_ascending (x : A) (l : list A) :
  Sorted key_le l → Sorted key_le (insert_by_str key x l).
Proof.
  induction 1 as [|y l Hl IH Hhd]; cbn [insert_by_str].
  - repeat constructor.
  - destruct (String.leb (key x) (key y)) eqn:Hxy.
    + repeat constructor; try done. unfold String.le. by rewrite Hxy.
    + constructor; [exact IH|].
      destruct Hhd as [|z l' Hyz]; cbn [insert_by_str].
      * constructor. by apply not_leb_le.
      * destruct (String.leb (key x) (key z)); constructor;
          [by apply not_leb_le|done].
Qed.

Lemma sorted_str_ascending (l : list A) : Sorted key_le (sorted_str l key).
Proof.
  unfold sorted_str. induction l as [|x l IH]; cbn [foldr]; [constructor|].
  by apply insert_by_str_ascending.
Qed.

Lemma insert_by_str_stable (k : string) (x : A) (l : list A) :
  filter (λ a, key a = k) (insert_by_str key x l)
  = filter (λ a, key a = k) (x :: l).
Proof.
  induction l as [|y l IH]; cbn [insert_by_str]; [done|].
  destruct (String.leb (key x) (key y)) eqn:Hxy; [done|].
  rewrite filter_cons, IH, !filter_cons.
  destruct (decide (key y = k)) as [Hy|Hy], (decide (key x = k)) as [Hx|Hx];
    try done.
  exfalso. rewrite Hx, Hy in Hxy.
  destruct (String.leb_total k k); congruence.
Qed.

Lemma sorted_str_stable (k : string) (l : list A) :
  filter (λ a, key a = k) (sorted_str l key) = filter (λ a, key a = k) l.
Proof.
  unfold sorted_str. induction l as [|x l IH]; cbn [foldr]; [done|].
  rewrite insert_by_str_stable, !filter_cons, IH. done.
Qed.

(** The groups of any list: their concatenation is the list, and the
    elements of a group have the key of the group. *)
Lemma groupby_concat (l : list A) :
  concat ((λ kg, kg.2) <$> groupby l key) = l
  ∧ Forall (λ kg, Forall (λ a, key a = kg.1) kg.2) (groupby l key).
Proof.
  induction l as [|x l [IHc IHk]]; cbn [groupby]; [by split; constructor|].
  destruct (groupby l key) as [|[k g] rest].
  - cbn in IHc. subst l. split; [done|]. repeat constructor.
  - apply Forall_cons in IHk as [Hg Hrest]. cbn [fst snd] in Hg.
    destruct (String.eqb_spec (key x) k) as [Hk|Hk].
    + split; [cbn in *; by rewrite IHc|].
      constructor; [|done]. cbn [fst snd]. by constructor.
    + split; [cbn in *; by rewrite IHc|].
      repeat constructor; done.
Qed.

Lemma groupby_nonempty (l : list A) :
  Forall (λ kg, kg.2 ≠ []) (groupby l key).
Proof.
  induction l as [|x l IH]; cbn [groupby]; [constructor|].
  destruct (groupby l key) as [|[k g] rest]; [by repeat constructor|].
  apply Forall_cons in IH as [Hg Hrest].
  destruct (String.eqb (key x) k); repeat constructor; done.
Qed.

Lemma groupby_head (h : A) (l : list A) (k : string) (g : list A)
    (rest : list (string * list A)) :
  groupby (h :: l) key = (k, g) :: rest → k = key h.
Proof.
  cbn [groupby]. destruct (groupby l key) as [|[k2 g2] rest2].
  - by intros [= <- _ _].
  - destruct (String.eqb_spec (key h) k2) as [Hh|Hh]; by intros [= <- _ _].
Qed.

Lemma groupby_key_in (l : list A) (kg : string * list A) :
  kg ∈ groupby l key → ∃ y, y ∈ l ∧ key y = kg.1.
Proof.
  intros Hkg. destruct (groupby_concat l) as [Hcat Hkeys].
  pose proof (groupby_nonempty l) as Hne.
  rewrite Forall_forall in Hkeys, Hne.
  pose proof (Hkeys _ Hkg) as Hk. pose proof (Hne _ Hkg) as Hg.
  destruct kg as [k [|y g]]; [done|]. cbn [fst snd] in *.
  exists y. split; [|by apply Forall_cons in Hk as [? _]].
  rewrite <- Hcat. apply (elem_of_concat y (y :: g)); [left|].
  by apply (list_elem_of_fmap_2 (λ kg : string * list A, kg.2) _ (k, y :: g)).
Qed.

Lemma Sorted_head_le (x : A) (l : list A) :
  Sorted key_le (x :: l) → ∀ y, y ∈ l → String.le (key x) (key y).
Proof.
  intros Hs y Hy. apply Sorted_extends in Hs.
  - rewrite List.Forall_forall in Hs. apply Hs. by apply list_elem_of_In.
  - intros a b c Hab Hbc. by etrans.
Qed.

Lemma filter_none (P : A → Prop) `{∀ a, Decision (P a)} (l : list A) :
  (∀ y, y ∈ l → ¬ P y) → filter P l = [].
Proof.
  induction l as [|y l IH]; intros Hl; [done|].
  rewrite filter_cons, decide_False by (apply Hl; left).
  apply IH. intros z Hz. apply Hl. by right.
Qed.

(** In a list in ascending key order, a group holds every element of
    its key, no two groups have the same key, and the keys of the groups
    are in ascending order. *)
Lemma groupby_ascending (l : list A) :
  Sorted key_le l →
  NoDup ((λ kg, kg.1) <$> groupby l key)
  ∧ Sorted String.le ((λ kg, kg.1) <$> groupby l key)
  ∧ Forall (λ kg, kg.2 = filter (λ a, key a = kg.1) l) (groupby l key).
Proof.
  induction l as [|x l IH]; intros Hsorted.
  { cbn. repeat split; constructor. }
  pose proof (Sorted_head_le x l Hsorted) as Hx.
  apply Sorted_inv in Hsorted as [Hl _].
  destruct (IH Hl) as (IHnd & IHs & IHf). clear IH.
  pose proof (groupby_key_in l) as Hin.
  destruct (groupby_concat l) as [Hcat _].
  cbn [groupby].
  destruct (groupby l key) as [|[k g] rest] eqn:Hgs.
  { cbn in Hcat. subst l. repeat split.
    - apply NoDup_singleton.
    - repeat constructor.
    - repeat constructor. cbn. by rewrite decide_True. }
  destruct (String.eqb_spec (key x) k) as [Hk|Hk].
  - split; [done|]. split; [done|].
    apply Forall_cons in IHf as [Hg Hrest]. cbn [fst snd] in Hg.
    constructor.
    + cbn [fst snd]. rewrite filter_cons, decide_True by done. by rewrite <- Hg.
    + rewrite Forall_forall in Hrest |- *. intros [k' g'] Hkg.
      cbn [fst snd]. rewrite filter_cons, decide_False; [by apply (Hrest _ Hkg)|].
      apply NoDup_cons in IHnd as [Hnotin _]. intros Heq. apply Hnotin.
      cbn [fst]. rewrite <- Hk, Heq.
      by apply (list_elem_of_fmap_2 (λ kg : string * list A, kg.1) _ (k', g')).
  - destruct l as [|h l0]; [done|].
    pose proof (groupby_head h l0 k g rest Hgs) as ->.
    assert (Hfresh : ∀ y, y ∈ h :: l0 → key y ≠ key x).
    { intros y Hy Heq. apply Hk. apply (anti_symm String.le).
      - apply Hx. left.
      - rewrite <- Heq. apply elem_of_cons in Hy as [->|Hy]; [done|].
        by apply (Sorted_head_le h l0). }
    split; [|split].
    + rewrite fmap_cons. cbn [fst]. apply NoDup_cons. split; [|done].
      intros Hkin. apply list_elem_of_fmap in Hkin as (kg & Hkx & Hkg).
      destruct (Hin kg Hkg) as (y & Hy & Hyk).
      apply (Hfresh y Hy). congruence.
    + rewrite fmap_cons. cbn [fst]. constructor; [done|].
      rewrite fmap_cons. cbn [fst]. constructor. apply Hx. left.
    + constructor.
      * cbn [fst snd]. rewrite filter_cons, decide_True by done.
        by rewrite (filter_none _ _ Hfresh).
      * rewrite Forall_forall in IHf |- *. intros kg Hkg.
        rewrite filter_cons, decide_False; [by apply IHf|].
        destruct (Hin kg Hkg) as (y & Hy & Hyk). intros Heq.
        apply (Hfresh y Hy). congruence.
Qed.

Lemma groupby_covers (l : list A) (y : A) :
  y ∈ l → key y ∈ (λ kg, kg.1) <$> groupby l key.
Proof.
  induction l as [|x l IH]; [by intros ?%elem_of_nil|].
  cbn [groupby]. intros Hy.
  destruct (groupby l key) as [|[k g] rest] eqn:Hgs.
  - apply elem_of_cons in Hy as [->|Hy]; [left|].
    by apply IH, elem_of_nil in Hy.
  - destruct (String.eqb_spec (key x) k) as [Hk|Hk].
    + apply elem_of_cons in Hy as [->|Hy]; [rewrite Hk; left|by apply IH].
    + apply elem_of_cons in Hy as [->|Hy]; [left|]. right. by apply IH.
Qed.

End Grouping.

(** X16. One group for each source file. Sorting the mutants of the store
    by file name and grouping them, as [create_html_report] does, gives
    the file names that occur, each once and in ascending order, and with
    each file name exactly the mutants of that file, in the order they
    had in the store. *)
Theorem report_groups (rows : list Row.t) :
  let groups := groupby (sorted_str rows Row.filename) Row.filename in
  NoDup ((λ kg, kg.1) <$> groups)
  ∧ Sorted String.le ((λ kg, kg.1) <$> groups)
  ∧ (∀ filename,
       filename ∈ (λ kg, kg.1) <$> groups ↔ filename ∈ Row.filename <$> rows)
  ∧ (∀ filename mutants,
       (filename, mutants) ∈ groups →
       mutants = filter (λ r, Row.filename r = filename) rows).
Proof.
  intros groups. subst groups.
  destruct (groupby_ascending Row.filename (sorted_str rows Row.filename)
              (sorted_str_ascending Row.filename rows)) as (Hnd & Hs & Hf).
  split; [exact Hnd|]. split; [exact Hs|]. split.
  - intros filename. split.
    + intros (kg & -> & Hkg)%list_elem_of_fmap.
      destruct (groupby_key_in Row.filename _ kg Hkg) as (y & Hy & <-).
      rewrite sorted_str_perm in Hy. by apply list_elem_of_fmap_2.
    + intros (r & -> & Hr)%list_elem_of_fmap.
      apply groupby_covers. by rewrite sorted_str_perm.
  - intros filename mutants Hkg. rewrite Forall_forall in Hf.
    pose proof (Hf _ Hkg) as Hg. cbn [fst snd] in Hg. rewrite Hg.
    apply sorted_str_stable.
Qed.

(** ** The page template *)

Section FormatFacts.
Context (key value : string)
  (field : string → option ascii → string → string → result string).


End FormatFacts.






(** ** Statements that read and change the files *)

Lemma io_bind_eq {A B} (m : io A) (k : A → io B) (w : World.t) :
  (m ≫= k) w
  = match m w with
    | (Returns a, w') => k a w'
    | (Raises e, w') => (Raises e, w')
    end.
Proof. reflexivity. Qed.

Lemma print_lines (lines : list string) :
  ∀ w, foldl_io (λ _ line, print line) tt lines w
       = (Returns tt,
          World.Make (World.files w) (World.printed w ++ lines)
            (World.template w)).
Proof.
  induction lines as [|line lines IH]; intros w; cbn [foldl_io].
  - rewrite app_nil_r. by destruct w.
  - rewrite io_bind_eq. cbn [print]. rewrite IH. cbn [World.files World.printed
      World.template]. by rewrite <- app_assoc.
Qed.

Lemma last12_length (msg : list Z) :
  String.length (Py.last_chars 12 (MD5.hexdigest msg)) = 12%nat.
Proof.
  unfold Py.last_chars, MD5.hexdigest.
  destruct (digest_bytes msg) as [Hlen _].
  rewrite hex_length, Hlen. apply substring_length.
  rewrite hex_length, Hlen. cbn. lia.
Qed.

(** What [copy_file_to_hashed_name] does from any state. *)
Lemma copy_file_run (w : World.t) (file_path : Path.t)
    (out_path prefix : string) :
  copy_file_to_hashed_name file_path out_path prefix w
  = match World.files w !! path_key file_path with
    | Some buf =>
        let r_path :=
          Path.Make out_path
            (prefix +:+ Py.last_chars 12 (MD5.hexdigest (Utf8.encode buf))
             +:+ "_" +:+ Path.name file_path) in
        (Returns r_path,
         World.Make (<[path_key r_path := buf]> (World.files w))
           (World.printed w) (World.template w))
    | None => (Raises FileNotFoundError, w)
    end.
Proof.
  unfold copy_file_to_hashed_name. rewrite io_bind_eq. unfold read_text.
  by destruct (World.files w !! path_key file_path).
Qed.

(** X9. A copy made by [copy_file_to_hashed_name]. When the source file
    exists, the function returns a path in the output directory, named by
    the prefix, the last twelve digits of the MD5 digest of the text and
    the name of the source; that file then holds the text of the source,
    no other file has changed, nothing is printed, and copying the same
    file again returns the same path and changes nothing. When the source
    file does not exist it raises [FileNotFoundError] and has changed
    nothing. *)
Theorem copy_file_to_hashed_name_copy (w : World.t) (file_path : Path.t)
    (out_path prefix : string) :
  match copy_file_to_hashed_name file_path out_path prefix w with
  | (Returns r_path, w') =>
      ∃ buf,
        World.files w !! path_key file_path = Some buf
        ∧ World.files w' !! path_key r_path = Some buf
        ∧ r_path
          = Path.Make out_path
              (prefix +:+ Py.last_chars 12 (MD5.hexdigest (Utf8.encode buf))
               +:+ "_" +:+ Path.name file_path)
        ∧ (∀ k, k ≠ path_key r_path →
             World.files w' !! k = World.files w !! k)
        ∧ World.printed w' = World.printed w
        ∧ World.template w' = World.template w
        ∧ copy_file_to_hashed_name file_path out_path prefix w'
          = (Returns r_path, w')
  | (Raises e, w') =>
      e = FileNotFoundError ∧ w' = w
      ∧ World.files w !! path_key file_path = None
  end.
Proof.
  rewrite copy_file_run.
  destruct (World.files w !! path_key file_path) as [buf|] eqn:Hsrc; [|done].
  cbn zeta. exists buf. cbn [World.files World.printed World.template].
  split; [done|]. split; [by rewrite lookup_insert_eq|]. split; [done|].
  split; [intros k Hk; by rewrite lookup_insert_ne|].
  split; [done|]. split; [done|].
  rewrite copy_file_run. cbn [World.files World.printed World.template].
  set (r := {| Path.parent := out_path; Path.name := _ |}).
  assert (Hread : <[path_key r := buf]> (World.files w) !! path_key file_path
                  = Some buf).
  { destruct (decide (path_key r = path_key file_path)) as [<-|Hne].
    - by rewrite lookup_insert_eq.
    - by rewrite lookup_insert_ne. }
  rewrite Hread. cbn zeta. fold r. by rewrite insert_insert_eq.
Qed.

(** A copy of the style sheet, and a copy of a file that is not there. *)
Example copy_file_to_hashed_name_css :
  copy_file_to_hashed_name (Path.Make "/pkg" "htmlmut.css") "/out" "zx_"
    Run.world
  = (Returns (Path.Make "/out" "zx_40724f9f8e71_htmlmut.css"),
     World.Make
       (<[("/out", "zx_40724f9f8e71_htmlmut.css") := "p { margin: 0 }"]>
          Run.files)
       [] html_content)
  ∧ copy_file_to_hashed_name (Path.Make "/pkg" "htmlmut.png") "/out" "zx_"
      Run.world
    = (Raises FileNotFoundError, Run.world).
Proof.
  split.
  - rewrite copy_file_run.
    replace (World.files Run.world !! path_key (Path.Make "/pkg" "htmlmut.css"))
      with (Some "p { margin: 0 }") by (vm_compute; reflexivity).
    cbn zeta.
    replace (Py.last_chars 12 (MD5.hexdigest (Utf8.encode "p { margin: 0 }")))
      with "40724f9f8e71" by (vm_compute; reflexivity).
    reflexivity.
  - rewrite copy_file_run.
    replace (World.files Run.world !! path_key (Path.Make "/pkg" "htmlmut.png"))
      with (@None string) by (vm_compute; reflexivity).
    reflexivity.
Qed.

Section DriverFacts.
Context `{Imports}.

(** One round of the loop over the groups, whether it returns or raises:
    the file name is printed first, the page template stays, and the
    report is the only file written, when the round returns. *)
Lemma report_file_run (dict_synonyms : synonyms) (dir_path : string)
    (index_data : list string) (filename : string) (mutants : list Row.t)
    (w : World.t) :
  let r := report_file dict_synonyms dir_path index_data (filename, mutants) w in
  let report_path := create_hashed_html_filename filename dir_path "zz_" in
  (∃ lost, World.printed r.2 = World.printed w ++ filename :: lost)
  ∧ World.template r.2 = World.template w
  ∧ match r.1 with
    | Returns index_data' =>
        index_data' = index_data ++ [index_row report_path filename]
        ∧ ∃ output,
            World.files r.2
            = <[path_key report_path := output]> (World.files w)
    | Raises _ => World.files r.2 = World.files w
    end.
Proof.
  cbv [report_file create_html_from_source mbind mret io_bind io_ret
       get_html_content read_text uncaught write_text].
  cbn [print World.files World.printed World.template].
  destruct (World.files w !! path_key (resolve filename)) as [source|].
  2:{ cbn [fst snd World.files World.printed World.template].
      split; [by exists []|done]. }
  rewrite print_lines. cbn [World.files World.printed World.template].
  rewrite <- app_assoc.
  destruct (highlight_code source) as [hl_code|e].
  2:{ cbn [fst snd World.files World.printed World.template].
      split; [by eexists|done]. }
  destruct (html_output _ _ _) as [output|e];
    cbn [fst snd World.files World.printed World.template];
    (split; [by eexists|]); (split; [done|]); [|done].
  split; [done|]. by exists output.
Qed.

(** The loop over the groups, whether it returns or raises: only reports
    of the groups are written, no file is removed, the page template
    stays and lines are only added to the printed ones. When the loop
    returns, the index has one more row for each group, in their order,
    every report exists and every file name was printed. *)
Lemma report_loop (dict_synonyms : synonyms) (dir_path : string)
    (groups : list (string * list Row.t)) :
  ∀ (index_data : list string) (w : World.t),
    let r := foldl_io (report_file dict_synonyms dir_path) index_data groups w in
    let report filename := create_hashed_html_filename filename dir_path "zz_" in
    (∀ k, (∀ g, g ∈ groups → k ≠ path_key (report g.1)) →
          World.files r.2 !! k = World.files w !! k)
    ∧ (∀ k, is_Some (World.files w !! k) → is_Some (World.files r.2 !! k))
    ∧ World.template r.2 = World.template w
    ∧ (∃ more, World.printed r.2 = World.printed w ++ more
               ∧ (∀ index_data', r.1 = Returns index_data' →
                    ∀ g, g ∈ groups → g.1 ∈ more))
    ∧ match r.1 with
      | Returns index_data' =>
          index_data'
          = index_data ++ ((λ g, index_row (report g.1) g.1) <$> groups)
          ∧ ∀ g, g ∈ groups →
                 is_Some (World.files r.2 !! path_key (report g.1))
      | Raises _ => True
      end.
Proof.
  induction groups as [|[filename mutants] groups IH]; intros index_data w.
  - cbn. rewrite app_nil_r. split; [done|]. split; [done|]. split; [done|].
    split; [|by split; [|intros g ?%elem_of_nil]].
    exists []. rewrite app_nil_r. split; [done|].
    by intros _ _ g ?%elem_of_nil.
  - cbn zeta. cbn [foldl_io]. rewrite io_bind_eq.
    pose proof (report_file_run dict_synonyms dir_path index_data filename
                  mutants w) as Hstep. cbn zeta in Hstep.
    destruct (report_file dict_synonyms dir_path index_data
                (filename, mutants) w) as [[index_data1|e] w1];
      cbn [fst snd] in Hstep; destruct Hstep as ([lost Hp] & Ht & Hf).
    + destruct Hf as [-> [output Hf]].
      specialize (IH (index_data ++
                        [index_row (create_hashed_html_filename filename
                                      dir_path "zz_") filename]) w1).
      cbn zeta in IH.
      destruct (foldl_io _ _ groups w1) as [o w2]. cbn [fst snd] in *.
      destruct IH as (Hframe & Hkeep & Ht2 & (more & Hp2 & Hnames) & Hret).
      assert (Hkeep1 : ∀ k, is_Some (World.files w !! k) →
                            is_Some (World.files w1 !! k)).
      { intros k Hk. rewrite Hf.
        destruct (decide (path_key (create_hashed_html_filename filename
                                      dir_path "zz_") = k)) as [<-|Hne].
        - by rewrite lookup_insert_eq.
        - by rewrite lookup_insert_ne. }
      split.
      { intros k Hk. rewrite Hframe.
        - rewrite Hf, lookup_insert_ne; [done|].
          intros Heq. by apply (Hk (filename, mutants)); [left|].
        - intros g Hg. apply Hk. by right. }
      split; [intros k Hk; by apply Hkeep, Hkeep1|].
      split; [by rewrite Ht2|].
      split.
      { exists (filename :: lost ++ more). split.
        - rewrite Hp2, Hp, <- app_assoc. done.
        - intros index_data' Ho g [->|Hg]%elem_of_cons; [by left|].
          right. apply elem_of_app. right. by apply (Hnames _ Ho). }
      destruct o as [index_data2|e]; [|done].
      destruct Hret as [-> Hnew]. split; [by rewrite <- app_assoc|].
      intros g [->|Hg]%elem_of_cons; [|by apply Hnew].
      apply Hkeep. rewrite Hf. by rewrite lookup_insert_eq.
    + cbn [fst snd]. split; [intros k _; by rewrite Hf|].
      split; [intros k Hk; by rewrite Hf|].
      split; [done|]. split; [|done].
      exists (filename :: lost). split; [done|]. discriminate.
Qed.

(** One round of the loop over the assets. *)
Lemma copy_asset_run (this_dir_path dir_path name : string) (w : World.t) :
  copy_asset this_dir_path dir_path tt name w
  = match World.files w !! (this_dir_path, name) with
    | Some buf =>
        let new_name :=
          "zx_" +:+ Py.last_chars 12 (MD5.hexdigest (Utf8.encode buf))
          +:+ "_" +:+ name in
        (Returns tt,
         World.Make (<[(dir_path, new_name) := buf]> (World.files w))
           (World.printed w)
           (Py.replace (World.template w) name new_name))
    | None => (Raises FileNotFoundError, w)
    end.
Proof.
  unfold copy_asset. rewrite io_bind_eq, copy_file_run.
  unfold Path.div, path_key. cbn [Path.parent Path.name].
  by destruct (World.files w !! (this_dir_path, name)).
Qed.

End DriverFacts.

(** X17. [create_html_report], whether it returns or raises, removes no
    file and only adds to the printed lines. When it returns, it has
    written [index.html] in the output directory: the two heading lines,
    one row for each group of the sorted mutants, in their order, linking
    the file name to its report, and the closing line, each ended by a
    line feed; the report of every file name of the store exists and the
    file name was printed; the two assets were copied to the output
    directory under their hashed names, and the page template is the old
    one with the names of the assets replaced, first the script and then
    the style sheet, by the names of the copies. When it raises,
    [index.html] is as it was. *)
Theorem create_html_report_index `{Imports} (rows : list Row.t)
    (dict_synonyms : synonyms) (dir_path this_dir_path : string)
    (w : World.t) :
  let r := create_html_report rows dict_synonyms dir_path this_dir_path w in
  let groups := groupby (sorted_str rows Row.filename) Row.filename in
  let report filename := create_hashed_html_filename filename dir_path "zz_" in
  let copy_name buf name :=
    "zx_" +:+ Py.last_chars 12 (MD5.hexdigest (Utf8.encode buf)) +:+ "_"
    +:+ name in
  (∀ k, is_Some (World.files w !! k) → is_Some (World.files r.2 !! k))
  ∧ (∃ more, World.printed r.2 = World.printed w ++ more)
  ∧ match r.1 with
    | Returns _ =>
        World.files r.2 !! (dir_path, "index.html")
        = Some (Py.join (Py.chr Py.LF)
                  (["<h1>Mutation files</h1>";
                    "<table><thead><tr><th>File</th></thead>"]
                   ++ ((λ g, index_row (report g.1) g.1) <$> groups)
                   ++ ["</table></body></html>"])
                +:+ Py.chr Py.LF)
        ∧ (∀ row, row ∈ rows →
             is_Some (World.files r.2 !! path_key (report (Row.filename row)))
             ∧ Row.filename row ∈ World.printed r.2)
        ∧ ∃ js css,
            World.files w !! (this_dir_path, "htmlmut.js") = Some js
            ∧ World.files w !! (this_dir_path, "htmlmut.css") = Some css
            ∧ World.files r.2 !! (dir_path, copy_name js "htmlmut.js")
              = Some js
            ∧ World.files r.2 !! (dir_path, copy_name css "htmlmut.css")
              = Some css
            ∧ World.template r.2
              = Py.replace
                  (Py.replace (World.template w) "htmlmut.js"
                     (copy_name js "htmlmut.js"))
                  "htmlmut.css" (copy_name css "htmlmut.css")
    | Raises _ =>
        World.files r.2 !! (dir_path, "index.html")
        = World.files w !! (dir_path, "index.html")
    end.
Proof.
  cbn zeta. unfold create_html_report.
  rewrite io_bind_eq. cbn [foldl_io]. rewrite io_bind_eq, copy_asset_run.
  destruct (World.files w !! (this_dir_path, "htmlmut.js")) as [js|] eqn:Hjs.
  2:{ cbn [fst snd]. split; [done|]. split; [by exists []; rewrite app_nil_r|].
      done. }
  cbn zeta. cbn [foldl_io]. rewrite io_bind_eq, copy_asset_run.
  cbn [World.files World.printed World.template].
  set (name_js := "zx_" +:+ Py.last_chars 12 (MD5.hexdigest (Utf8.encode js))
                  +:+ "_" +:+ "htmlmut.js").
  assert (Hother : (dir_path, name_js) ≠ (this_dir_path, "htmlmut.css")).
  { by intros [=]. }
  rewrite lookup_insert_ne by done.
  destruct (World.files w !! (this_dir_path, "htmlmut.css")) as [css|] eqn:Hcss.
  2:{ cbn [fst snd World.files World.printed]. split.
      - intros k Hk. destruct (decide ((dir_path, name_js) = k)) as [<-|Hne].
        + by rewrite lookup_insert_eq.
        + by rewrite lookup_insert_ne.
      - split; [by exists []; rewrite app_nil_r|].
        rewrite lookup_insert_ne; [done|]. by intros [=]. }
  cbn zeta. cbn [mret io_ret].
  set (name_css := "zx_" +:+ Py.last_chars 12 (MD5.hexdigest (Utf8.encode css))
                   +:+ "_" +:+ "htmlmut.css").
  set (w2 := World.Make _ _ _).
  rewrite io_bind_eq.
  pose proof (report_loop dict_synonyms dir_path
                (groupby (sorted_str rows Row.filename) Row.filename)
                ["<h1>Mutation files</h1>";
                 "<table><thead><tr><th>File</th></thead>"] w2) as Hloop.
  cbn zeta in Hloop.
  destruct (foldl_io _ _ (groupby _ _) w2) as [o w3]. cbn [fst snd] in Hloop.
  destruct Hloop as (Hframe & Hkeep & Ht & (more & Hp & Hnames) & Hret).
  assert (Hkeep2 : ∀ k, is_Some (World.files w !! k) →
                        is_Some (World.files w2 !! k)).
  { intros k Hk. unfold w2. cbn [World.files].
    destruct (decide ((dir_path, name_css) = k)) as [<-|Hne1];
      [by rewrite lookup_insert_eq|].
    rewrite lookup_insert_ne by done.
    destruct (decide ((dir_path, name_js) = k)) as [<-|Hne2];
      [by rewrite lookup_insert_eq|].
    by rewrite lookup_insert_ne. }
  assert (Hzz : ∀ name g,
            name = "index.html" ∨ (∃ rest, name = "zx_" +:+ rest) →
            (dir_path, name)
            ≠ path_key (create_hashed_html_filename g dir_path "zz_")).
  { intros name g Hname. unfold create_hashed_html_filename, Path.div, path_key.
    cbn [Path.parent Path.name]. by destruct Hname as [->|[rest ->]]; intros [=]. }
  assert (Hindex : World.files w3 !! (dir_path, "index.html")
                   = World.files w !! (dir_path, "index.html")).
  { rewrite Hframe by (intros g _; apply Hzz; by left).
    unfold w2. cbn [World.files].
    rewrite !lookup_insert_ne by (by intros [=]). done. }
  destruct o as [index_data|e].
  2:{ cbn [fst snd]. split; [intros k Hk; by apply Hkeep, Hkeep2|].
      split; [by exists more|]. exact Hindex. }
  destruct Hret as [-> Hnew].
  unfold write_text, Path.div, path_key.
  cbn [fst snd Path.parent Path.name World.files World.printed World.template].
  assert (Hidx : ∀ k text, is_Some (World.files w3 !! k) →
            is_Some (<[(dir_path, "index.html") := text]> (World.files w3)
                       !! k)).
  { intros k text Hk.
    destruct (decide ((dir_path, "index.html") = k)) as [<-|Hne].
    - by rewrite lookup_insert_eq.
    - by rewrite lookup_insert_ne. }
  split; [intros k Hk; by apply Hidx, Hkeep, Hkeep2|].
  split; [by exists more|].
  split; [by rewrite lookup_insert_eq, <- (assoc_L (++))|].
  split.
  { intros row Hrow.
    assert (Hkey : Row.filename row
                   ∈ (λ kg, kg.1) <$> groupby (sorted_str rows Row.filename)
                                        Row.filename).
    { apply groupby_covers. by rewrite sorted_str_perm. }
    apply list_elem_of_fmap in Hkey as (g & -> & Hg).
    split; [apply Hidx; by apply Hnew|].
    rewrite Hp. apply elem_of_app. right. by apply (Hnames _ eq_refl). }
  exists js, css. split; [done|]. split; [done|].
  rewrite !lookup_insert_ne by (by intros [=]).
  rewrite !Hframe by (intros g _; apply Hzz; right; by eexists).
  unfold w2. cbn [World.files World.template]. fold name_js name_css.
  split.
  { rewrite lookup_insert_ne; [by rewrite lookup_insert_eq|].
    intros [= Hname]. apply (f_equal String.length) in Hname.
    unfold name_js, name_css in Hname.
    rewrite !str_length_app, !last12_length in Hname. cbn in Hname. lia. }
  split; [by rewrite lookup_insert_eq|]. by rewrite Ht.
Qed.

(** A run on a store with one mutant: the report and the index are
    written, the file name is printed and the page template names the
    copies of the assets. *)
Example create_html_report_run :
  let r := create_html_report (H := Sample.env) Run.rows tt "/out" "/pkg"
             Run.world in
  r.1 = Returns tt
  ∧ World.files r.2 !! ("/out", "index.html")
    = Some ("<h1>Mutation files</h1>" +:+ Sample.nl
            +:+ "<table><thead><tr><th>File</th></thead>" +:+ Sample.nl
            +:+ "<tr><td><a href=" +:+ Py.dq +:+ "zz_8fcb7ff1a3dc_a_py.html"
            +:+ Py.dq +:+ ">/src/a.py</a></td></tr>" +:+ Sample.nl
            +:+ "</table></body></html>" +:+ Sample.nl)
  ∧ is_Some (World.files r.2 !! ("/out", "zz_8fcb7ff1a3dc_a_py.html"))
  ∧ World.printed r.2 = ["/src/a.py"]
  ∧ World.template r.2
    = Py.replace
        (Py.replace html_content "htmlmut.js" "zx_a9bbde9e6991_htmlmut.js")
        "htmlmut.css" "zx_40724f9f8e71_htmlmut.css".
Proof.
  cbn zeta. split; [vm_compute; reflexivity|].
  split; [vm_compute; reflexivity|].
  split; [vm_compute; by eexists|].
  split; vm_compute; reflexivity.
Qed.
